(** * NotaryQuickCopy: the node store, its codec and the tree operations

    A shallow embedding of [models.py], [utils.py], [storage.py],
    [bundle_io.py] and of the methods of [ui_explorer.py] and
    [ui_file_view.py] that read or change the store, followed by the
    properties of the persistence contract and of the tree operations.

    Conventions of the embedding.
    - A Python [str] is a Rocq [string] holding its UTF-8 bytes.
    - A Python [dict] is an insertion-ordered association list ([dict]);
      [dict_set] overwrites in place or appends, as Python does.
    - A value loaded by [json.load] is a [json]; integers are the only
      numbers modelled (no operation of the store computes with numbers).
    - [uuid.uuid4] is an oracle: the sequence of identifiers it is going to
      return is part of the generator state [idgen].
    - The dataclasses are typed records.  Python does not check field types
      at run time; when a document would put a value of another type into a
      field, the embedding answers [Untyped] and stops there.
    - Every [Node] object of a store sits under exactly one key (all code
      paths allocate a new object per key), so the store is modelled by key
      and a mutation of an object is an update at the key holding it.
    - The data file is an [option json]: [json.dump] followed by
      [json.load] gives the document back, and [None] is a missing file.
    - A text widget is represented by the document [extract_rich_doc] reads
      from it; what a widget shows after [apply_rich_doc] is a variable of
      the section that models the rows of the file view. *)

From Stdlib Require Import String Ascii List Bool Arith ZArith Lia.
Import ListNotations.
Local Open Scope string_scope.
Local Open Scope list_scope.

(** ** Python values *)

Module Py.

Definition dict (V : Type) := list (string * V).

Section Dict.
Context {V : Type}.

Fixpoint dict_get (k : string) (d : dict V) : option V :=
  match d with
  | [] => None
  | (k', v) :: r => if String.eqb k k' then Some v else dict_get k r
  end.

Definition dict_mem (k : string) (d : dict V) : bool :=
  match dict_get k d with Some _ => true | None => false end.

(* d[k] = v *)
Fixpoint dict_set (k : string) (v : V) (d : dict V) : dict V :=
  match d with
  | [] => [(k, v)]
  | (k', v') :: r =>
      if String.eqb k k' then (k', v) :: r else (k', v') :: dict_set k v r
  end.

(* d.pop(k, None) *)
Definition dict_pop (k : string) (d : dict V) : dict V :=
  filter (fun p => negb (String.eqb k (fst p))) d.

Definition dict_keys (d : dict V) : list string := map fst d.

(* d.update(e) *)
Definition dict_update (d e : dict V) : dict V :=
  fold_left (fun acc p => dict_set (fst p) (snd p) acc) e d.
End Dict.

#[local] Set Warnings "-register-all".

Inductive json : Type :=
| JNull
| JBool (b : bool)
| JNum (z : Z)
| JStr (s : string)
| JArr (l : list json)
| JObj (o : list (string * json)).

(* bool(x) *)
Definition truthy (j : json) : bool :=
  match j with
  | JNull => false
  | JBool b => b
  | JNum z => negb (Z.eqb z 0)
  | JStr s => negb (String.eqb s "")
  | JArr l => match l with [] => false | _ => true end
  | JObj o => match o with [] => false | _ => true end
  end.

(* x or y *)
Definition py_or (x y : json) : json := if truthy x then x else y.

(* d.get(k) and d.get(k, default) on a loaded object *)
Definition get (k : string) (o : dict json) : json :=
  match dict_get k o with Some v => v | None => JNull end.

Definition get_default (k : string) (default : json) (o : dict json) : json :=
  match dict_get k o with Some v => v | None => default end.

Definition str_is (j : json) (s : string) : bool :=
  match j with JStr t => String.eqb t s | _ => false end.

(** The characters of a [str]: a UTF-8 continuation byte (10xxxxxx) stays
    with the byte before it. *)
Definition is_cont (c : ascii) : bool :=
  let n := nat_of_ascii c in Nat.leb 128 n && Nat.ltb n 192.

Definition join_char (c : ascii) (r : string) (rest : list string) : list string :=
  match r, rest with
  | String c2 _, x :: xs =>
      if is_cont c2 then String c x :: xs else String c "" :: rest
  | _, _ => String c "" :: rest
  end.

Fixpoint str_chars (s : string) : list string :=
  match s with
  | EmptyString => []
  | String c r => join_char c r (str_chars r)
  end.

Inductive exn := AttributeError | TypeError | ImportError | KeyError.

Inductive result (A : Type) : Type :=
| Ok (a : A)
| Raise (e : exn)
| Untyped.
Arguments Ok {A} a.
Arguments Raise {A} e.
Arguments Untyped {A}.

Definition rbind {A B} (c : result A) (k : A -> result B) : result B :=
  match c with
  | Ok a => k a
  | Raise e => Raise e
  | Untyped => Untyped
  end.

(* for x in j *)
Definition iter (j : json) : result (list json) :=
  match j with
  | JArr l => Ok l
  | JStr s => Ok (map JStr (str_chars s))
  | JObj o => Ok (map JStr (dict_keys o))
  | _ => Raise TypeError
  end.

Fixpoint all_str (l : list json) : result (list string) :=
  match l with
  | [] => Ok []
  | JStr s :: r => rbind (all_str r) (fun t => Ok (s :: t))
  | _ :: _ => Untyped
  end.

(** The identifier oracle: [draw] is the sequence uuid4 returns, [used]
    counts the calls made so far. *)
Record idgen := { draw : nat -> string; used : nat }.

Definition Gen (A : Type) := idgen -> A * idgen.

Definition gret {A} (a : A) : Gen A := fun g => (a, g).

Definition gbind {A B} (c : Gen A) (k : A -> Gen B) : Gen B :=
  fun g => let (a, g1) := c g in k a g1.

End Py.
Export Py.

Declare Scope py_scope.
Delimit Scope py_scope with py.
Notation "x <- c ;; k" := (rbind c (fun x => k))
  (at level 61, c at next level, right associativity) : py_scope.
Notation "x <~ c ;; k" := (gbind c (fun x => k))
  (at level 61, c at next level, right associativity) : py_scope.
Local Open Scope py_scope.

(** ** models.py *)

Module models.

Inductive NodeType := folder | file | shortcut.

Definition NodeType_eqb (a b : NodeType) : bool :=
  match a, b with
  | folder, folder | file, file | shortcut, shortcut => true
  | _, _ => false
  end.

Definition type_str (t : NodeType) : string :=
  match t with folder => "folder" | file => "file" | shortcut => "shortcut" end.

Definition new_id : Gen string :=
  fun g => (draw g (used g), {| draw := draw g; used := S (used g) |}).

Definition blank_rich_doc : json := JObj [("text", JStr ""); ("tags", JArr [])].

Record FileContent := {
  read_doc : json;
  copy_docs : list json
}.

(* FileContent() *)
Definition FileContent_default : FileContent :=
  {| read_doc := blank_rich_doc; copy_docs := [blank_rich_doc] |}.

Record Node := {
  id : string;
  type : NodeType;
  name : string;
  children : list string;
  content : option FileContent;
  target_id : option string
}.

Record Database := {
  quickcopy_root_id : string;
  favorites_root_id : string;
  nodes : dict Node
}.

Definition set_children (n : Node) (c : list string) : Node :=
  {| id := id n; type := type n; name := name n; children := c;
     content := content n; target_id := target_id n |}.

Definition set_name (n : Node) (s : string) : Node :=
  {| id := id n; type := type n; name := s; children := children n;
     content := content n; target_id := target_id n |}.

Definition set_nodes (db : Database) (ns : dict Node) : Database :=
  {| quickcopy_root_id := quickcopy_root_id db;
     favorites_root_id := favorites_root_id db;
     nodes := ns |}.

(** [obj.children.append(c)] for the object [obj] that was read from the
    store under [key] before the store was assigned at [written]: the
    object is still the one under [key] unless that assignment replaced
    it. *)
Definition append_child (key written : string) (obj : Node) (c : string)
    (ns : dict Node) : dict Node :=
  if String.eqb key written then ns
  else dict_set key (set_children obj (children obj ++ [c])) ns.

Definition blank_database : Gen Database :=
  fav_id <~ new_id ;;
  qc_id <~ new_id ;;
  let fav_root := {| id := fav_id; type := folder; name := "Favorites";
                     children := []; content := None; target_id := None |} in
  let qc_root := {| id := qc_id; type := folder; name := "QuickCopy";
                    children := []; content := None; target_id := None |} in
  gret {| quickcopy_root_id := id qc_root;
          favorites_root_id := id fav_root;
          nodes := dict_set (id qc_root) qc_root
                     (dict_set (id fav_root) fav_root []) |}.

(** *** serialization helpers *)

Definition opt_str (o : option string) : json :=
  match o with Some s => JStr s | None => JNull end.

Definition node_to_dict (node : Node) : json :=
  JObj [ ("id", JStr (id node));
         ("type", JStr (type_str (type node)));
         ("name", JStr (name node));
         ("children", JArr (map JStr (children node)));
         ("content",
           match type node, content node with
           | file, Some c =>
               JObj [("read_doc", read_doc c); ("copy_docs", JArr (copy_docs c))]
           | _, _ => JNull
           end);
         ("target_id", opt_str (target_id node)) ].

Definition db_to_dict (db : Database) : json :=
  let out_nodes :=
    fold_left (fun out p => dict_set (fst p) (node_to_dict (snd p)) out)
              (nodes db) [] in
  JObj [ ("quickcopy_root_id", JStr (quickcopy_root_id db));
         ("favorites_root_id", JStr (favorites_root_id db));
         ("nodes", JObj out_nodes) ].

Definition text_doc (s : json) : json := JObj [("text", s); ("tags", JArr [])].

Definition _upgrade_legacy_content (content_raw : json) : result FileContent :=
  match content_raw with
  | JObj o =>
      if dict_mem "read_doc" o || dict_mem "copy_docs" o then
        (* New format *)
        let read_doc := py_or (get "read_doc" o) blank_rich_doc in
        let copy_docs := py_or (get "copy_docs" o) (JArr [blank_rich_doc]) in
        match copy_docs with
        | JArr l => Ok {| read_doc := read_doc; copy_docs := l |}
        | _ => Untyped
        end
      else
        (* Legacy format *)
        let read_text := py_or (get_default "read_text" (JStr "") o) (JStr "") in
        let copy_blocks := py_or (get_default "copy_blocks" (JArr []) o) (JArr []) in
        let copy_blocks := if truthy copy_blocks then copy_blocks else JArr [JStr ""] in
        blocks <- iter copy_blocks ;;
        Ok {| read_doc := text_doc read_text; copy_docs := map text_doc blocks |}
  | _ => Ok FileContent_default
  end.

(* the [type] a parsed node gets *)
Definition node_type_of (ntype : json) : NodeType :=
  if str_is ntype "file" then file
  else if str_is ntype "shortcut" then shortcut
  else folder.

(* d.get("id", node_id), used as a key of the node mapping *)
Definition raw_id (node_id : string) (d : dict json) : result string :=
  match get_default "id" (JStr node_id) d with
  | JStr s => Ok s
  | JArr _ | JObj _ => Raise TypeError
  | _ => Untyped
  end.

(* list(d.get("children", [])) *)
Definition raw_children (d : dict json) : result (list string) :=
  match get_default "children" (JArr []) d with
  | JArr l => all_str l
  | JStr s => Ok (str_chars s)
  | JObj o => Ok (dict_keys o)
  | _ => Raise TypeError
  end.

Definition parse_node (node_id : string) (d : dict json) : result Node :=
  let ntype := get_default "type" (JStr "folder") d in
  target_id <- match get "target_id" d with
               | JNull => Ok None
               | JStr s => Ok (Some s)
               | _ => Untyped
               end ;;
  content <- (if str_is ntype "file"
              then c <- _upgrade_legacy_content (py_or (get "content" d) (JObj [])) ;;
                   Ok (Some c)
              else Ok None) ;;
  nid <- raw_id node_id d ;;
  name <- match get_default "name" (JStr "Untitled") d with
          | JStr s => Ok s
          | _ => Untyped
          end ;;
  children <- raw_children d ;;
  Ok {| id := nid; type := node_type_of ntype; name := name;
        children := children; content := content; target_id := target_id |}.

(* the first loop of db_from_dict *)
Fixpoint parse_nodes (items : dict json) (nodes : dict Node) : result (dict Node) :=
  match items with
  | [] => Ok nodes
  | (node_id, JObj d) :: rest =>
      node <- parse_node node_id d ;;
      parse_nodes rest (dict_set (id node) node nodes)
  | _ :: rest => parse_nodes rest nodes
  end.

(* (nodes_raw or {}).items() *)
Definition raw_items (nodes_raw : json) : result (dict json) :=
  if truthy nodes_raw then
    match nodes_raw with
    | JObj o => Ok o
    | _ => Raise AttributeError
    end
  else Ok [].

(* j in nodes, for a truthy j *)
Definition in_nodes (j : json) (nodes : dict Node) : result bool :=
  match j with
  | JStr s => Ok (dict_mem s nodes)
  | JArr _ | JObj _ => Raise TypeError
  | _ => Ok false
  end.

(* (not j) or (j not in nodes) *)
Definition missing_root (j : json) (nodes : dict Node) : result bool :=
  if truthy j then b <- in_nodes j nodes ;; Ok (negb b) else Ok true.

(* the loop condition shared by every favourites scan:
   n and n.type == "shortcut" and n.target_id == file_id *)
Definition shortcut_to (nodes : dict Node) (file_id cid : string) : bool :=
  match dict_get cid nodes with
  | Some n =>
      NodeType_eqb (type n) shortcut &&
      match target_id n with Some t => String.eqb t file_id | None => false end
  | None => false
  end.

Definition _ensure_favorite_shortcut (db : Database) (file_id : string)
    : Gen Database :=
  match dict_get (favorites_root_id db) (nodes db) with
  | None => gret db
  | Some fav_root =>
      if negb (NodeType_eqb (type fav_root) folder) then gret db
      else if existsb (shortcut_to (nodes db) file_id) (children fav_root)
      then gret db
      else
        match dict_get file_id (nodes db) with
        | None => gret db
        | Some target =>
            if negb (NodeType_eqb (type target) file) then gret db
            else
              sc_id <~ new_id ;;
              let sc := {| id := sc_id; type := shortcut; name := name target;
                           children := []; content := None;
                           target_id := Some file_id |} in
              let nodes1 := dict_set (id sc) sc (nodes db) in
              gret (set_nodes db
                      (append_child (favorites_root_id db) (id sc) fav_root
                                    (id sc) nodes1))
        end
  end.

(* the second loop of db_from_dict *)
Fixpoint migrate_pinned (items : dict json) (db : Database)
    : Gen (result Database) :=
  match items with
  | [] => gret (Ok db)
  | (nid, raw) :: rest =>
      match raw with
      | JObj d =>
          match get "pinned" d with
          | JBool true =>
              match raw_id nid d with
              | Ok file_id =>
                  db1 <~ _ensure_favorite_shortcut db file_id ;;
                  migrate_pinned rest db1
              | Raise e => gret (Raise e)
              | Untyped => gret Untyped
              end
          | _ => migrate_pinned rest db
          end
      | _ => migrate_pinned rest db
      end
  end.

Definition db_from_dict (data : json) : Gen (result Database) :=
  match data with
  | JObj top =>
      let nodes_raw := get_default "nodes" (JObj []) top in
      (* Legacy support: if old file had root_id, treat it as quickcopy root *)
      let legacy_root_id := get "root_id" top in
      match (items <- raw_items nodes_raw ;;
             nodes <- parse_nodes items [] ;;
             let qc_root := get "quickcopy_root_id" top in
             legacy <- missing_root qc_root nodes ;;
             Ok (items, nodes, qc_root, legacy)) with
      | Raise e => gret (Raise e)
      | Untyped => gret Untyped
      | Ok (items, nodes, qc_root, legacy) =>
          let fav_root := get "favorites_root_id" top in
          if (legacy : bool) then
            (* legacy: build new roots + attach old root under quickcopy *)
            db <~ blank_database ;;
            match (if truthy legacy_root_id
                   then b <- in_nodes legacy_root_id nodes ;;
                        Ok (b && match legacy_root_id with
                                 | JStr r =>
                                     match dict_get r nodes with
                                     | Some n => NodeType_eqb (type n) folder
                                     | None => false
                                     end
                                 | _ => false
                                 end)
                   else Ok false) with
            | Raise e => gret (Raise e)
            | Untyped => gret Untyped
            | Ok attach =>
                let merged := dict_update (models.nodes db) nodes in
                if (attach : bool) then
                  match legacy_root_id, dict_get (quickcopy_root_id db) merged with
                  | JStr r, Some qc =>
                      gret (Ok (set_nodes db
                                  (dict_set (quickcopy_root_id db)
                                     (set_children qc (children qc ++ [r])) merged)))
                  | _, _ => gret (Raise KeyError)
                  end
                else gret (Ok (set_nodes db merged))
            end
          else
            match qc_root, missing_root fav_root nodes with
            | JStr qc, Ok fav_missing =>
                (* Ensure favorites root *)
                nf <~ (if (fav_missing : bool) then
                         fav_id <~ new_id ;;
                         let fav := {| id := fav_id; type := folder;
                                       name := "Favorites"; children := [];
                                       content := None; target_id := None |} in
                         gret (Ok (dict_set (id fav) fav nodes, id fav))
                       else
                         match fav_root with
                         | JStr f => gret (Ok (nodes, f))
                         | _ => gret Untyped
                         end) ;;
                match nf with
                | Ok (nodes1, fav) =>
                    migrate_pinned items
                      {| quickcopy_root_id := qc; favorites_root_id := fav;
                         nodes := nodes1 |}
                | Raise e => gret (Raise e)
                | Untyped => gret Untyped
                end
            | _, Raise e => gret (Raise e)
            | _, _ => gret Untyped
            end
      end
  | _ =>
      db <~ blank_database ;;
      gret (Ok db)
  end.

End models.

(** ** utils.py *)

Module utils.

Definition byte_in (lo hi : nat) (a : ascii) : bool :=
  let n := nat_of_ascii a in Nat.leb lo n && Nat.leb n hi.

Definition byte_is (v : nat) (a : ascii) : bool := Nat.eqb (nat_of_ascii a) v.

(** The characters [str.strip] removes, by their UTF-8 encoding:
    U+0009..000D, U+001C..0020; U+0085, U+00A0; U+1680, U+2000..200A,
    U+2028, U+2029, U+202F, U+205F, U+3000. *)
Definition is_space1 (a : ascii) : bool := byte_in 9 13 a || byte_in 28 32 a.

Definition is_space2 (a b : ascii) : bool :=
  byte_is 194 a && (byte_is 133 b || byte_is 160 b).

Definition is_space3 (a b c : ascii) : bool :=
  (byte_is 225 a && byte_is 154 b && byte_is 128 c)
  || (byte_is 226 a && byte_is 128 b
      && (byte_in 128 138 c || byte_is 168 c || byte_is 169 c || byte_is 175 c))
  || (byte_is 226 a && byte_is 129 b && byte_is 159 c)
  || (byte_is 227 a && byte_is 128 b && byte_is 128 c).

Fixpoint lstrip (s : list ascii) : list ascii :=
  match s with
  | [] => []
  | a :: r =>
      if is_space1 a then lstrip r
      else match r with
           | b :: r2 =>
               if is_space2 a b then lstrip r2
               else match r2 with
                    | c :: r3 => if is_space3 a b c then lstrip r3 else s
                    | [] => s
                    end
           | [] => s
           end
  end.

(* the same scan from the end, on the reversed bytes *)
Fixpoint rstrip_rev (s : list ascii) : list ascii :=
  match s with
  | [] => []
  | a :: r =>
      if is_space1 a then rstrip_rev r
      else match r with
           | b :: r2 =>
               if is_space2 b a then rstrip_rev r2
               else match r2 with
                    | c :: r3 => if is_space3 c b a then rstrip_rev r3 else s
                    | [] => s
                    end
           | [] => s
           end
  end.

(* s.strip() *)
Definition strip (s : string) : string :=
  string_of_list_ascii
    (rev (rstrip_rev (rev (lstrip (list_ascii_of_string s))))).

(* [name or ""] is [name] for a str *)
Definition safe_name (name : string) : string :=
  let name := strip name in
  if String.eqb name "" then "Untitled" else name.

End utils.

(** ** ui_explorer.py: the store-mutating part of ExplorerView *)

Module ui_explorer.
Import models utils.

Record ExplorerView := {
  db : Database;
  current_folder_id : string
}.

Definition with_nodes (v : ExplorerView) (ns : dict Node) : ExplorerView :=
  {| db := set_nodes (db v) ns; current_folder_id := current_folder_id v |}.

(** The selections of the two tree widgets are inputs: [rid] is the row
    selected in the contents list, [lid] the one in the folder tree.  The
    answer is the node object together with the key it is stored under. *)
Definition _get_selected_node_anywhere (v : ExplorerView)
    (rid lid : option string) : option (string * Node) :=
  let pick (x : option string) :=
    match x with
    | Some k =>
        if String.eqb k "" then None
        else match dict_get k (nodes (db v)) with
             | Some n => Some (k, n)
             | None => None
             end
    | None => None
    end in
  match pick rid with
  | Some r => Some r
  | None => pick lid
  end.

(** *** Favorites logic (shortcuts) *)

Definition is_favorited (v : ExplorerView) (file_id : string) : bool :=
  match dict_get (favorites_root_id (db v)) (nodes (db v)) with
  | None => false
  | Some fav_root =>
      if negb (NodeType_eqb (type fav_root) folder) then false
      else existsb (shortcut_to (nodes (db v)) file_id) (children fav_root)
  end.

Definition _add_shortcut_for_target (v : ExplorerView) (file_id : string)
    : Gen ExplorerView :=
  match dict_get file_id (nodes (db v)),
        dict_get (favorites_root_id (db v)) (nodes (db v)) with
  | Some target, Some fav_root =>
      if negb (NodeType_eqb (type target) file)
         || negb (NodeType_eqb (type fav_root) folder) then gret v
      else if existsb (shortcut_to (nodes (db v)) file_id) (children fav_root)
      then gret v
      else
        sc_id <~ new_id ;;
        let sc := {| id := sc_id; type := shortcut; name := name target;
                     children := []; content := None;
                     target_id := Some file_id |} in
        let nodes1 := dict_set (id sc) sc (nodes (db v)) in
        gret (with_nodes v
                (append_child (favorites_root_id (db v)) (id sc) fav_root
                              (id sc) nodes1))
  | _, _ => gret v
  end.

(* l.remove(x), for an x that occurs in l *)
Fixpoint list_remove (x : string) (l : list string) : list string :=
  match l with
  | [] => []
  | y :: r => if String.eqb y x then r else y :: list_remove x r
  end.

(* the loop of _remove_shortcut_for_target over list(fav_root.children) *)
Fixpoint remove_first_shortcut (file_id fav_key : string) (fav_root : Node)
    (cids : list string) (ns : dict Node) : dict Node :=
  match cids with
  | [] => ns
  | cid :: rest =>
      if shortcut_to ns file_id cid then
        dict_pop cid
          (dict_set fav_key
             (set_children fav_root (list_remove cid (children fav_root))) ns)
      else remove_first_shortcut file_id fav_key fav_root rest ns
  end.

Definition _remove_shortcut_for_target (v : ExplorerView) (file_id : string)
    : ExplorerView :=
  match dict_get (favorites_root_id (db v)) (nodes (db v)) with
  | None => v
  | Some fav_root =>
      if negb (NodeType_eqb (type fav_root) folder) then v
      else with_nodes v
             (remove_first_shortcut file_id (favorites_root_id (db v)) fav_root
                                    (children fav_root) (nodes (db v)))
  end.

Definition _remove_shortcut (v : ExplorerView) (shortcut_id : string)
    : ExplorerView :=
  let ns :=
    match dict_get (favorites_root_id (db v)) (nodes (db v)) with
    | Some fav_root =>
        if NodeType_eqb (type fav_root) folder then
          dict_set (favorites_root_id (db v))
            (set_children fav_root
               (filter (fun c => negb (String.eqb c shortcut_id))
                       (children fav_root)))
            (nodes (db v))
        else nodes (db v)
    | None => nodes (db v)
    end in
  with_nodes v (dict_pop shortcut_id ns).

Definition toggle_favorite_selected (v : ExplorerView)
    (rid lid : option string) : Gen ExplorerView :=
  match _get_selected_node_anywhere v rid lid with
  | None => gret v
  | Some (_, node) =>
      match type node with
      | shortcut => gret (_remove_shortcut v (id node))
      | file =>
          if is_favorited v (id node)
          then gret (_remove_shortcut_for_target v (id node))
          else _add_shortcut_for_target v (id node)
      | folder => gret v
      end
  end.

(** *** Create / Rename / Delete *)

(* self.db.nodes.get(self.current_folder_id) or
   self.db.nodes.get(self.db.quickcopy_root_id), with the key it sits under *)
Definition creation_parent (v : ExplorerView) : option (string * Node) :=
  match dict_get (current_folder_id v) (nodes (db v)) with
  | Some p => Some (current_folder_id v, p)
  | None =>
      match dict_get (quickcopy_root_id (db v)) (nodes (db v)) with
      | Some p => Some (quickcopy_root_id (db v), p)
      | None => None
      end
  end.

Definition create_node (v : ExplorerView) (answer : option string)
    (mk : string -> string -> Node) : Gen ExplorerView :=
  match creation_parent v with
  | None => gret v
  | Some (pkey, parent) =>
      if negb (NodeType_eqb (type parent) folder) then gret v
      else match answer with
           | None => gret v
           | Some name =>
               let name := safe_name name in
               nid <~ new_id ;;
               let new_node := mk nid name in
               let nodes1 := dict_set (id new_node) new_node (nodes (db v)) in
               gret (with_nodes v
                       (append_child pkey (id new_node) parent (id new_node)
                                     nodes1))
           end
  end.

(* [answer] is what the name prompt returns: None when it is cancelled *)
Definition create_folder (v : ExplorerView) (answer : option string)
    : Gen ExplorerView :=
  create_node v answer
    (fun nid name => {| id := nid; type := folder; name := name;
                        children := []; content := None; target_id := None |}).

Definition create_file (v : ExplorerView) (answer : option string)
    : Gen ExplorerView :=
  create_node v answer
    (fun nid name =>
       {| id := nid; type := file; name := name; children := [];
          content := Some {| read_doc := blank_rich_doc;
                             copy_docs := [blank_rich_doc] |};
          target_id := None |}).

Definition is_root (d : Database) (k : string) : bool :=
  String.eqb k (favorites_root_id d) || String.eqb k (quickcopy_root_id d).

(* the loop of rename_selected over fav_root.children *)
Definition sync_shortcut_names (file_id new_name : string)
    (cids : list string) (ns : dict Node) : dict Node :=
  fold_left
    (fun acc cid =>
       if shortcut_to acc file_id cid then
         match dict_get cid acc with
         | Some sc => dict_set cid (set_name sc new_name) acc
         | None => acc
         end
       else acc)
    cids ns.

(* if node.type == "shortcut" and node.target_id in self.db.nodes:
     node = self.db.nodes[node.target_id] *)
Definition rename_target (v : ExplorerView) (key : string) (node : Node)
    : string * Node :=
  match type node, target_id node with
  | shortcut, Some t =>
      match dict_get t (nodes (db v)) with
      | Some tn => (t, tn)
      | None => (key, node)
      end
  | _, _ => (key, node)
  end.

Definition rename_selected (v : ExplorerView) (rid lid : option string)
    (answer : option string) : ExplorerView :=
  match _get_selected_node_anywhere v rid lid with
  | None => v
  | Some (key, node) =>
      if is_root (db v) (id node) then v
      else
        let '(key, node) := rename_target v key node in
        match answer with
        | None => v
        | Some new_name =>
            let node := set_name node (safe_name new_name) in
            let nodes1 := dict_set key node (nodes (db v)) in
            let nodes2 :=
              match type node with
              | file =>
                  match dict_get (favorites_root_id (db v)) nodes1 with
                  | Some fav_root =>
                      if NodeType_eqb (type fav_root) folder then
                        sync_shortcut_names (id node) (name node)
                                            (children fav_root) nodes1
                      else nodes1
                  | None => nodes1
                  end
              | _ => nodes1
              end in
            with_nodes v nodes2
        end
  end.

(* for n in self.db.nodes.values(): first folder listing child_id *)
Fixpoint _find_parent_folder (ns : dict Node) (child_id : string)
    : option (string * Node) :=
  match ns with
  | [] => None
  | (k, n) :: rest =>
      if NodeType_eqb (type n) folder
         && existsb (String.eqb child_id) (children n)
      then Some (k, n)
      else _find_parent_folder rest child_id
  end.

(** The recursion of [_delete_subtree] has no bound of its own in the
    source; [fuel] bounds its depth here and [None] means it ran out. *)
Fixpoint _delete_subtree (fuel : nat) (ns : dict Node) (node_id : string)
    : option (dict Node) :=
  match fuel with
  | O => None
  | S fuel' =>
      match dict_get node_id ns with
      | None => Some ns
      | Some node =>
          let after :=
            match type node with
            | folder =>
                fold_left
                  (fun acc cid =>
                     match acc with
                     | Some ns1 => _delete_subtree fuel' ns1 cid
                     | None => None
                     end)
                  (children node) (Some ns)
            | _ => Some ns
            end in
          match after with
          | Some ns1 => Some (dict_pop node_id ns1)
          | None => None
          end
      end
  end.

(* [confirm] is the answer to the yes/no prompt *)
Definition delete_selected (fuel : nat) (v : ExplorerView)
    (rid lid : option string) (confirm : bool) : option ExplorerView :=
  match _get_selected_node_anywhere v rid lid with
  | None => Some v
  | Some (_, node) =>
      if is_root (db v) (id node) then Some v
      else
        match type node with
        | shortcut =>
            if negb confirm then Some v
            else Some (_remove_shortcut v (id node))
        | _ =>
            if negb confirm then Some v
            else
              let parent := _find_parent_folder (nodes (db v)) (id node) in
              let v1 :=
                match parent with
                | Some (pkey, p) =>
                    with_nodes v
                      (dict_set pkey
                         (set_children p
                            (filter (fun cid => negb (String.eqb cid (id node)))
                                    (children p)))
                         (nodes (db v)))
                | None => v
                end in
              let v2 :=
                match type node with
                | file => _remove_shortcut_for_target v1 (id node)
                | _ => v1
                end in
              let cur :=
                if NodeType_eqb (type node) folder
                   && String.eqb (id node) (current_folder_id v2)
                then match parent with
                     | Some (_, p) => id p
                     | None => quickcopy_root_id (db v2)
                     end
                else current_folder_id v2 in
              match _delete_subtree fuel (nodes (db v2)) (id node) with
              | Some ns => Some {| db := set_nodes (db v2) ns;
                                   current_folder_id := cur |}
              | None => None
              end
        end
  end.

(** *** Export / Import *)

(* d[k] *)
Definition subscript {V : Type} (d : dict V) (k : string) : result V :=
  match dict_get k d with Some v => Ok v | None => Raise KeyError end.

(* for old_id in incoming.nodes.keys():
     id_map[old_id] = (new_id() if old_id in self.db.nodes else old_id) *)
Fixpoint remap_ids (mine : dict Node) (old_ids : list string)
    (id_map : dict string) : Gen (dict string) :=
  match old_ids with
  | [] => gret id_map
  | old_id :: rest =>
      nid <~ (if dict_mem old_id mine then new_id else gret old_id) ;;
      remap_ids mine rest (dict_set old_id nid id_map)
  end.

(* [id_map[c] for c in cs if c in id_map] *)
Definition remap_children (id_map : dict string) (cs : list string)
    : list string :=
  flat_map (fun c => match dict_get c id_map with
                     | Some n => [n]
                     | None => []
                     end) cs.

(* id_map.get(t) for an optional t *)
Definition remap_target (id_map : dict string) (t : option string)
    : option string :=
  match t with Some t => dict_get t id_map | None => None end.

(** The loops below mutate the store and may stop on an exception: they
    answer the outcome together with the store as the exception leaves
    it. *)
Fixpoint insert_imported (id_map : dict string) (items : dict Node)
    (ns : dict Node) : result unit * dict Node :=
  match items with
  | [] => (Ok tt, ns)
  | (old_id, node) :: rest =>
      match subscript id_map old_id with
      | Ok nid =>
          let newnode :=
            {| id := nid; type := type node; name := name node;
               children := []; content := content node;
               target_id := match type node with
                            | shortcut => remap_target id_map (target_id node)
                            | _ => target_id node
                            end |} in
          insert_imported id_map rest (dict_set (id newnode) newnode ns)
      | Raise e => (Raise e, ns)
      | Untyped => (Untyped, ns)
      end
  end.

Fixpoint relink_children (id_map : dict string) (items : dict Node)
    (ns : dict Node) : result unit * dict Node :=
  match items with
  | [] => (Ok tt, ns)
  | (old_id, node) :: rest =>
      match type node with
      | folder =>
          match (nid <- subscript id_map old_id ;;
                 obj <- subscript ns nid ;;
                 Ok (nid, obj)) with
          | Ok (nid, obj) =>
              relink_children id_map rest
                (dict_set nid
                   (set_children obj (remap_children id_map (children node)))
                   ns)
          | Raise e => (Raise e, ns)
          | Untyped => (Untyped, ns)
          end
      | _ => relink_children id_map rest ns
      end
  end.

(* attach the incoming QuickCopy root under the current folder *)
Definition attach_quickcopy (v : ExplorerView) (qc_in : option string)
    (ns : dict Node) : result unit * dict Node :=
  let current :=
    match dict_get (current_folder_id v) ns with
    | Some a =>
        if NodeType_eqb (type a) folder then Some (current_folder_id v, a)
        else None
    | None => None
    end in
  let attach_under :=
    match current with
    | Some ka => Ok ka
    | None =>
        a <- subscript ns (quickcopy_root_id (db v)) ;;
        Ok (quickcopy_root_id (db v), a)
    end in
  match attach_under with
  | Ok (akey, a) =>
      match qc_in with
      | Some q =>
          if negb (String.eqb q "") && dict_mem q ns
          then (Ok tt, dict_set akey (set_children a (children a ++ [q])) ns)
          else (Ok tt, ns)
      | None => (Ok tt, ns)
      end
  | Raise e => (Raise e, ns)
  | Untyped => (Untyped, ns)
  end.

(* for cid in incoming_fav_folder.children:
     if cid not in my_fav.children: my_fav.children.append(cid) *)
Definition merge_children (mine incoming : list string) : list string :=
  fold_left (fun acc cid =>
               if existsb (String.eqb cid) acc then acc else acc ++ [cid])
            incoming mine.

Definition merge_favorites (v : ExplorerView) (fav_in : option string)
    (ns : dict Node) : result unit * dict Node :=
  match fav_in with
  | Some f =>
      if negb (String.eqb f "") then
        match dict_get f ns with
        | Some incoming_fav_folder =>
            match subscript ns (favorites_root_id (db v)) with
            | Ok my_fav =>
                (Ok tt,
                 dict_set (favorites_root_id (db v))
                   (set_children my_fav
                      (merge_children (children my_fav)
                                      (children incoming_fav_folder)))
                   ns)
            | Raise e => (Raise e, ns)
            | Untyped => (Untyped, ns)
            end
        | None => (Ok tt, ns)
        end
      else (Ok tt, ns)
  | None => (Ok tt, ns)
  end.

(* run [k] on the store when the step before it went through *)
Definition and_then (c : result unit * dict Node)
    (k : dict Node -> result unit * dict Node) : result unit * dict Node :=
  match c with
  | (Ok _, ns) => k ns
  | (r, ns) => (r, ns)
  end.

(** [raw] is the document read from the chosen file.  An exception of
    [db_from_dict] is caught and reported, the store untouched. *)
Definition import_bundle (v : ExplorerView) (raw : json)
    : Gen (result unit * ExplorerView) :=
  r <~ db_from_dict raw ;;
  match r with
  | Raise _ => gret (Ok tt, v)
  | Untyped => gret (Untyped, v)
  | Ok incoming =>
      id_map <~ remap_ids (nodes (db v)) (dict_keys (nodes incoming)) [] ;;
      let '(r1, ns) :=
        and_then
          (and_then
             (and_then
                (insert_imported id_map (nodes incoming) (nodes (db v)))
                (relink_children id_map (nodes incoming)))
             (attach_quickcopy v (dict_get (quickcopy_root_id incoming) id_map)))
          (merge_favorites v (dict_get (favorites_root_id incoming) id_map)) in
      gret (r1, with_nodes v ns)
  end.

(** *** Navigation *)

(** What [open_selected] does with the selection: it hands a file id to
    [on_open_file], shows the contents of a folder, reports the
    "Missing target" error, or returns at once. *)
Inductive opening :=
| OpenFile (file_id : string)
| ShowFolder
| MissingTarget
| NoSelection.

Definition open_selected (v : ExplorerView) (rid lid : option string)
    : ExplorerView * opening :=
  match _get_selected_node_anywhere v rid lid with
  | None => (v, NoSelection)
  | Some (_, node) =>
      match type node with
      | folder =>
          ({| db := db v; current_folder_id := id node |}, ShowFolder)
      | shortcut =>
          let target :=
            match target_id node with
            | Some t =>
                if String.eqb t "" then None else dict_get t (nodes (db v))
            | None => None
            end in
          match target with
          | Some tn =>
              if NodeType_eqb (type tn) file then (v, OpenFile (id tn))
              else (v, MissingTarget)
          | None => (v, MissingTarget)
          end
      | file => (v, OpenFile (id node))
      end
  end.

End ui_explorer.

(** ** ui_file_view.py: the store-mutating part of FileView *)

Module ui_file_view.
Import models.

Record FileView := {
  db : Database;
  file_id : option string;
  lock_var : bool;
  (* the documents held by the copy-section widgets, in display order *)
  block_widgets : list json
}.

Definition with_blocks (fv : FileView) (b : list json) : FileView :=
  {| db := db fv; file_id := file_id fv; lock_var := lock_var fv;
     block_widgets := b |}.

Definition with_nodes (fv : FileView) (ns : dict Node) : FileView :=
  {| db := set_nodes (db fv) ns; file_id := file_id fv;
     lock_var := lock_var fv; block_widgets := block_widgets fv |}.

(* l.pop(idx), for 0 <= idx < len(l) *)
Definition list_pop {A : Type} (idx : nat) (l : list A) : list A :=
  firstn idx l ++ skipn (S idx) l.

(** The second component tells whether the "You must keep at least one
    copy section." notice was shown. *)
Definition _remove_block (fv : FileView) (idx : Z) : FileView * bool :=
  if lock_var fv then (fv, false)
  else if Nat.leb (length (block_widgets fv)) 1 then (fv, true)
  else if Z.ltb idx 0 || Z.leb (Z.of_nat (length (block_widgets fv))) idx
  then (fv, false)
  else (with_blocks fv (list_pop (Z.to_nat idx) (block_widgets fv)), false).

Definition _add_block (fv : FileView) : FileView :=
  if lock_var fv then fv
  else with_blocks fv (block_widgets fv ++ [JObj [("text", JStr ""); ("tags", JArr [])]]).

(** *** Favorites *)

Definition _is_favorited (fv : FileView) : bool :=
  match file_id fv with
  | None => false
  | Some fid =>
      if String.eqb fid "" then false
      else
        match dict_get (favorites_root_id (db fv)) (nodes (db fv)) with
        | None => false
        | Some fav_root =>
            if negb (NodeType_eqb (type fav_root) folder) then false
            else existsb (shortcut_to (nodes (db fv)) fid) (children fav_root)
        end
  end.

Definition _toggle_favorite (fv : FileView) : Gen FileView :=
  match file_id fv with
  | None => gret fv
  | Some fid =>
      if String.eqb fid "" then gret fv
      else
        match dict_get (favorites_root_id (db fv)) (nodes (db fv)) with
        | None => gret fv
        | Some fav_root =>
            if negb (NodeType_eqb (type fav_root) folder) then gret fv
            else if _is_favorited fv then
              (* the loop is the one of ExplorerView._remove_shortcut_for_target *)
              gret (with_nodes fv
                      (ui_explorer.remove_first_shortcut fid
                         (favorites_root_id (db fv)) fav_root
                         (children fav_root) (nodes (db fv))))
            else
              match dict_get fid (nodes (db fv)) with
              | None => gret fv
              | Some target =>
                  if negb (NodeType_eqb (type target) file) then gret fv
                  else
                    sc_id <~ new_id ;;
                    let sc := {| id := sc_id; type := shortcut;
                                 name := name target; children := [];
                                 content := None; target_id := Some fid |} in
                    let nodes1 := dict_set (id sc) sc (nodes (db fv)) in
                    gret (with_nodes fv
                            (append_child (favorites_root_id (db fv)) (id sc)
                                          fav_root (id sc) nodes1))
              end
        end
  end.

(** *** Reordering the copy sections *)

(* the position l[i] reads or writes: a negative i counts from the end *)
Definition py_pos (len : nat) (i : Z) : option nat :=
  if Z.leb 0 i && Z.ltb i (Z.of_nat len) then Some (Z.to_nat i)
  else if Z.leb (- Z.of_nat len) i && Z.ltb i 0
  then Some (Z.to_nat (Z.of_nat len + i))
  else None.

(* l[i] = x, for a position of l *)
Definition list_set {A : Type} (i : nat) (x : A) (l : list A) : list A :=
  firstn i l ++ x :: skipn (S i) l.

Section Widgets.

(** A text widget is represented by the document [extract_rich_doc] reads
    from it.  [shown doc] is that document for a widget just filled from
    [doc] by [apply_rich_doc]; Tk decides it, and [None] stands for an
    exception of [apply_rich_doc], which no caller catches. *)
Variable shown : json -> option json.

(* for i, doc in enumerate(docs, start=1): self._create_block_row(i, doc) *)
Fixpoint create_rows (docs : list json) : option (list json) :=
  match docs with
  | [] => Some []
  | doc :: rest =>
      match shown doc with
      | Some w =>
          match create_rows rest with
          | Some ws => Some (w :: ws)
          | None => None
          end
      | None => None
      end
  end.

(** [None]: the call ended on an exception. *)
Definition _rebuild_blocks (fv : FileView) (docs : list json)
    : option FileView :=
  let docs := match docs with [] => [blank_rich_doc] | _ => docs end in
  match create_rows docs with
  | Some ws => Some (with_blocks fv ws)
  | None => None
  end.

Definition _move_block (fv : FileView) (idx direction : Z)
    : option FileView :=
  if lock_var fv then Some fv
  else
    let new_idx := (idx + direction)%Z in
    if Z.ltb new_idx 0 || Z.leb (Z.of_nat (length (block_widgets fv))) new_idx
    then Some fv
    else
      (* Capture current docs from UI, reorder, then rebuild blocks *)
      let docs := block_widgets fv in
      match py_pos (length docs) idx, nth_error docs (Z.to_nat new_idx) with
      | Some i, Some a =>
          match nth_error docs i with
          | Some b =>
              _rebuild_blocks fv
                (list_set (Z.to_nat new_idx) b (list_set i a docs))
          | None => None
          end
      | _, _ => None  (* IndexError *)
      end.

End Widgets.

(** *** Save *)

(* Persisted per-file inside read_doc *)
Definition _LOCK_KEY : string := "_locked".
Definition _AUTOSAVE_KEY : string := "_autosave".
Definition _LAST_SAVED_KEY : string := "_last_saved_ts".

(** The view with its read widget and the settings of [self._meta]. *)
Record Editor := {
  view : FileView;
  read_text : json;
  meta_locked : bool;
  meta_autosave : bool;
  meta_last_saved : json
}.

Definition with_view (e : Editor) (fv : FileView) : Editor :=
  {| view := fv; read_text := read_text e; meta_locked := meta_locked e;
     meta_autosave := meta_autosave e; meta_last_saved := meta_last_saved e |}.

Definition _read_meta (content : FileContent) (key : string) (default : json)
    : json :=
  match read_doc content with
  | JObj o => get_default key default o
  | _ => default
  end.

(* the "Load meta" step of _render_from_content *)
Definition load_meta (content : FileContent) : bool * bool * json :=
  (truthy (_read_meta content _LOCK_KEY (JBool false)),
   truthy (_read_meta content _AUTOSAVE_KEY (JBool false)),
   _read_meta content _LAST_SAVED_KEY JNull).

Definition _collect_content_from_ui (e : Editor) : FileContent :=
  let copy_docs :=
    match block_widgets (view e) with
    | [] => [blank_rich_doc]
    | docs => docs
    end in
  (* Preserve persisted metadata keys in read_doc *)
  let read_doc :=
    match read_text e with
    | JObj o => o
    | _ => [("text", JStr ""); ("tags", JArr [])]
    end in
  let read_doc := dict_set _LOCK_KEY (JBool (meta_locked e)) read_doc in
  let read_doc := dict_set _AUTOSAVE_KEY (JBool (meta_autosave e)) read_doc in
  let read_doc := dict_set _LAST_SAVED_KEY (meta_last_saved e) read_doc in
  {| read_doc := JObj read_doc; copy_docs := copy_docs |}.

Definition set_content (n : Node) (c : FileContent) : Node :=
  {| id := id n; type := type n; name := name n; children := children n;
     content := Some c; target_id := target_id n |}.

(** [now] is what [_now_iso] returns.  The store and [self._meta] are as
    the call leaves them, whether or not the display refresh that follows
    the assignment raises (the exception is caught). *)
Definition _save (e : Editor) (now : string) : Editor :=
  match file_id (view e) with
  | None => e
  | Some fid =>
      if String.eqb fid "" then e
      else
        match dict_get fid (nodes (db (view e))) with
        | None => e
        | Some node =>
            if negb (NodeType_eqb (type node) file) then e
            else
              let e1 := {| view := view e; read_text := read_text e;
                           meta_locked := meta_locked e;
                           meta_autosave := meta_autosave e;
                           meta_last_saved := JStr now |} in
              with_view e1
                (with_nodes (view e1)
                   (dict_set fid (set_content node (_collect_content_from_ui e1))
                             (nodes (db (view e1)))))
        end
  end.

End ui_file_view.

(** ** bundle_io.py *)

Module bundle_io.
Import models.

(** [walk] of [_collect_subtree]; the source recursion keeps no visited
    set, [fuel] bounds its depth and [None] means it ran out. *)
Fixpoint walk (fuel : nat) (ns : dict Node) (nid : string) (out : list string)
    : option (list string) :=
  match fuel with
  | O => None
  | S fuel' =>
      match dict_get nid ns with
      | None => Some out
      | Some n =>
          let out1 := out ++ [nid] in
          match type n with
          | folder =>
              fold_left
                (fun acc cid =>
                   match acc with
                   | Some o => walk fuel' ns cid o
                   | None => None
                   end)
                (children n) (Some out1)
          | _ => Some out1
          end
      end
  end.

Definition _collect_subtree (fuel : nat) (db : Database) (node_id : string)
    : option (list string) :=
  walk fuel (nodes db) node_id [].

Definition blank : json := JObj [("text", JStr ""); ("tags", JArr [])].

(** The entry written for one node.  [FileContent] has the attributes
    [read_doc] and [copy_docs] only, so reading [n.content.read_rich]
    raises AttributeError whenever the node has a content. *)
Definition export_entry (n : Node) : result json :=
  content <- match type n with
             | folder => Ok JNull
             | _ =>
                 match content n with
                 | Some _ => Raise AttributeError
                 | None => Ok (JObj [("read_rich", blank);
                                     ("copy_blocks", JArr [blank])])
                 end
             end ;;
  Ok (JObj [ ("id", JStr (id n));
             ("type", JStr (type_str (type n)));
             ("name", JStr (name n));
             ("children", JArr (map JStr (children n)));
             ("content", content) ]).

Fixpoint export_nodes (ns : dict Node) (ids : list string) (out : dict json)
    : result (dict json) :=
  match ids with
  | [] => Ok out
  | nid :: rest =>
      n <- ui_explorer.subscript ns nid ;;
      d <- export_entry n ;;
      export_nodes ns rest (dict_set nid d out)
  end.

Definition export_bundle (fuel : nat) (db : Database) (folder_id : string)
    : option (result json) :=
  match _collect_subtree fuel db folder_id with
  | None => None
  | Some ids =>
      Some (out <- export_nodes (nodes db) ids [] ;;
            Ok (JObj [("bundle_root_id", JStr folder_id); ("nodes", JObj out)]))
  end.

(* for old_id in nodes_raw.keys(): id_map[old_id] = new_id() *)
Fixpoint remap_all (old_ids : list string) (id_map : dict string)
    : Gen (dict string) :=
  match old_ids with
  | [] => gret id_map
  | old_id :: rest =>
      nid <~ new_id ;;
      remap_all rest (dict_set old_id nid id_map)
  end.

(* [id_map[c] for c in d.get("children", []) if c in id_map] *)
Definition import_children (id_map : dict string) (d : dict json)
    : result (list string) :=
  cs <- iter (get_default "children" (JArr []) d) ;;
  (fix go (l : list json) : result (list string) :=
     match l with
     | [] => Ok []
     | JStr c :: r =>
         t <- go r ;;
         Ok (match dict_get c id_map with Some n => n :: t | None => t end)
     | (JArr _ | JObj _) :: _ => Raise TypeError
     | _ :: r => go r
     end) cs.

(** One pass of the node-creating loop.  For a "file" entry the statement
    [from models import FileContent, blank_rich] raises ImportError:
    models.py defines no [blank_rich]. *)
Definition import_node (id_map : dict string) (old_id : string) (d : json)
    : result Node :=
  match d with
  | JObj d =>
      newnid <- ui_explorer.subscript id_map old_id ;;
      let ntype := get_default "type" (JStr "folder") d in
      children <- import_children id_map d ;;
      name <- match get_default "name" (JStr "Imported") d with
              | JStr s => Ok s
              | _ => Untyped
              end ;;
      ty <- (if str_is ntype "folder" then Ok folder
             else if str_is ntype "file" then Ok file
             else if str_is ntype "shortcut" then Ok shortcut
             else Untyped) ;;
      match ty with
      | file => Raise ImportError
      | _ =>
          Ok {| id := newnid; type := ty; name := name;
                children := match ty with folder => children | _ => [] end;
                content := None; target_id := None |}
      end
  | _ => Raise AttributeError
  end.

Fixpoint import_nodes (id_map : dict string) (items : dict json)
    (ns : dict Node) : result unit * dict Node :=
  match items with
  | [] => (Ok tt, ns)
  | (old_id, d) :: rest =>
      match import_node id_map old_id d with
      | Ok node => import_nodes id_map rest (dict_set (id node) node ns)
      | Raise e => (Raise e, ns)
      | Untyped => (Untyped, ns)
      end
  end.

(** The answer is the returned pair (ok, message), or the exception, with
    the store as the call leaves it. *)
Definition import_bundle_into_folder (db : Database) (bundle : dict json)
    (target_folder_id : string) : Gen (result (bool * string) * Database) :=
  let target_ok :=
    match dict_get target_folder_id (nodes db) with
    | Some t => NodeType_eqb (type t) folder
    | None => false
    end in
  if negb target_ok then gret (Ok (false, "Target folder is invalid."), db)
  else
    let nodes_raw := get_default "nodes" (JObj []) bundle in
    let bundle_root_id := get "bundle_root_id" bundle in
    let missing := gret (Ok (false, "Bundle is missing required data."), db) in
    if negb (truthy nodes_raw) || negb (truthy bundle_root_id) then missing
    else
      match nodes_raw, bundle_root_id with
      | JObj items, JStr root =>
          if negb (dict_mem root items) then missing
          else
            (* Remap IDs to avoid collisions *)
            id_map <~ remap_all (dict_keys items) [] ;;
            match import_nodes id_map items (nodes db) with
            | (Ok _, ns) =>
                (* Attach imported root under target folder *)
                match ui_explorer.subscript id_map root,
                      ui_explorer.subscript ns target_folder_id with
                | Ok imported_root_new, Ok t =>
                    gret (Ok (true, "Imported."),
                          set_nodes db
                            (dict_set target_folder_id
                               (set_children t (children t ++ [imported_root_new]))
                               ns))
                | _, _ => gret (Raise KeyError, set_nodes db ns)
                end
            | (Raise e, ns) => gret (Raise e, set_nodes db ns)
            | (Untyped, ns) => gret (Untyped, set_nodes db ns)
            end
      | JObj _, (JArr _ | JObj _) => gret (Raise TypeError, db)
      | JObj _, _ => missing
      | _, _ => gret (Untyped, db)
      end.

End bundle_io.

(** ** storage.py *)

Module storage.
Import models.

(** The data file is [None] while it does not exist, otherwise the document
    [json.load] reads from it; what [json.dump] wrote is what [json.load]
    reads back.  [save] writes a temporary file and renames it over the
    data file: the data file holds the new document once it returns. *)
Definition data_file := option json.

Definition save (db : Database) (f : data_file) : data_file :=
  Some (db_to_dict db).

(* load, for a data file that exists *)
Definition load (data : json) : Gen (result Database) := db_from_dict data.

Definition load_or_create_blank (f : data_file)
    : Gen (result Database * data_file) :=
  match f with
  | None =>
      db <~ blank_database ;;
      gret (Ok db, save db f)
  | Some data =>
      r <~ load data ;;
      gret (r, f)
  end.

End storage.

(** * Properties *)

Import models.

(** ** Vocabulary *)

(** Every entry of the mapping holds a node whose [id] is the key. *)
Definition key_consistent (ns : dict Node) : Prop :=
  Forall (fun p => id (snd p) = fst p) ns.

Definition root_node (k name : string) : Node :=
  {| id := k; type := folder; name := name; children := [];
     content := None; target_id := None |}.

(** A file node carries a usable content (a read document that is not
    empty, at least one copy document); other nodes carry none. *)
Definition content_ok (n : Node) : Prop :=
  match type n, content n with
  | file, Some c => truthy (read_doc c) = true /\ copy_docs c <> []
  | file, None => False
  | _, Some _ => False
  | _, None => True
  end.

Definition root_present (ns : dict Node) (k : string) : Prop :=
  exists n, dict_get k ns = Some n /\ type n = folder.

(** Well-formedness as the round-trip law words it: both roots present as
    folder nodes, every file node carrying content. *)
Definition roots_and_contents (db : Database) : Prop :=
  root_present (nodes db) (quickcopy_root_id db)
  /\ root_present (nodes db) (favorites_root_id db)
  /\ forall k n, dict_get k (nodes db) = Some n ->
                 type n = file -> content n <> None.

(** Well-formedness as the codec needs it. *)
Record well_formed (db : Database) : Prop := {
  wf_nodup : NoDup (dict_keys (nodes db));
  wf_keys : key_consistent (nodes db);
  wf_qc : quickcopy_root_id db <> ""
          /\ root_present (nodes db) (quickcopy_root_id db);
  wf_fav : favorites_root_id db <> ""
           /\ root_present (nodes db) (favorites_root_id db);
  wf_content : Forall (fun p => content_ok (snd p)) (nodes db)
}.

(** Equality of two databases as Python compares them: same root ids and
    the same node under every key (children sequences included). *)
Definition db_equal (a b : Database) : Prop :=
  quickcopy_root_id a = quickcopy_root_id b
  /\ favorites_root_id a = favorites_root_id b
  /\ forall k, dict_get k (nodes a) = dict_get k (nodes b).

(** A generator for the examples: its identifiers start with '#'. *)
Fixpoint bars (n : nat) : string :=
  match n with O => "" | S m => String "|" (bars m) end.

Definition uuids : idgen := {| draw := fun n => String "#" (bars n); used := 0 |}.

Definition folder_node (k name : string) (cs : list string) : Node :=
  {| id := k; type := folder; name := name; children := cs;
     content := None; target_id := None |}.

Definition file_node (k name : string) : Node :=
  {| id := k; type := file; name := name; children := [];
     content := Some FileContent_default; target_id := None |}.

Definition shortcut_node (k name target : string) : Node :=
  {| id := k; type := shortcut; name := name; children := [];
     content := None; target_id := Some target |}.

(** A store whose third node sits under a key that is not its id. *)
Definition misfiled_db : Database :=
  {| quickcopy_root_id := "qc"; favorites_root_id := "fav";
     nodes := [ ("fav", folder_node "fav" "Favorites" []);
                ("qc", folder_node "qc" "QuickCopy" ["x"]);
                ("x", folder_node "y" "Notes" []) ] |}.

(** A small well-formed store: a folder holding a file that is a favourite. *)
Definition sample_db : Database :=
  {| quickcopy_root_id := "qc"; favorites_root_id := "fav";
     nodes := [ ("fav", folder_node "fav" "Favorites" ["s"]);
                ("qc", folder_node "qc" "QuickCopy" ["d"]);
                ("d", folder_node "d" "Deeds" ["f"]);
                ("f", file_node "f" "Affidavit");
                ("s", shortcut_node "s" "Affidavit" "f") ] |}.

(** [favorited db fid]: some child of the Favorites folder is a shortcut
    whose target is [fid] (the scan of [is_favorited]). *)
Definition favorited (db : Database) (fid : string) : bool :=
  match dict_get (favorites_root_id db) (nodes db) with
  | None => false
  | Some fav_root =>
      if negb (NodeType_eqb (type fav_root) folder) then false
      else existsb (shortcut_to (nodes db) fid) (children fav_root)
  end.

(** The number of entries of the Favorites children that are shortcuts to
    [fid]. *)
Definition shortcut_count (db : Database) (fid : string) : nat :=
  match dict_get (favorites_root_id db) (nodes db) with
  | None => 0
  | Some fav_root =>
      length (filter (shortcut_to (nodes db) fid) (children fav_root))
  end.

(** [k] occurs in the store: as a key or in some children list. *)
Definition mentions (ns : dict Node) (k : string) : Prop :=
  In k (dict_keys ns) \/ exists p, In p ns /\ In k (children (snd p)).

(** The identifiers still to be drawn are new to the store and pairwise
    distinct: what uuid4 provides. *)
Definition fresh_for (g : idgen) (ns : dict Node) : Prop :=
  (forall i, used g <= i -> ~ mentions ns (draw g i))
  /\ (forall i j, used g <= i -> used g <= j -> draw g i = draw g j -> i = j).

(** A node that kept everything but may have gained children. *)
Definition same_but_children (n n' : Node) : Prop :=
  id n' = id n /\ type n' = type n /\ name n' = name n
  /\ content n' = content n /\ target_id n' = target_id n
  /\ incl (children n) (children n').

(** Every node of [ns] is still in [ns'] under its key, up to added
    children. *)
Definition grows (ns ns' : dict Node) : Prop :=
  forall k n, dict_get k ns = Some n ->
              exists n', dict_get k ns' = Some n' /\ same_but_children n n'.

(** The store after a shortcut to [fid] was created under the drawn id
    [sc_id] and appended to the Favorites folder: the common last step of
    [_ensure_favorite_shortcut], [_add_shortcut_for_target] and
    [_toggle_favorite]. *)
Definition with_shortcut (ns : dict Node) (fav_key : string)
    (fav_root target : Node) (fid sc_id : string) : dict Node :=
  append_child fav_key sc_id fav_root sc_id
    (dict_set sc_id
       {| id := sc_id; type := shortcut; name := name target;
          children := []; content := None; target_id := Some fid |} ns).

Definition advance (g : idgen) : idgen :=
  {| draw := draw g; used := S (used g) |}.

(** Documents for the examples. *)
Definition raw_node (k ty nm : string) (cs : list string)
    (more : dict json) : string * json :=
  (k, JObj ([("id", JStr k); ("type", JStr ty); ("name", JStr nm);
             ("children", JArr (map JStr cs))] ++ more)).

(* current format, a pinned file *)
Definition pinned_file_doc : dict json :=
  [ ("quickcopy_root_id", JStr "qc"); ("favorites_root_id", JStr "fav");
    ("nodes", JObj [ raw_node "fav" "folder" "Favorites" [] [];
                     raw_node "qc" "folder" "QuickCopy" ["f"] [];
                     raw_node "f" "file" "Will" [] [("pinned", JBool true)] ]) ].

(* current format, a pinned folder *)
Definition pinned_folder_doc : dict json :=
  [ ("quickcopy_root_id", JStr "qc"); ("favorites_root_id", JStr "fav");
    ("nodes", JObj [ raw_node "fav" "folder" "Favorites" [] [];
                     raw_node "qc" "folder" "QuickCopy" ["d"] [];
                     raw_node "d" "folder" "Deeds" [] [("pinned", JBool true)] ]) ].

(* legacy format: a single root_id, a pinned file, plain-text content *)
Definition legacy_pinned_doc : dict json :=
  [ ("root_id", JStr "r");
    ("nodes", JObj [ raw_node "r" "folder" "Root" ["f"] [];
                     raw_node "f" "file" "Will" []
                       [("pinned", JBool true);
                        ("content",
                          JObj [("read_text", JStr "hello");
                                ("copy_blocks", JArr [JStr "a"; JStr "b"])])] ]) ].

(* no id of the store starts with '#' *)
Definition no_hash (k : string) : bool :=
  match k with
  | String c _ => negb (Ascii.eqb c "#")
  | EmptyString => true
  end.

Definition plain (ns : dict Node) : bool :=
  forallb (fun p => no_hash (fst p) && forallb no_hash (children (snd p))) ns.

(** What both favourite toggles do to the store when the toggled id
    resolves to a file: drop the first shortcut to it, or create one. *)
Definition toggle_core (db : Database) (fid : string) : Gen Database :=
  match dict_get (favorites_root_id db) (nodes db) with
  | Some fav_root =>
      if negb (NodeType_eqb (type fav_root) folder) then gret db
      else if existsb (shortcut_to (nodes db) fid) (children fav_root) then
        gret (set_nodes db
                (ui_explorer.remove_first_shortcut fid (favorites_root_id db)
                   fav_root (children fav_root) (nodes db)))
      else
        match dict_get fid (nodes db) with
        | Some target =>
            if negb (NodeType_eqb (type target) file) then gret db
            else
              sc_id <~ new_id ;;
              gret (set_nodes db
                      (with_shortcut (nodes db) (favorites_root_id db)
                                     fav_root target fid sc_id))
        | None => gret db
        end
  | None => gret db
  end.

(* ExplorerView.toggle_favorite_selected with the file [fid] selected in
   the contents list (the folder tree lists folders only) *)
Definition explorer_toggle (cur : string) (lid : option string)
    (fid : string) (db : Database) : Gen Database :=
  fun g =>
    let (v, g') :=
      ui_explorer.toggle_favorite_selected
        {| ui_explorer.db := db; ui_explorer.current_folder_id := cur |}
        (Some fid) lid g in
    (ui_explorer.db v, g').

(* FileView._toggle_favorite with the file [fid] open *)
Definition fileview_toggle (locked : bool) (blocks : list json)
    (fid : string) (db : Database) : Gen Database :=
  fun g =>
    let (fv, g') :=
      ui_file_view._toggle_favorite
        {| ui_file_view.db := db; ui_file_view.file_id := Some fid;
           ui_file_view.lock_var := locked;
           ui_file_view.block_widgets := blocks |} g in
    (ui_file_view.db fv, g').

(** Toggling twice: the favourited state comes back, and at no point is
    there more than one shortcut to the file. *)
Definition pair_law (toggle : Database -> Gen Database) (db : Database)
    (fid : string) (g : idgen) : Prop :=
  let (db1, g1) := toggle db g in
  let (db2, g2) := toggle db1 g1 in
  favorited db2 fid = favorited db fid
  /\ (root_present (nodes db) (favorites_root_id db) ->
      favorited db1 fid = negb (favorited db fid))
  /\ shortcut_count db1 fid <= 1
  /\ shortcut_count db2 fid <= 1.

(** A store whose Favorites folder lists two shortcuts to the same file. *)
Definition twice_favorited_db : Database :=
  {| quickcopy_root_id := "qc"; favorites_root_id := "fav";
     nodes := [ ("fav", folder_node "fav" "Favorites" ["s1"; "s2"]);
                ("qc", folder_node "qc" "QuickCopy" ["f"]);
                ("f", file_node "f" "Affidavit");
                ("s1", shortcut_node "s1" "Affidavit" "f");
                ("s2", shortcut_node "s2" "Affidavit" "f") ] |}.

(* n spaces *)
Fixpoint spaces (n : nat) : string :=
  match n with O => "" | S m => String " " (spaces m) end.

Definition sample_view : ui_explorer.ExplorerView :=
  {| ui_explorer.db := sample_db; ui_explorer.current_folder_id := "d" |}.

(** [reach ns k d]: [d] is [k] or is reached from [k] through the
    children of folders present in the store. *)
Inductive reach (ns : dict Node) : string -> string -> Prop :=
| reach_here k : reach ns k k
| reach_down k n c d :
    dict_get k ns = Some n -> type n = folder -> In c (children n) ->
    reach ns c d -> reach ns k d.

Definition descendant (ns : dict Node) (k d : string) : Prop :=
  exists n c, dict_get k ns = Some n /\ type n = folder
              /\ In c (children n) /\ reach ns c d.

(** The tree invariant: no node listed in two folders' children, no node
    its own ancestor. *)
Definition unique_parent (ns : dict Node) : Prop :=
  forall k1 n1 k2 n2 c,
    dict_get k1 ns = Some n1 -> type n1 = folder -> In c (children n1) ->
    dict_get k2 ns = Some n2 -> type n2 = folder -> In c (children n2) ->
    k1 = k2.

Definition acyclic (ns : dict Node) : Prop :=
  forall k, ~ descendant ns k k.

(** No folder of the store lists [c] among its children. *)
Definition unlisted (ns : dict Node) (c : string) : Prop :=
  forall k f, dict_get k ns = Some f -> type f = folder ->
              ~ In c (children f).

(** [ns] has the nodes of [ns0] or fewer, folders with their children or
    fewer. *)
Definition subgraph (ns ns0 : dict Node) : Prop :=
  forall x n, dict_get x ns = Some n ->
    exists n0, dict_get x ns0 = Some n0 /\ type n0 = type n
               /\ incl (children n) (children n0).

(** After the deletion of [key]: the node and everything reached from it
    are absent, and no remaining folder lists any of them. *)
Definition deleted_clean (ns ns' : dict Node) (key : string) : Prop :=
  (forall d, reach ns key d -> dict_get d ns' = None)
  /\ (forall d, reach ns key d -> unlisted ns' d).

(** The store after the parent of [key], if any, dropped it from its
    children: the first step of [delete_selected]. *)
Definition unparented (ns : dict Node) (key : string) : dict Node :=
  match ui_explorer._find_parent_folder ns key with
  | Some (pkey, p) =>
      dict_set pkey
        (set_children p
           (filter (fun cid => negb (String.eqb cid key)) (children p))) ns
  | None => ns
  end.

(** A folder holding a shortcut, outside the Favorites folder. *)
Definition stray_shortcut_db : Database :=
  {| quickcopy_root_id := "qc"; favorites_root_id := "fav";
     nodes := [ ("fav", folder_node "fav" "Favorites" []);
                ("qc", folder_node "qc" "QuickCopy" ["d"]);
                ("d", folder_node "d" "Deeds" ["f"; "s"]);
                ("f", file_node "f" "Affidavit");
                ("s", shortcut_node "s" "Affidavit" "f") ] |}.

(* heights of the nodes of the example stores *)
Definition example_height (k : string) : nat :=
  if String.eqb k "qc" then 3
  else if String.eqb k "fav" then 3
  else if String.eqb k "d" then 2
  else 0.

Definition stray_view : ui_explorer.ExplorerView :=
  {| ui_explorer.db := stray_shortcut_db; ui_explorer.current_folder_id := "d" |}.

(** Every identifier the remap table hands out is new to the store. *)
Definition new_to (ns0 : dict Node) (id_map : dict string) : Prop :=
  forall old new, dict_get old id_map = Some new -> dict_get new ns0 = None.

(** A whole-database export whose ids do not occur in [sample_db]. *)
Definition foreign_doc : json :=
  JObj [ ("quickcopy_root_id", JStr "q2"); ("favorites_root_id", JStr "v2");
         ("nodes", JObj [ raw_node "v2" "folder" "Favorites" [] [];
                          raw_node "q2" "folder" "QuickCopy" ["x"] [];
                          raw_node "x" "file" "Lease" [] [] ]) ].

(** A single-subtree bundle: one folder, no files. *)
Definition folder_bundle : dict json :=
  [ ("bundle_root_id", JStr "d");
    ("nodes", JObj [ raw_node "d" "folder" "Deeds" ["e"] [];
                     raw_node "e" "folder" "Old" [] [] ]) ].

(* the loop of [_delete_subtree] over the children, from a given store *)
Definition fold_delete (fuel : nat) (cs : list string) (start : option (dict Node))
    : option (dict Node) :=
  fold_left
    (fun acc cid =>
       match acc with
       | Some ns1 => ui_explorer._delete_subtree fuel ns1 cid
       | None => None
       end) cs start.

(** What a finished [_delete_subtree] leaves: nothing new, the node gone,
    and every child of a folder it removed gone as well. *)
Definition deletes (ns ns' : dict Node) : Prop :=
  (forall x, dict_get x ns' = dict_get x ns \/ dict_get x ns' = None)
  /\ (forall x n c, dict_get x ns = Some n -> dict_get x ns' = None ->
                    type n = folder -> In c (children n) ->
                    dict_get c ns' = None).

(** Stores that meet the well-formedness of the round-trip law as it is
    worded, each missing one condition of [well_formed]. *)
Definition with_third (n : string * Node) : Database :=
  {| quickcopy_root_id := "qc"; favorites_root_id := "fav";
     nodes := [ ("fav", folder_node "fav" "Favorites" []);
                ("qc", folder_node "qc" "QuickCopy" ["x"]); n ] |}.

(* a folder that carries a content *)
Definition folder_with_content_db : Database :=
  with_third ("x", {| id := "x"; type := folder; name := "Notes";
                      children := []; content := Some FileContent_default;
                      target_id := None |}).

(* a file whose list of copy documents is empty *)
Definition no_copy_docs_db : Database :=
  with_third ("x", {| id := "x"; type := file; name := "Will"; children := [];
                      content := Some {| read_doc := blank_rich_doc;
                                         copy_docs := [] |};
                      target_id := None |}).

(* the QuickCopy root stored under the empty id *)
Definition empty_root_id_db : Database :=
  {| quickcopy_root_id := ""; favorites_root_id := "fav";
     nodes := [ ("fav", folder_node "fav" "Favorites" []);
                ("", folder_node "" "QuickCopy" []) ] |}.

(* the loop of [walk] over the children, from a given output list *)
Definition fold_walk (fuel : nat) (ns : dict Node) (cs : list string)
    (start : option (list string)) : option (list string) :=
  fold_left
    (fun acc cid =>
       match acc with
       | Some o => bundle_io.walk fuel ns cid o
       | None => None
       end) cs start.

(** [d] is in the subtree of [k]: reached from it and present. *)
Definition in_subtree (ns : dict Node) (k d : string) : Prop :=
  reach ns k d /\ dict_get d ns <> None.

(** What the decoder needs of a store to give it back: [well_formed]
    without the demand that the roots be folders. *)
Definition loadable (db : Database) : Prop :=
  NoDup (dict_keys (nodes db))
  /\ key_consistent (nodes db)
  /\ quickcopy_root_id db <> ""
  /\ dict_mem (quickcopy_root_id db) (nodes db) = true
  /\ favorites_root_id db <> ""
  /\ dict_mem (favorites_root_id db) (nodes db) = true
  /\ Forall (fun p => content_ok (snd p)) (nodes db).

(** Unique keys and usable contents: what every step of the decoder keeps. *)
Definition tidy (ns : dict Node) : Prop :=
  NoDup (dict_keys ns) /\ Forall (fun p => content_ok (snd p)) ns.

(* the old root is attached when [root_id] names a parsed folder *)
Definition legacy_attach (root_id : json) (parsed : dict Node) : bool :=
  match root_id with
  | JStr r =>
      negb (String.eqb r "")
      && match dict_get r parsed with
         | Some n => NodeType_eqb (type n) folder
         | None => false
         end
  | _ => false
  end.

(* the first character of the list is not one [utils.lstrip] removes *)
Definition starts_clean (s : list ascii) : Prop :=
  match s with
  | [] => True
  | a :: r =>
      utils.is_space1 a = false
      /\ match r with
         | [] => True
         | b :: r2 =>
             utils.is_space2 a b = false
             /\ match r2 with
                | [] => True
                | c :: _ => utils.is_space3 a b c = false
                end
         end
  end.

(* the same for [utils.rstrip_rev], which reads the bytes backwards *)
Definition ends_clean_rev (s : list ascii) : Prop :=
  match s with
  | [] => True
  | a :: r =>
      utils.is_space1 a = false
      /\ match r with
         | [] => True
         | b :: r2 =>
             utils.is_space2 b a = false
             /\ match r2 with
                | [] => True
                | c :: _ => utils.is_space3 c b a = false
                end
         end
  end.

(* the bytes [utils.strip] keeps *)
Definition stripped (l : list ascii) : list ascii :=
  rev (utils.rstrip_rev (rev (utils.lstrip l))).

(* [n'] is [n] under another name (or the same) *)
Definition renamed (n n' : Node) : Prop := n' = set_name n (name n').

(** [n'] is [n] less some children: every child it lost is one that
    [drop] marks. *)
Definition lost_only (drop : string -> bool) (n n' : Node) : Prop :=
  id n' = id n /\ type n' = type n /\ name n' = name n
  /\ content n' = content n /\ target_id n' = target_id n
  /\ incl (children n') (children n)
  /\ forall c, In c (children n) -> drop c = false -> In c (children n').

(* what [delete_selected] may take out of a children list when [key] is
   deleted: [key] itself and a favourite shortcut to it *)
Definition dropped (ns : dict Node) (key c : string) : bool :=
  String.eqb c key || shortcut_to ns key c.

(* a bundle with a file in it *)
Definition file_bundle : dict json :=
  [ ("bundle_root_id", JStr "d");
    ("nodes", JObj [ raw_node "d" "folder" "Deeds" ["x"] [];
                     raw_node "x" "file" "Lease" [] [] ]) ].

(** The node the import files for the incoming node [n] under its new
    id: [n] with its children and, for a shortcut, its target translated
    through the id table. *)
Definition imported (id_map : dict string) (new : string) (n : Node) : Node :=
  {| id := new; type := type n; name := name n;
     children := match type n with
                 | folder => ui_explorer.remap_children id_map (children n)
                 | _ => []
                 end;
     content := content n;
     target_id := match type n with
                  | shortcut => ui_explorer.remap_target id_map (target_id n)
                  | _ => target_id n
                  end |}.

(* no two ids of the table are mapped to the same id *)
Definition injective (id_map : dict string) : Prop :=
  forall o1 o2 x, dict_get o1 id_map = Some x -> dict_get o2 id_map = Some x ->
                  o1 = o2.

(* where the section at position j is after sections i and i' changed
   places *)
Definition exchanged (i i' j : nat) : nat :=
  if Nat.eqb j i then i' else if Nat.eqb j i' then i else j.

(** ** Facts about dictionaries *)

Section DictFacts.
Context {V : Type}.
Implicit Types (d : dict V) (k : string) (v : V).

Lemma dict_get_set_eq k v d : dict_get k (dict_set k v d) = Some v.
Proof.
  induction d as [|[k' v'] r IH]; simpl.
  - now rewrite String.eqb_refl.
  - destruct (String.eqb k k') eqn:E; simpl; rewrite E; auto.
Qed.

Lemma dict_get_set_ne k k' v d :
  k <> k' -> dict_get k' (dict_set k v d) = dict_get k' d.
Proof.
  intros Hne. induction d as [|[k2 v2] r IH]; simpl.
  - destruct (String.eqb k' k) eqn:E; auto.
    apply String.eqb_eq in E. congruence.
  - destruct (String.eqb k k2) eqn:E; simpl.
    + apply String.eqb_eq in E. subst k2.
      destruct (String.eqb k' k) eqn:E2; auto.
      apply String.eqb_eq in E2. congruence.
    + now rewrite IH.
Qed.

Lemma dict_get_set k k' v d :
  dict_get k' (dict_set k v d)
  = if String.eqb k k' then Some v else dict_get k' d.
Proof.
  destruct (String.eqb k k') eqn:E.
  - apply String.eqb_eq in E. subst. apply dict_get_set_eq.
  - apply String.eqb_neq in E. now apply dict_get_set_ne.
Qed.

Lemma dict_get_pop_eq k d : dict_get k (dict_pop k d) = None.
Proof.
  induction d as [|[k' v'] r IH]; simpl; auto.
  destruct (String.eqb k k') eqn:E; simpl; auto. now rewrite E.
Qed.

Lemma dict_get_pop_ne k k' d :
  k <> k' -> dict_get k' (dict_pop k d) = dict_get k' d.
Proof.
  intros Hne. induction d as [|[k2 v2] r IH]; simpl; auto.
  destruct (String.eqb k k2) eqn:E; simpl.
  - apply String.eqb_eq in E. subst k2.
    destruct (String.eqb k' k) eqn:E2; auto.
    apply String.eqb_eq in E2. congruence.
  - now rewrite IH.
Qed.

Lemma dict_get_pop k k' d :
  dict_get k' (dict_pop k d)
  = if String.eqb k k' then None else dict_get k' d.
Proof.
  destruct (String.eqb k k') eqn:E.
  - apply String.eqb_eq in E. subst. apply dict_get_pop_eq.
  - apply String.eqb_neq in E. now apply dict_get_pop_ne.
Qed.

Lemma dict_get_In k v d : dict_get k d = Some v -> In (k, v) d.
Proof.
  induction d as [|[k' v'] r IH]; simpl; [discriminate|].
  destruct (String.eqb k k') eqn:E.
  - apply String.eqb_eq in E. intros [= ->]. subst. now left.
  - intros H. right. auto.
Qed.

Lemma dict_get_None k d : dict_get k d = None <-> ~ In k (dict_keys d).
Proof.
  induction d as [|[k' v'] r IH]; simpl; [tauto|].
  destruct (String.eqb k k') eqn:E.
  - apply String.eqb_eq in E. subst. split; [discriminate|]. tauto.
  - apply String.eqb_neq in E. rewrite IH. split.
    + intros H [H1|H1]; congruence.
    + tauto.
Qed.

Lemma dict_get_Some_key k v d : dict_get k d = Some v -> In k (dict_keys d).
Proof.
  intros H. destruct (in_dec string_dec k (dict_keys d)) as [|Hn]; auto.
  apply dict_get_None in Hn. congruence.
Qed.

Lemma dict_In_get k v d :
  NoDup (dict_keys d) -> In (k, v) d -> dict_get k d = Some v.
Proof.
  induction d as [|[k' v'] r IH]; simpl; [tauto|].
  intros Hnd [H|H]; inversion Hnd; subst.
  - injection H as -> ->. now rewrite String.eqb_refl.
  - destruct (String.eqb k k') eqn:E; auto.
    apply String.eqb_eq in E. subst.
    exfalso. apply H2. change k' with (fst (k', v)). now apply in_map.
Qed.

Lemma dict_set_fresh k v d :
  dict_get k d = None -> dict_set k v d = d ++ [(k, v)].
Proof.
  induction d as [|[k' v'] r IH]; simpl; auto.
  destruct (String.eqb k k'); [discriminate|].
  intros H. now rewrite IH.
Qed.

Lemma dict_keys_set k v d :
  forall x, In x (dict_keys (dict_set k v d)) <-> x = k \/ In x (dict_keys d).
Proof.
  intros x. induction d as [|[k' v'] r IH]; simpl.
  - intuition.
  - destruct (String.eqb k k') eqn:E; simpl.
    + apply String.eqb_eq in E. subst. intuition.
    + rewrite IH. intuition.
Qed.

Lemma dict_mem_true k d : dict_mem k d = true <-> exists v, dict_get k d = Some v.
Proof.
  unfold dict_mem. destruct (dict_get k d); split; eauto; try discriminate.
  intros [v [=]].
Qed.

Lemma dict_mem_false k d : dict_mem k d = false <-> dict_get k d = None.
Proof.
  unfold dict_mem. destruct (dict_get k d); split; auto; discriminate.
Qed.
End DictFacts.

Lemma NodeType_eqb_eq a b : NodeType_eqb a b = true <-> a = b.
Proof. destruct a, b; simpl; split; congruence. Qed.

Lemma NodeType_eqb_refl a : NodeType_eqb a a = true.
Proof. now destruct a. Qed.

(** ** File content: legacy upgrade and the non-empty snippet list *)

Lemma str_chars_nonempty c r : str_chars (String c r) <> [].
Proof.
  simpl. unfold join_char.
  destruct r as [|c2 r']; [discriminate|].
  destruct (str_chars (String c2 r')); [discriminate|].
  destruct (is_cont c2); discriminate.
Qed.

Lemma truthy_iter_nonempty j l :
  truthy j = true -> iter j = Ok l -> l <> [].
Proof.
  destruct j as [| | |s|a|o]; simpl; try discriminate.
  - destruct s as [|c r]; [discriminate|]. intros _ [= <-].
    intros H. apply map_eq_nil in H. now apply str_chars_nonempty in H.
  - destruct a; [discriminate|]. now intros _ [= <-].
  - destruct o; [discriminate|]. now intros _ [= <-].
Qed.

Lemma upgrade_copy_docs_nonempty raw fc :
  _upgrade_legacy_content raw = Ok fc -> copy_docs fc <> [].
Proof.
  destruct raw as [| | | | |o]; simpl;
    try (intros [= <-]; discriminate).
  destruct (dict_mem "read_doc" o || dict_mem "copy_docs" o).
  - unfold py_or.
    destruct (truthy (get "copy_docs" o)) eqn:T.
    + destruct (get "copy_docs" o) as [| | | |l|]; cbn; try discriminate.
      intros [= <-]. cbn. destruct l; discriminate.
    + intros [= <-]. discriminate.
  - set (cb := py_or (get_default "copy_blocks" (JArr []) o) (JArr [])).
    destruct (truthy cb) eqn:T.
    + destruct (iter cb) as [l| |] eqn:I; simpl; try discriminate.
      intros [= <-]. simpl. intros H. apply map_eq_nil in H.
      now apply (truthy_iter_nonempty cb l).
    + simpl. intros [= <-]. discriminate.
Qed.

(** C7. A legacy file content [{read_text: s, copy_blocks: [s1..sn]}] with
    n >= 1 is upgraded to a content whose read document is [s] with no
    tags and whose copy documents are [s1..sn] in order, each with no
    tags; this is the content the parsed file node carries. *)
Theorem legacy_content_upgrade (o : dict json) (s : string) (ss : list string) :
  dict_get "read_doc" o = None ->
  dict_get "copy_docs" o = None ->
  dict_get "read_text" o = Some (JStr s) ->
  dict_get "copy_blocks" o = Some (JArr (map JStr ss)) ->
  ss <> [] ->
  let fc := {| read_doc := JObj [("text", JStr s); ("tags", JArr [])];
               copy_docs := map (fun t => JObj [("text", JStr t); ("tags", JArr [])]) ss |} in
  _upgrade_legacy_content (JObj o) = Ok fc
  /\ length (copy_docs fc) = length ss
  /\ forall nid d node,
       dict_get "type" d = Some (JStr "file") ->
       dict_get "content" d = Some (JObj o) ->
       parse_node nid d = Ok node ->
       type node = file /\ content node = Some fc.
Proof.
  intros Hrd Hcd Hrt Hcb Hss fc.
  assert (Hup : _upgrade_legacy_content (JObj o) = Ok fc).
  { unfold _upgrade_legacy_content, dict_mem, get_default.
    rewrite Hrd, Hcd, Hrt, Hcb. simpl.
    assert (Hs : py_or (JStr s) (JStr "") = JStr s).
    { unfold py_or. simpl. destruct (String.eqb s "") eqn:E; simpl; auto.
      apply String.eqb_eq in E. now subst. }
    rewrite Hs.
    destruct ss as [|s1 ss']; [congruence|]. simpl.
    unfold fc, text_doc. simpl. now rewrite map_map. }
  split; [exact Hup|]. split; [unfold fc; simpl; now rewrite length_map|].
  intros nid d node Hty Hct. unfold parse_node, get_default, get.
  rewrite Hty, Hct. simpl.
  assert (Ho : py_or (JObj o) (JObj []) = JObj o).
  { unfold py_or. simpl. destruct o; [discriminate|reflexivity]. }
  rewrite Ho, Hup. simpl.
  destruct (match dict_get "target_id" d with
            | Some v => v | None => JNull end) as [| | |t| |];
    simpl; try discriminate;
  (destruct (raw_id nid d); simpl; try discriminate;
   destruct (match dict_get "name" d with
             | Some v => v | None => JStr "Untitled" end);
     simpl; try discriminate;
   destruct (raw_children d); simpl; try discriminate;
   intros [= <-]; simpl; auto).
Qed.

(** The document of the spec: [{read_text: "hello", copy_blocks: ["a","b"]}]. *)
Lemma legacy_content_upgrade_witness :
  _upgrade_legacy_content
    (JObj [("read_text", JStr "hello");
           ("copy_blocks", JArr [JStr "a"; JStr "b"])])
  = Ok {| read_doc := JObj [("text", JStr "hello"); ("tags", JArr [])];
          copy_docs := [JObj [("text", JStr "a"); ("tags", JArr [])];
                        JObj [("text", JStr "b"); ("tags", JArr [])]] |}.
Proof.
  apply (legacy_content_upgrade
           [("read_text", JStr "hello");
            ("copy_blocks", JArr [JStr "a"; JStr "b"])]
           "hello" ["a"; "b"]);
    [reflexivity | reflexivity | reflexivity | reflexivity | discriminate].
Defined.

Lemma parse_node_file_content nid d n :
  parse_node nid d = Ok n -> type n = file ->
  exists c, content n = Some c /\ copy_docs c <> [].
Proof.
  unfold parse_node.
  destruct (match get "target_id" d with
            | JNull => Ok None | JStr s => Ok (Some s) | _ => Untyped end);
    simpl; try discriminate.
  destruct (str_is (get_default "type" (JStr "folder") d) "file") eqn:F.
  - destruct (_upgrade_legacy_content _) as [c| |] eqn:U; simpl;
      try discriminate.
    destruct (raw_id nid d); simpl; try discriminate.
    destruct (match get_default "name" _ d with JStr s => Ok s | _ => Untyped end);
      simpl; try discriminate.
    destruct (raw_children d); simpl; try discriminate.
    intros [= <-] _. simpl. exists c. split; auto.
    eapply upgrade_copy_docs_nonempty; eauto.
  - simpl.
    destruct (raw_id nid d); simpl; try discriminate.
    destruct (match get_default "name" _ d with JStr s => Ok s | _ => Untyped end);
      simpl; try discriminate.
    destruct (raw_children d); simpl; try discriminate.
    intros [= <-]. simpl. unfold node_type_of. rewrite F.
    destruct (str_is _ "shortcut"); discriminate.
Qed.

(** C6. [copy_docs] is never empty: every content deserialization yields
    has at least one copy document, so has every parsed file node; it is
    exactly one blank document when the stored [copy_docs] (or legacy
    [copy_blocks]) is absent or empty; and removing a copy section is
    refused while one section remains, the count staying 1. *)
Theorem copy_docs_never_empty :
  (forall raw fc, _upgrade_legacy_content raw = Ok fc -> copy_docs fc <> [])
  /\ (forall nid d n,
        parse_node nid d = Ok n -> type n = file ->
        exists c, content n = Some c /\ copy_docs c <> [])
  /\ (forall o,
        dict_mem "read_doc" o || dict_mem "copy_docs" o = true ->
        truthy (get "copy_docs" o) = false ->
        exists rd, _upgrade_legacy_content (JObj o)
                   = Ok {| read_doc := rd; copy_docs := [blank_rich_doc] |})
  /\ (forall o,
        dict_mem "read_doc" o || dict_mem "copy_docs" o = false ->
        truthy (get_default "copy_blocks" (JArr []) o) = false ->
        exists rd, _upgrade_legacy_content (JObj o)
                   = Ok {| read_doc := rd; copy_docs := [blank_rich_doc] |})
  /\ (forall fv idx,
        length (ui_file_view.block_widgets fv) = 1 ->
        fst (ui_file_view._remove_block fv idx) = fv)
  /\ (forall fv idx,
        1 <= length (ui_file_view.block_widgets fv) ->
        1 <= length (ui_file_view.block_widgets
                       (fst (ui_file_view._remove_block fv idx)))).
Proof.
  split; [exact upgrade_copy_docs_nonempty|].
  split; [exact parse_node_file_content|].
  split; [|split; [|split]].
  - intros o Hnew Hf. simpl. rewrite Hnew.
    unfold py_or. rewrite Hf. eauto.
  - intros o Hold Hf. simpl. rewrite Hold.
    unfold py_or. rewrite Hf. simpl. eauto.
  - intros fv idx H. unfold ui_file_view._remove_block.
    destruct (ui_file_view.lock_var fv); [reflexivity|].
    now rewrite H.
  - intros fv idx H. unfold ui_file_view._remove_block.
    destruct (ui_file_view.lock_var fv); [exact H|].
    destruct (Nat.leb (length (ui_file_view.block_widgets fv)) 1) eqn:E;
      [exact H|].
    apply Nat.leb_gt in E.
    destruct (Z.ltb idx 0 || Z.leb _ idx) eqn:B; [exact H|].
    apply orb_false_iff in B. destruct B as [B1 B2].
    apply Z.ltb_ge in B1. apply Z.leb_gt in B2.
    simpl. unfold ui_file_view.list_pop.
    rewrite length_app, length_firstn, length_skipn. lia.
Qed.

(* a file view with one copy section: removal is refused, with the notice *)
Lemma copy_docs_never_empty_witness :
  let fv := {| ui_file_view.db := sample_db; ui_file_view.file_id := Some "f";
               ui_file_view.lock_var := false;
               ui_file_view.block_widgets := [blank_rich_doc] |} in
  fst (ui_file_view._remove_block fv 0) = fv
  /\ snd (ui_file_view._remove_block fv 0) = true.
Proof.
  split; [|reflexivity].
  apply (proj1 (proj2 (proj2 (proj2 (proj2 copy_docs_never_empty))))).
  reflexivity.
Defined.

(** ** Key consistency of the node mapping *)

Lemma kc_get ns k n : key_consistent ns -> dict_get k ns = Some n -> id n = k.
Proof.
  intros H Hg. apply dict_get_In in Hg.
  unfold key_consistent in H. rewrite Forall_forall in H.
  exact (H _ Hg).
Qed.

Lemma kc_set ns k n :
  key_consistent ns -> id n = k -> key_consistent (dict_set k n ns).
Proof.
  intros H Hid. induction H as [|[k' n'] r Hh Ht IH]; simpl.
  - constructor; [exact Hid|constructor].
  - destruct (String.eqb k k') eqn:E.
    + apply String.eqb_eq in E. subst k'. constructor; auto.
    + constructor; auto.
Qed.

Lemma kc_pop ns k : key_consistent ns -> key_consistent (dict_pop k ns).
Proof.
  unfold key_consistent, dict_pop. rewrite !Forall_forall.
  intros H p Hp. apply filter_In in Hp. now apply H.
Qed.

Lemma kc_update a b :
  key_consistent a -> key_consistent b -> key_consistent (dict_update a b).
Proof.
  unfold dict_update. intros Ha Hb. revert a Ha.
  induction Hb as [|[k n] r Hh Ht IH]; simpl; intros a Ha; auto.
  apply IH. now apply kc_set.
Qed.

Lemma kc_set_children ns k obj cs :
  key_consistent ns -> id obj = k ->
  key_consistent (dict_set k (set_children obj cs) ns).
Proof. intros H Hid. now apply kc_set. Qed.

Lemma kc_append_child ns key written obj c :
  key_consistent ns -> id obj = key ->
  key_consistent (append_child key written obj c ns).
Proof.
  intros H Hid. unfold append_child.
  destruct (String.eqb key written); auto. now apply kc_set.
Qed.

Lemma parse_node_id nid d n :
  parse_node nid d = Ok n -> raw_id nid d = Ok (id n).
Proof.
  unfold parse_node.
  destruct (match get "target_id" d with
            | JNull => Ok None | JStr s => Ok (Some s) | _ => Untyped end);
    simpl; try discriminate.
  destruct (if str_is _ "file" then _ else _); simpl; try discriminate.
  destruct (raw_id nid d); simpl; try discriminate.
  destruct (match get_default "name" _ d with JStr s => Ok s | _ => Untyped end);
    simpl; try discriminate.
  destruct (raw_children d); simpl; try discriminate.
  now intros [= <-].
Qed.

Lemma kc_parse_nodes items acc ns :
  key_consistent acc -> parse_nodes items acc = Ok ns -> key_consistent ns.
Proof.
  revert acc. induction items as [|[k j] r IH]; simpl; intros acc Ha.
  - now intros [= <-].
  - destruct j; try (now apply IH).
    destruct (parse_node k o) as [n| |] eqn:P; simpl; try discriminate.
    apply IH. now apply kc_set.
Qed.

Lemma kc_ensure db fid g :
  key_consistent (nodes db) ->
  key_consistent (nodes (fst (_ensure_favorite_shortcut db fid g))).
Proof.
  intros H. unfold _ensure_favorite_shortcut.
  destruct (dict_get (favorites_root_id db) (nodes db)) as [fav|] eqn:F; auto.
  destruct (negb (NodeType_eqb (type fav) folder)); auto.
  destruct (existsb _ (children fav)); auto.
  destruct (dict_get fid (nodes db)) as [t|]; auto.
  destruct (negb (NodeType_eqb (type t) file)); auto.
  cbn. apply kc_append_child.
  - now apply kc_set.
  - eapply kc_get; eauto.
Qed.

Lemma kc_migrate items : forall db g db' g',
  key_consistent (nodes db) ->
  migrate_pinned items db g = (Ok db', g') ->
  key_consistent (nodes db').
Proof.
  induction items as [|[k j] r IH]; simpl; intros db g db' g' H.
  - now intros [= <- _].
  - destruct j; try (now apply IH).
    destruct (get "pinned" o) as [|[|]| | | |]; try (now apply IH).
    destruct (raw_id k o) as [fid| |]; try discriminate.
    unfold gbind.
    destruct (_ensure_favorite_shortcut db fid g) as [db1 g1] eqn:E.
    apply IH. change db1 with (fst (db1, g1)). rewrite <- E.
    now apply kc_ensure.
Qed.

Lemma blank_database_eq g :
  blank_database g
  = ({| quickcopy_root_id := draw g (S (used g));
        favorites_root_id := draw g (used g);
        nodes := dict_set (draw g (S (used g)))
                   (root_node (draw g (S (used g))) "QuickCopy")
                   (dict_set (draw g (used g))
                      (root_node (draw g (used g)) "Favorites") []) |},
     {| draw := draw g; used := S (S (used g)) |}).
Proof. reflexivity. Qed.

Lemma kc_blank g : key_consistent (nodes (fst (blank_database g))).
Proof.
  rewrite blank_database_eq. lazy beta iota zeta delta [fst nodes].
  apply kc_set; [|reflexivity]. apply kc_set; [constructor|reflexivity].
Qed.

Lemma kc_db_from_dict data g db g' :
  db_from_dict data g = (Ok db, g') -> key_consistent (nodes db).
Proof.
  destruct data as [| | | | |top];
    try (intros [= <- _]; exact (kc_blank g)).
  unfold db_from_dict.
  destruct (raw_items _) as [items| |]; simpl; try discriminate.
  destruct (parse_nodes items []) as [ns| |] eqn:P; simpl; try discriminate.
  assert (Hns : key_consistent ns)
    by (eapply kc_parse_nodes; [|exact P]; constructor).
  destruct (missing_root (get "quickcopy_root_id" top) ns) as [[|]| |];
    simpl; try discriminate.
  - (* legacy document *)
    unfold gbind. destruct (blank_database g) as [db0 g0] eqn:B.
    assert (H0 : key_consistent (nodes db0)).
    { change db0 with (fst (db0, g0)). rewrite <- B. apply kc_blank. }
    assert (Hm : key_consistent (dict_update (nodes db0) ns))
      by now apply kc_update.
    destruct (if truthy (get "root_id" top) then _ else _) as [[|]| |];
      try discriminate.
    + destruct (get "root_id" top); try discriminate.
      destruct (dict_get (quickcopy_root_id db0) _) as [qc|] eqn:Q;
        try discriminate.
      intros [= <- _]. cbn. apply kc_set; auto.
      simpl. eapply kc_get; eauto.
    + now intros [= <- _].
  - destruct (get "quickcopy_root_id" top) as [| | |qc| |]; try discriminate;
      try (destruct (missing_root _ ns); discriminate).
    destruct (missing_root (get "favorites_root_id" top) ns) as [[|]| |];
      try discriminate; unfold gbind; cbn.
    + apply kc_migrate. cbn. now apply kc_set.
    + destruct (get "favorites_root_id" top); try discriminate.
      apply kc_migrate. exact Hns.
Qed.

(** ** The round trip through the codec *)

Lemma dict_get_app {V} k (a b : dict V) :
  dict_get k (a ++ b)
  = match dict_get k a with Some v => Some v | None => dict_get k b end.
Proof.
  induction a as [|[k' v'] r IH]; simpl; auto.
  destruct (String.eqb k k'); auto.
Qed.

Lemma fold_set_fresh {V W} (f : V -> W) (d : dict V) : forall acc,
  NoDup (dict_keys d) ->
  (forall k, In k (dict_keys d) -> dict_get k acc = None) ->
  fold_left (fun out p => dict_set (fst p) (f (snd p)) out) d acc
  = acc ++ map (fun p => (fst p, f (snd p))) d.
Proof.
  induction d as [|[k v] r IH]; simpl; intros acc Hnd Hfr.
  - now rewrite app_nil_r.
  - inversion Hnd as [|? ? Hk Hr]; subst.
    rewrite dict_set_fresh by (apply Hfr; now left).
    rewrite IH; auto.
    + now rewrite <- app_assoc.
    + intros k' Hk'. rewrite dict_get_app, Hfr by now right.
      simpl. destruct (String.eqb k' k) eqn:E; auto.
      apply String.eqb_eq in E. now subst.
Qed.

Lemma all_str_map l : all_str (map JStr l) = Ok l.
Proof. induction l as [|s r IH]; simpl; auto. now rewrite IH. Qed.

Lemma parse_node_to_dict k n :
  content_ok n ->
  match node_to_dict n with
  | JObj d => parse_node k d = Ok n
  | _ => False
  end.
Proof.
  destruct n as [i t nm cs ct tg]. unfold content_ok. simpl.
  unfold parse_node, raw_children, raw_id, get_default, get. cbn.
  rewrite all_str_map.
  destruct t, ct as [[rd cd]|]; cbn; try tauto;
    try (intros _; destruct tg; reflexivity).
  intros [Hrd Hcd]. unfold py_or. rewrite Hrd.
  destruct cd as [|c1 cd']; [congruence|]. cbn.
  destruct tg; reflexivity.
Qed.

Lemma parse_nodes_to_dict (d : dict Node) : forall acc,
  NoDup (dict_keys d) ->
  key_consistent d ->
  Forall (fun p => content_ok (snd p)) d ->
  (forall k, In k (dict_keys d) -> dict_get k acc = None) ->
  parse_nodes (map (fun p => (fst p, node_to_dict (snd p))) d) acc
  = Ok (acc ++ d).
Proof.
  induction d as [|[k n] r IH]; intros acc Hnd Hkc Hct Hfr.
  - simpl. now rewrite app_nil_r.
  - inversion Hnd as [|? ? Hk Hr]; subst.
    inversion Hkc as [|? ? Hid Hkc']; subst.
    inversion Hct as [|? ? Hc Hct']; subst. simpl in Hid, Hc.
    pose proof (parse_node_to_dict k n Hc) as P.
    cbn [map fst snd parse_nodes].
    destruct (node_to_dict n) as [| | | | |fields]; try contradiction.
    rewrite P. cbn [rbind]. rewrite Hid.
    rewrite dict_set_fresh by (apply Hfr; now left).
    rewrite IH; auto.
    + now rewrite <- app_assoc.
    + intros k' Hk'. rewrite dict_get_app, Hfr by now right.
      simpl. destruct (String.eqb k' k) eqn:E; auto.
      apply String.eqb_eq in E. now subst.
Qed.

Lemma migrate_pinned_to_dict (d : dict Node) db g :
  migrate_pinned (map (fun p => (fst p, node_to_dict (snd p))) d) db g
  = (Ok db, g).
Proof.
  induction d as [|[k n] r IH]; simpl; auto.
Qed.

Lemma missing_root_present ns k n :
  k <> "" -> dict_get k ns = Some n -> missing_root (JStr k) ns = Ok false.
Proof.
  intros Hk Hg. unfold missing_root. simpl.
  apply String.eqb_neq in Hk. rewrite Hk. simpl.
  unfold dict_mem. now rewrite Hg.
Qed.

(** C1 (amended). For a database that is well formed -- both roots present
    as folder nodes under non-empty ids, every node stored under its own
    id, file nodes and only they carrying content, with a non-empty read
    document and at least one copy document -- decoding the encoded
    database gives the database back, children order included, and draws
    no identifier. *)
Theorem roundtrip (db : Database) (g : idgen) :
  well_formed db ->
  db_from_dict (db_to_dict db) g = (Ok db, g).
Proof.
  intros [Hnd Hkc [Hq [qn [Hqn _]]] [Hf [fn [Hfn _]]] Hct].
  destruct db as [qc fav ns]. simpl in *.
  unfold db_to_dict. simpl nodes.
  rewrite (fold_set_fresh node_to_dict ns []); auto. simpl app.
  unfold db_from_dict.
  change (get_default "nodes" (JObj []) _)
    with (JObj (map (fun p => (fst p, node_to_dict (snd p))) ns)).
  change (get "quickcopy_root_id" _) with (JStr qc).
  change (get "favorites_root_id" _) with (JStr fav).
  change (get "root_id" _) with JNull.
  assert (Hit : raw_items (JObj (map (fun p => (fst p, node_to_dict (snd p))) ns))
                = Ok (map (fun p => (fst p, node_to_dict (snd p))) ns)).
  { destruct ns; reflexivity. }
  rewrite Hit. cbn [rbind].
  rewrite (parse_nodes_to_dict ns []); auto.
  change ([] ++ ns) with ns. cbn [rbind].
  rewrite (missing_root_present ns qc qn Hq Hqn). cbn [rbind].
  rewrite (missing_root_present ns fav fn Hf Hfn).
  unfold gbind, gret. apply migrate_pinned_to_dict.
Qed.

Lemma sample_db_well_formed : well_formed sample_db.
Proof.
  constructor.
  - simpl. repeat constructor; simpl; intuition discriminate.
  - repeat constructor.
  - split; [discriminate|]. eexists. split; reflexivity.
  - split; [discriminate|]. eexists. split; reflexivity.
  - repeat constructor; simpl; try discriminate.
Qed.

Lemma roundtrip_witness :
  well_formed sample_db
  /\ db_from_dict (db_to_dict sample_db) uuids = (Ok sample_db, uuids).
Proof.
  split; [exact sample_db_well_formed|].
  apply (roundtrip sample_db uuids). exact sample_db_well_formed.
Defined.

(** C1, as stated, fails: [misfiled_db] has both roots present as folders
    and no file without content, yet the decoder files its third node
    under the node's id "y", not under the key "x" it had. *)
Lemma roundtrip_counterexample :
  roots_and_contents misfiled_db
  /\ exists db',
       db_from_dict (db_to_dict misfiled_db) uuids = (Ok db', uuids)
       /\ dict_get "x" (nodes db') = None
       /\ dict_get "x" (nodes misfiled_db) = Some (folder_node "y" "Notes" [])
       /\ ~ db_equal db' misfiled_db.
Proof.
  split.
  - split; [|split].
    + eexists; split; reflexivity.
    + eexists; split; reflexivity.
    + intros k n. simpl.
      repeat (destruct (String.eqb k _); [intros [= <-]; discriminate|]).
      discriminate.
  - eexists. split; [vm_compute; reflexivity|].
    split; [reflexivity|]. split; [reflexivity|].
    intros (_ & _ & H). specialize (H "x"). vm_compute in H. discriminate.
Qed.

(* the other conditions of [well_formed] are needed as well: the decoder
   drops the content of a folder, gives a file without copy documents a
   blank one, and takes a document whose quickcopy_root_id is empty for a
   legacy one *)
Example decoder_other_losses :
  (roots_and_contents folder_with_content_db
   /\ exists db', db_from_dict (db_to_dict folder_with_content_db) uuids
                  = (Ok db', uuids)
                  /\ dict_get "x" (nodes db')
                     = Some (folder_node "x" "Notes" []))
  /\ (roots_and_contents no_copy_docs_db
      /\ exists db', db_from_dict (db_to_dict no_copy_docs_db) uuids
                     = (Ok db', uuids)
                     /\ dict_get "x" (nodes db') = Some (file_node "x" "Will"))
  /\ (roots_and_contents empty_root_id_db
      /\ exists db' g', db_from_dict (db_to_dict empty_root_id_db) uuids
                        = (Ok db', g')
                        /\ quickcopy_root_id db' = "#|"
                        /\ used g' = 2).
Proof.
  assert (R : forall n, type (snd n) <> file ->
                        roots_and_contents (with_third n)).
  { intros [k n] Hn. split; [|split].
    - eexists; split; reflexivity.
    - eexists; split; reflexivity.
    - intros k' n'. simpl.
      destruct (String.eqb k' "fav"); [intros [= <-]; discriminate|].
      destruct (String.eqb k' "qc"); [intros [= <-]; discriminate|].
      destruct (String.eqb k' k); [|discriminate].
      intros [= <-] Hf. now apply Hn in Hf. }
  split; [|split].
  - split; [apply R; discriminate|].
    eexists. split; [vm_compute; reflexivity|reflexivity].
  - split.
    + split; [|split].
      * eexists; split; reflexivity.
      * eexists; split; reflexivity.
      * intros k n. simpl.
        repeat (destruct (String.eqb k _);
                [intros [= <-]; simpl; discriminate|]).
        discriminate.
    + eexists. split; [vm_compute; reflexivity|reflexivity].
  - split.
    + split; [|split].
      * eexists; split; reflexivity.
      * eexists; split; reflexivity.
      * intros k n. simpl.
        repeat (destruct (String.eqb k _);
                [intros [= <-]; simpl; discriminate|]).
        discriminate.
    + eexists _, _. split; [vm_compute; reflexivity|].
      split; reflexivity.
Qed.

(** ** Stores that only grow *)

Lemma same_but_children_refl n : same_but_children n n.
Proof. repeat split; auto. apply incl_refl. Qed.

Lemma same_but_children_trans a b c :
  same_but_children a b -> same_but_children b c -> same_but_children a c.
Proof.
  intros (A1 & A2 & A3 & A4 & A5 & A6) (B1 & B2 & B3 & B4 & B5 & B6).
  repeat split; try congruence. eapply incl_tran; eauto.
Qed.

Lemma grows_refl ns : grows ns ns.
Proof. intros k n H. exists n. split; auto. apply same_but_children_refl. Qed.

Lemma grows_trans a b c : grows a b -> grows b c -> grows a c.
Proof.
  intros H1 H2 k n Hg.
  destruct (H1 _ _ Hg) as (n1 & G1 & S1).
  destruct (H2 _ _ G1) as (n2 & G2 & S2).
  exists n2. split; auto. eapply same_but_children_trans; eauto.
Qed.

Lemma grows_set_fresh ns k n : dict_get k ns = None -> grows ns (dict_set k n ns).
Proof.
  intros Hk k' n' Hg. exists n'. split; [|apply same_but_children_refl].
  rewrite dict_get_set_ne; auto. congruence.
Qed.

Lemma grows_set_children ns k obj cs :
  dict_get k ns = Some obj -> incl (children obj) cs ->
  grows ns (dict_set k (set_children obj cs) ns).
Proof.
  intros Hk Hi k' n' Hg. rewrite dict_get_set.
  destruct (String.eqb k k') eqn:E.
  - apply String.eqb_eq in E. subst k'.
    assert (n' = obj) by congruence. subst n'.
    eexists. split; [reflexivity|]. repeat split; auto.
  - exists n'. split; auto. apply same_but_children_refl.
Qed.

Lemma fresh_not_key g ns i :
  fresh_for g ns -> used g <= i -> dict_get (draw g i) ns = None.
Proof.
  intros [H _] Hi. apply dict_get_None. intros Hin.
  apply (H i Hi). now left.
Qed.

Lemma favorited_true db fid :
  favorited db fid = true <->
  exists fav cid,
    dict_get (favorites_root_id db) (nodes db) = Some fav
    /\ type fav = folder /\ In cid (children fav)
    /\ shortcut_to (nodes db) fid cid = true.
Proof.
  unfold favorited.
  destruct (dict_get (favorites_root_id db) (nodes db)) as [fav|].
  - destruct (NodeType_eqb (type fav) folder) eqn:T; simpl.
    + apply NodeType_eqb_eq in T. rewrite existsb_exists. split.
      * intros (cid & Hin & Hs). eauto 10.
      * intros (fav' & cid & [= <-] & _ & Hin & Hs). eauto.
    + split; [discriminate|].
      intros (fav' & cid & [= <-] & Hty & _).
      rewrite Hty in T. discriminate.
  - split; [discriminate|]. intros (? & ? & [=] & _).
Qed.

Lemma shortcut_to_true ns fid cid :
  shortcut_to ns fid cid = true <->
  exists n, dict_get cid ns = Some n /\ type n = shortcut
            /\ target_id n = Some fid.
Proof.
  unfold shortcut_to. destruct (dict_get cid ns) as [n|].
  - rewrite andb_true_iff, NodeType_eqb_eq. split.
    + intros [Ht Hs]. exists n. repeat split; auto.
      destruct (target_id n) as [t|]; [|discriminate].
      apply String.eqb_eq in Hs. now subst.
    + intros (n' & [= <-] & Ht & Hs). split; auto.
      rewrite Hs. apply String.eqb_refl.
  - split; [discriminate|]. intros (? & [=] & _).
Qed.

Lemma shortcut_to_grows ns ns' fid cid :
  grows ns ns' -> shortcut_to ns fid cid = true ->
  shortcut_to ns' fid cid = true.
Proof.
  intros G H. apply shortcut_to_true in H. destruct H as (n & Hg & Ht & Hs).
  destruct (G _ _ Hg) as (n' & Hg' & (_ & Ht' & _ & _ & Hs' & _)).
  apply shortcut_to_true. exists n'. repeat split; congruence.
Qed.

Lemma favorited_grows db db' fid :
  favorites_root_id db' = favorites_root_id db ->
  grows (nodes db) (nodes db') ->
  favorited db fid = true -> favorited db' fid = true.
Proof.
  intros Hf G H. apply favorited_true in H.
  destruct H as (fav & cid & Hg & Ht & Hin & Hs).
  destruct (G _ _ Hg) as (fav' & Hg' & (_ & Ht' & _ & _ & _ & Hi)).
  apply favorited_true. exists fav', cid. rewrite Hf.
  repeat split; auto; try congruence.
  eapply shortcut_to_grows; eauto.
Qed.

(** ** Creating a favourite shortcut *)

Lemma In_dict_set {V} k (v : V) d p :
  In p (dict_set k v d) -> In p d \/ p = (k, v).
Proof.
  induction d as [|[k' v'] r IH]; simpl.
  - intros [<-|[]]. now right.
  - destruct (String.eqb k k') eqn:E; simpl.
    + apply String.eqb_eq in E. subst k'. intros [<-|H]; auto.
    + intros [<-|H]; auto. destruct (IH H); auto.
Qed.

Lemma mentions_set ns k n x :
  mentions (dict_set k n ns) x ->
  mentions ns x \/ x = k \/ In x (children n).
Proof.
  intros [H|(p & Hp & Hc)].
  - apply dict_keys_set in H. destruct H; auto. left. now left.
  - apply In_dict_set in Hp. destruct Hp as [Hp| ->]; auto.
    left. right. eauto.
Qed.

Lemma mentions_key ns k n : dict_get k ns = Some n -> mentions ns k.
Proof. intros H. left. eapply dict_get_Some_key; eauto. Qed.

Lemma mentions_child ns k n c :
  dict_get k ns = Some n -> In c (children n) -> mentions ns c.
Proof.
  intros H Hc. right. exists (k, n). split; auto. now apply dict_get_In.
Qed.

Section WithShortcut.
Variables (ns : dict Node) (fav_key : string) (fav_root target : Node)
          (fid sc_id : string).
Hypothesis Hfav : dict_get fav_key ns = Some fav_root.
Hypothesis Hfolder : type fav_root = folder.
Hypothesis Hnew : ~ mentions ns sc_id.

Local Abbreviation sc :=
  {| id := sc_id; type := shortcut; name := name target;
     children := []; content := None; target_id := Some fid |}.
Local Abbreviation ns' := (with_shortcut ns fav_key fav_root target fid sc_id).

Lemma sc_id_not_fav : fav_key <> sc_id.
Proof. intros ->. apply Hnew. eapply mentions_key; eauto. Qed.

Lemma with_shortcut_eq :
  ns' = dict_set fav_key
          (set_children fav_root (children fav_root ++ [sc_id]))
          (dict_set sc_id sc ns).
Proof.
  unfold with_shortcut, append_child.
  destruct (String.eqb fav_key sc_id) eqn:E; auto.
  apply String.eqb_eq in E. now apply sc_id_not_fav in E.
Qed.

Lemma with_shortcut_get k :
  dict_get k ns'
  = if String.eqb fav_key k
    then Some (set_children fav_root (children fav_root ++ [sc_id]))
    else if String.eqb sc_id k then Some sc else dict_get k ns.
Proof. rewrite with_shortcut_eq, dict_get_set, dict_get_set. reflexivity. Qed.

Lemma with_shortcut_grows : grows ns ns'.
Proof.
  rewrite with_shortcut_eq.
  eapply grows_trans.
  - apply (grows_set_fresh ns sc_id sc).
    apply dict_get_None. intros H. apply Hnew. now left.
  - apply grows_set_children.
    + rewrite dict_get_set_ne; auto. intros E. now apply sc_id_not_fav.
    + apply incl_appl, incl_refl.
Qed.

Lemma with_shortcut_mentions x : mentions ns' x -> mentions ns x \/ x = sc_id.
Proof.
  rewrite with_shortcut_eq. intros H.
  apply mentions_set in H. destruct H as [H|[->|H]].
  - apply mentions_set in H. destruct H as [H|[->|[]]]; auto.
  - left. eapply mentions_key; eauto.
  - simpl in H. apply in_app_or in H. destruct H as [H|[<-|[]]]; auto.
    left. eapply mentions_child; eauto.
Qed.

Lemma with_shortcut_new : shortcut_to ns' fid sc_id = true.
Proof.
  unfold shortcut_to. rewrite with_shortcut_get.
  destruct (String.eqb fav_key sc_id) eqn:E.
  - apply String.eqb_eq in E. now apply sc_id_not_fav in E.
  - rewrite String.eqb_refl. simpl. apply String.eqb_refl.
Qed.

Lemma with_shortcut_old x cid :
  In cid (children fav_root) ->
  shortcut_to ns' x cid = shortcut_to ns x cid.
Proof.
  intros Hin. unfold shortcut_to. rewrite with_shortcut_get.
  destruct (String.eqb fav_key cid) eqn:E.
  - apply String.eqb_eq in E. subst cid. rewrite Hfav. simpl.
    now rewrite Hfolder.
  - destruct (String.eqb sc_id cid) eqn:E2; auto.
    apply String.eqb_eq in E2. subst cid.
    exfalso. apply Hnew. eapply mentions_child; eauto.
Qed.

Lemma with_shortcut_filter x :
  filter (shortcut_to ns' x) (children fav_root ++ [sc_id])
  = filter (shortcut_to ns x) (children fav_root)
    ++ (if String.eqb fid x then [sc_id] else []).
Proof.
  rewrite filter_app. f_equal.
  - apply filter_ext_in. intros cid Hin. now apply with_shortcut_old.
  - simpl. unfold shortcut_to. rewrite with_shortcut_get.
    destruct (String.eqb fav_key sc_id) eqn:E.
    + apply String.eqb_eq in E. now apply sc_id_not_fav in E.
    + rewrite String.eqb_refl. simpl. now destruct (String.eqb fid x).
Qed.
End WithShortcut.

Lemma fresh_for_advance g ns ns' :
  fresh_for g ns ->
  (forall x, mentions ns' x -> mentions ns x \/ x = draw g (used g)) ->
  fresh_for (advance g) ns'.
Proof.
  intros [H1 H2] Hm. split; simpl.
  - intros i Hi Hx. destruct (Hm _ Hx) as [H|H].
    + apply (H1 i); auto. lia.
    + apply H2 in H; lia.
  - intros i j Hi Hj. apply H2; lia.
Qed.

(** ** Migration of the legacy pinned flag *)

Lemma ensure_skip db fid g :
  favorited db fid = true -> _ensure_favorite_shortcut db fid g = (db, g).
Proof.
  unfold favorited, _ensure_favorite_shortcut.
  destruct (dict_get (favorites_root_id db) (nodes db)) as [fav|]; auto.
  destruct (negb (NodeType_eqb (type fav) folder)); auto.
  now intros ->.
Qed.

Lemma root_present_grows ns ns' k :
  grows ns ns' -> root_present ns k -> root_present ns' k.
Proof.
  intros G (n & Hg & Ht). destruct (G _ _ Hg) as (n' & Hg' & (_ & Ht' & _)).
  exists n'. split; congruence.
Qed.

Lemma ensure_spec db fid g :
  fresh_for g (nodes db) ->
  exists db' g',
    _ensure_favorite_shortcut db fid g = (db', g')
    /\ favorites_root_id db' = favorites_root_id db
    /\ quickcopy_root_id db' = quickcopy_root_id db
    /\ grows (nodes db) (nodes db')
    /\ fresh_for g' (nodes db')
    /\ (root_present (nodes db) (favorites_root_id db) ->
        (exists t, dict_get fid (nodes db) = Some t /\ type t = file) ->
        favorited db' fid = true).
Proof.
  intros Hfr.
  assert (Same :
            (root_present (nodes db) (favorites_root_id db) ->
             (exists t, dict_get fid (nodes db) = Some t /\ type t = file) ->
             favorited db fid = true) ->
            exists db' g', (db, g) = (db', g')
              /\ favorites_root_id db' = favorites_root_id db
              /\ quickcopy_root_id db' = quickcopy_root_id db
              /\ grows (nodes db) (nodes db') /\ fresh_for g' (nodes db')
              /\ (root_present (nodes db) (favorites_root_id db) ->
                  (exists t, dict_get fid (nodes db) = Some t /\ type t = file) ->
                  favorited db' fid = true)).
  { intros HP. exists db, g.
    split; [reflexivity|]. split; [reflexivity|]. split; [reflexivity|].
    split; [apply grows_refl|]. split; [exact Hfr|exact HP]. }
  unfold _ensure_favorite_shortcut.
  destruct (dict_get (favorites_root_id db) (nodes db)) as [fav|] eqn:F.
  2:{ apply Same. intros (n & Hn & _). congruence. }
  destruct (NodeType_eqb (type fav) folder) eqn:T; simpl.
  2:{ apply Same. intros (n & Hn & Ht). assert (n = fav) by congruence.
      subst. rewrite Ht in T. discriminate. }
  apply NodeType_eqb_eq in T.
  destruct (existsb (shortcut_to (nodes db) fid) (children fav)) eqn:X.
  { apply Same. intros _ _. unfold favorited. rewrite F, T. exact X. }
  destruct (dict_get fid (nodes db)) as [t|] eqn:Tg.
  2:{ apply Same. intros _ (t & [=] & _). }
  destruct (NodeType_eqb (type t) file) eqn:Tt; simpl.
  2:{ apply Same. intros _ (t' & [= <-] & Ht). rewrite Ht in Tt.
      discriminate. }
  clear Same.
  assert (Hnew : ~ mentions (nodes db) (draw g (used g))).
  { apply Hfr. lia. }
  unfold gbind, new_id, gret.
  change (append_child _ _ fav _ _)
    with (with_shortcut (nodes db) (favorites_root_id db) fav t fid
                        (draw g (used g))).
  eexists _, _. split; [reflexivity|]. simpl.
  split; [reflexivity|]. split; [reflexivity|].
  split; [now apply with_shortcut_grows|].
  split.
  - apply (fresh_for_advance g (nodes db)); auto.
    intros x. now apply with_shortcut_mentions.
  - intros _ _. apply favorited_true. simpl.
    eexists _, (draw g (used g)). rewrite with_shortcut_get; auto.
    rewrite String.eqb_refl. split; [reflexivity|].
    split; [exact T|]. split; [simpl; apply in_or_app; right; now left|].
    now apply with_shortcut_new.
Qed.

Lemma parse_nodes_entries items : forall acc ns,
  parse_nodes items acc = Ok ns ->
  forall nid d, In (nid, JObj d) items -> exists n, parse_node nid d = Ok n.
Proof.
  induction items as [|[k j] r IH]; simpl; intros acc ns H nid d; [tauto|].
  destruct j as [| | | | |o]; try (intros [[=]|Hin]; now eauto).
  destruct (parse_node k o) as [n| |] eqn:P; simpl in H; try discriminate.
  intros [[= <- <-]|Hin]; eauto.
Qed.

Lemma migrate_spec items : forall db g,
  fresh_for g (nodes db) ->
  root_present (nodes db) (favorites_root_id db) ->
  (forall nid d, In (nid, JObj d) items -> exists fid, raw_id nid d = Ok fid) ->
  exists db' g',
    migrate_pinned items db g = (Ok db', g')
    /\ favorites_root_id db' = favorites_root_id db
    /\ quickcopy_root_id db' = quickcopy_root_id db
    /\ grows (nodes db) (nodes db')
    /\ forall nid d fid t,
         In (nid, JObj d) items -> get "pinned" d = JBool true ->
         raw_id nid d = Ok fid ->
         dict_get fid (nodes db) = Some t -> type t = file ->
         favorited db' fid = true.
Proof.
  induction items as [|[k j] r IH]; intros db g Hfr Hroot Hid.
  - exists db, g. simpl. repeat split; auto. apply grows_refl.
  - assert (Hid' : forall nid d, In (nid, JObj d) r ->
                                 exists fid, raw_id nid d = Ok fid).
    { intros nid d Hin. apply Hid. now right. }
    assert (Skip : migrate_pinned ((k, j) :: r) db g = migrate_pinned r db g ->
                   (forall d, j = JObj d -> get "pinned" d <> JBool true) ->
                   exists db' g',
                     migrate_pinned ((k, j) :: r) db g = (Ok db', g')
                     /\ favorites_root_id db' = favorites_root_id db
                     /\ quickcopy_root_id db' = quickcopy_root_id db
                     /\ grows (nodes db) (nodes db')
                     /\ forall nid d fid t,
                          In (nid, JObj d) ((k, j) :: r) ->
                          get "pinned" d = JBool true ->
                          raw_id nid d = Ok fid ->
                          dict_get fid (nodes db) = Some t -> type t = file ->
                          favorited db' fid = true).
    { intros E Hnp. rewrite E.
      destruct (IH db g Hfr Hroot Hid') as (db' & g' & R & F & Q & G & P).
      exists db', g'. repeat split; auto.
      intros nid d fid t [[= -> ->]|Hin] Hp; eauto.
      now apply Hnp in Hp. }
    destruct j as [| | | | |d]; try (apply Skip; [reflexivity|discriminate]).
    destruct (get "pinned" d) as [|[|]| | | |] eqn:Pin;
      try (apply Skip; [simpl; now rewrite Pin|];
           intros d' [= <-]; rewrite Pin; discriminate).
    destruct (Hid k d (or_introl eq_refl)) as (fid0 & Rid).
    destruct (ensure_spec db fid0 g Hfr) as (db1 & g1 & E & F1 & Q1 & G1 & Fr1 & Fav1).
    assert (Hroot1 : root_present (nodes db1) (favorites_root_id db1)).
    { rewrite F1. eapply root_present_grows; eauto. }
    destruct (IH db1 g1 Fr1 Hroot1 Hid') as (db' & g' & R & F & Q & G & P).
    exists db', g'. simpl. rewrite Pin, Rid. unfold gbind. rewrite E.
    split; [exact R|]. split; [congruence|]. split; [congruence|].
    split; [eapply grows_trans; eauto|].
    intros nid d' fid t [[= -> ->]|Hin] Hp Hr Hg Ht.
    + assert (fid = fid0) by congruence. subst fid0.
      apply (favorited_grows db1 db'); auto.
      apply Fav1; eauto.
    + destruct (G1 _ _ Hg) as (t' & Hg' & (_ & Ht' & _)).
      eapply P; eauto. congruence.
Qed.

Lemma missing_root_str f ns :
  missing_root (JStr f) ns
  = Ok (if String.eqb f "" then true else negb (dict_mem f ns)).
Proof. unfold missing_root. simpl. now destruct (String.eqb f ""). Qed.

(** C3 (amended). For a document in the current format -- its
    [quickcopy_root_id] names a parsed node -- whose [favorites_root_id]
    is absent or names a folder, every raw entry carrying [pinned: true]
    whose id resolves to a file node ends up favourited: a shortcut child
    of the Favorites root targets it.  The shortcut is created if absent
    and nothing is done when one exists. *)
Theorem pinned_migration (top items : dict json) (parsed : dict Node)
    (q : string) (g : idgen) :
  raw_items (get_default "nodes" (JObj []) top) = Ok items ->
  parse_nodes items [] = Ok parsed ->
  get "quickcopy_root_id" top = JStr q -> q <> "" ->
  dict_mem q parsed = true ->
  (get "favorites_root_id" top = JNull
   \/ exists f, get "favorites_root_id" top = JStr f
                /\ forall n, dict_get f parsed = Some n -> type n = folder) ->
  fresh_for g parsed ->
  exists db g',
    db_from_dict (JObj top) g = (Ok db, g')
    /\ grows parsed (nodes db)
    /\ (forall nid d fid t,
          In (nid, JObj d) items -> get "pinned" d = JBool true ->
          raw_id nid d = Ok fid ->
          dict_get fid parsed = Some t -> type t = file ->
          favorited db fid = true)
    /\ (forall db0 fid g0,
          favorited db0 fid = true ->
          _ensure_favorite_shortcut db0 fid g0 = (db0, g0)).
Proof.
  intros Hit Hp Hq Hqne Hqin Hfav Hfr.
  assert (Hids : forall nid d, In (nid, JObj d) items ->
                               exists fid, raw_id nid d = Ok fid).
  { intros nid d Hin.
    destruct (parse_nodes_entries _ _ _ Hp _ _ Hin) as (n & Hn).
    exists (id n). now apply parse_node_id. }
  unfold db_from_dict. rewrite Hit. cbn [rbind]. rewrite Hp. cbn [rbind].
  rewrite Hq, missing_root_str.
  apply String.eqb_neq in Hqne. rewrite Hqne, Hqin. cbn [rbind negb].
  assert (Go : forall fav ns1 g1,
            grows parsed ns1 -> fresh_for g1 ns1 -> root_present ns1 fav ->
            exists db g',
              migrate_pinned items
                {| quickcopy_root_id := q; favorites_root_id := fav;
                   nodes := ns1 |} g1 = (Ok db, g')
              /\ grows parsed (nodes db)
              /\ (forall nid d fid t,
                    In (nid, JObj d) items -> get "pinned" d = JBool true ->
                    raw_id nid d = Ok fid ->
                    dict_get fid parsed = Some t -> type t = file ->
                    favorited db fid = true)
              /\ (forall db0 fid g0,
                    favorited db0 fid = true ->
                    _ensure_favorite_shortcut db0 fid g0 = (db0, g0))).
  { intros fav ns1 g1 G Fr Rp.
    destruct (migrate_spec items
                {| quickcopy_root_id := q; favorites_root_id := fav;
                   nodes := ns1 |} g1 Fr Rp Hids)
      as (db' & g' & R & _ & _ & G' & P).
    exists db', g'. split; [exact R|]. split; [eapply grows_trans; eauto|].
    split; [|intros; now apply ensure_skip].
    intros nid d fid t Hin Hpin Hr Hg Ht.
    destruct (G _ _ Hg) as (t' & Hg' & (_ & Ht' & _)).
    eapply P; eauto. simpl. congruence. }
  assert (Fresh : exists db g',
             migrate_pinned items
               {| quickcopy_root_id := q;
                  favorites_root_id := draw g (used g);
                  nodes := dict_set (draw g (used g))
                             (root_node (draw g (used g)) "Favorites") parsed |}
               (advance g) = (Ok db, g')
             /\ grows parsed (nodes db)
             /\ (forall nid d fid t,
                   In (nid, JObj d) items -> get "pinned" d = JBool true ->
                   raw_id nid d = Ok fid ->
                   dict_get fid parsed = Some t -> type t = file ->
                   favorited db fid = true)
             /\ (forall db0 fid g0,
                   favorited db0 fid = true ->
                   _ensure_favorite_shortcut db0 fid g0 = (db0, g0))).
  { apply Go.
    - apply grows_set_fresh. apply fresh_not_key with (g := g); auto.
    - apply (fresh_for_advance g parsed); auto.
      intros x Hx. apply mentions_set in Hx.
      destruct Hx as [Hx|[Hx|[]]]; auto.
    - eexists. split; [apply dict_get_set_eq|reflexivity]. }
  destruct Hfav as [Hf|(f & Hf & Hfolder)]; rewrite Hf.
  - exact Fresh.
  - rewrite missing_root_str.
    destruct (String.eqb f "") eqn:Ef; [exact Fresh|].
    destruct (dict_mem f parsed) eqn:Mf; [|exact Fresh].
    cbn [negb]. unfold gbind, gret.
    apply Go; auto using grows_refl.
    apply dict_mem_true in Mf. destruct Mf as (n & Hn).
    exists n. split; auto.
Qed.

Lemma bars_inj i : forall j, bars i = bars j -> i = j.
Proof.
  induction i as [|i IH]; destruct j; simpl; try discriminate; auto.
  intros [= H]. f_equal. now apply IH.
Qed.

Lemma uuids_fresh ns u :
  plain ns = true -> fresh_for {| draw := draw uuids; used := u |} ns.
Proof.
  intros Hp. unfold plain in Hp. rewrite forallb_forall in Hp.
  split; simpl.
  - intros i _ [Hk|(p & Hin & Hc)].
    + apply in_map_iff in Hk. destruct Hk as (p & Hk & Hin).
      specialize (Hp _ Hin). apply andb_true_iff in Hp.
      destruct Hp as [Hp _]. rewrite Hk in Hp. discriminate.
    + specialize (Hp _ Hin). apply andb_true_iff in Hp.
      destruct Hp as [_ Hp]. rewrite forallb_forall in Hp.
      specialize (Hp _ Hc). discriminate.
  - intros i j _ _ [= H]. now apply bars_inj.
Qed.

Lemma pinned_migration_witness :
  exists db g',
    db_from_dict (JObj pinned_file_doc) uuids = (Ok db, g')
    /\ favorited db "f" = true.
Proof.
  destruct (pinned_migration pinned_file_doc
              [ raw_node "fav" "folder" "Favorites" [] [];
                raw_node "qc" "folder" "QuickCopy" ["f"] [];
                raw_node "f" "file" "Will" [] [("pinned", JBool true)] ]
              [ ("fav", folder_node "fav" "Favorites" []);
                ("qc", folder_node "qc" "QuickCopy" ["f"]);
                ("f", file_node "f" "Will") ]
              "qc" uuids)
    as (db & g' & R & _ & P & _).
  - reflexivity.
  - reflexivity.
  - reflexivity.
  - discriminate.
  - reflexivity.
  - right. exists "fav". split; [reflexivity|].
    intros n [= <-]. reflexivity.
  - apply (uuids_fresh _ 0). reflexivity.
  - exists db, g'. split; [exact R|].
    apply (P "f" [("id", JStr "f"); ("type", JStr "file"); ("name", JStr "Will");
                  ("children", JArr []); ("pinned", JBool true)]
             "f" (file_node "f" "Will")).
    + simpl. unfold raw_node. simpl. auto.
    + reflexivity.
    + reflexivity.
    + reflexivity.
    + reflexivity.
Defined.

(** C3, as stated, fails.  A pinned folder gets no shortcut (only files
    are favourited); and a legacy document returns before the pinned
    entries are looked at, so its pinned file gets none either. *)
Lemma pinned_migration_counterexample :
  (exists db g',
     db_from_dict (JObj pinned_folder_doc) uuids = (Ok db, g')
     /\ In ("d", JObj [("id", JStr "d"); ("type", JStr "folder");
                       ("name", JStr "Deeds"); ("children", JArr []);
                       ("pinned", JBool true)])
           (match get "nodes" pinned_folder_doc with JObj o => o | _ => [] end)
     /\ favorited db "d" = false
     /\ forall k n, dict_get k (nodes db) = Some n -> type n <> shortcut)
  /\ (exists db g',
        db_from_dict (JObj legacy_pinned_doc) uuids = (Ok db, g')
        /\ (exists n, dict_get "f" (nodes db) = Some n /\ type n = file)
        /\ favorited db "f" = false
        /\ forall k n, dict_get k (nodes db) = Some n -> type n <> shortcut).
Proof.
  split.
  - eexists _, _. split; [vm_compute; reflexivity|].
    split; [simpl; auto|]. split; [reflexivity|].
    intros k n. simpl.
    repeat (destruct (String.eqb k _); [intros [= <-]; discriminate|]).
    discriminate.
  - eexists _, _. split; [vm_compute; reflexivity|].
    split; [eexists; split; reflexivity|]. split; [reflexivity|].
    intros k n. simpl.
    repeat (destruct (String.eqb k _); [intros [= <-]; discriminate|]).
    discriminate.
Qed.

(** ** Toggling a favourite *)

Lemma remove_first_find fid fav_key fav_root ns cids :
  ui_explorer.remove_first_shortcut fid fav_key fav_root cids ns
  = match find (shortcut_to ns fid) cids with
    | Some cid =>
        dict_pop cid
          (dict_set fav_key
             (set_children fav_root
                (ui_explorer.list_remove cid (children fav_root))) ns)
    | None => ns
    end.
Proof.
  induction cids as [|c r IH]; simpl; auto.
  destruct (shortcut_to ns fid c); auto.
Qed.

Lemma filter_le1 {A} (f : A -> bool) l a b :
  length (filter f l) <= 1 ->
  In a l -> f a = true -> In b l -> f b = true -> a = b.
Proof.
  induction l as [|x r IH]; simpl; [tauto|].
  destruct (f x) eqn:Fx; simpl; intros Hl Ha Fa Hb Fb.
  - assert (Hr : filter f r = []) by (destruct (filter f r); simpl in *; [auto|lia]).
    assert (No : forall y, In y r -> f y = true -> False).
    { intros y Hy Fy.
      assert (Hin : In y (filter f r)) by (apply filter_In; auto).
      rewrite Hr in Hin. destruct Hin. }
    destruct Ha as [<-|Ha]; [|exfalso; eauto].
    destruct Hb as [<-|Hb]; [auto|exfalso; eauto].
  - destruct Ha as [<-|Ha]; [congruence|].
    destruct Hb as [<-|Hb]; [congruence|].
    apply IH; auto.
Qed.

Lemma list_remove_incl x l : incl (ui_explorer.list_remove x l) l.
Proof.
  induction l as [|y r IH]; simpl; [apply incl_refl|].
  destruct (String.eqb y x).
  - apply incl_tl, incl_refl.
  - intros z [<-|Hz]; [now left|right; now apply IH].
Qed.

Lemma mentions_pop ns k x : mentions (dict_pop k ns) x -> mentions ns x.
Proof.
  unfold dict_pop. intros [H|(p & Hp & Hc)].
  - left. apply in_map_iff in H. destruct H as (p & <- & Hp).
    apply filter_In in Hp. apply in_map. tauto.
  - right. exists p. apply filter_In in Hp. tauto.
Qed.

Lemma existsb_find {A} (f : A -> bool) l :
  existsb f l = true -> exists a, find f l = Some a.
Proof.
  induction l as [|x r IH]; simpl; [discriminate|].
  destruct (f x); eauto.
Qed.

Lemma shortcut_count_favorited db fid :
  root_present (nodes db) (favorites_root_id db) ->
  favorited db fid = negb (Nat.eqb (shortcut_count db fid) 0).
Proof.
  intros (fav & Hf & Ht). unfold favorited, shortcut_count.
  rewrite Hf, Ht. simpl.
  induction (children fav) as [|c r IH]; simpl; auto.
  destruct (shortcut_to (nodes db) fid c); simpl; auto.
Qed.

Lemma filter_none {A} (f : A -> bool) l :
  (forall a, In a l -> f a = false) -> filter f l = [].
Proof.
  induction l as [|x r IH]; simpl; intros H; auto.
  rewrite (H x) by now left. apply IH. intros; apply H; now right.
Qed.

Section Removal.
Variables (ns : dict Node) (fav_key : string) (fav_root : Node)
          (fid cid : string).
Hypothesis Hfav : dict_get fav_key ns = Some fav_root.
Hypothesis Hfolder : type fav_root = folder.
Hypothesis Hone : length (filter (shortcut_to ns fid) (children fav_root)) <= 1.
Hypothesis Hfind : find (shortcut_to ns fid) (children fav_root) = Some cid.

Local Abbreviation ns' :=
  (dict_pop cid
     (dict_set fav_key
        (set_children fav_root
           (ui_explorer.list_remove cid (children fav_root))) ns)).

Lemma removal_cid : In cid (children fav_root) /\ shortcut_to ns fid cid = true.
Proof. exact (find_some _ _ Hfind). Qed.

Lemma removal_cid_not_fav : cid <> fav_key.
Proof.
  intros E. destruct removal_cid as [_ H].
  unfold shortcut_to in H. rewrite E, Hfav, Hfolder in H. discriminate.
Qed.

Lemma removal_get k :
  dict_get k ns'
  = if String.eqb cid k then None
    else if String.eqb fav_key k
         then Some (set_children fav_root
                      (ui_explorer.list_remove cid (children fav_root)))
         else dict_get k ns.
Proof. now rewrite dict_get_pop, dict_get_set. Qed.

Lemma removal_fav :
  dict_get fav_key ns'
  = Some (set_children fav_root
            (ui_explorer.list_remove cid (children fav_root))).
Proof.
  rewrite removal_get, String.eqb_refl.
  destruct (String.eqb cid fav_key) eqn:E; auto.
  apply String.eqb_eq in E. now apply removal_cid_not_fav in E.
Qed.

Lemma removal_none c :
  In c (children fav_root) -> shortcut_to ns' fid c = false.
Proof.
  intros Hin. unfold shortcut_to. rewrite removal_get.
  destruct (String.eqb cid c) eqn:E; auto.
  destruct (String.eqb fav_key c) eqn:E2; [simpl; now rewrite Hfolder|].
  fold (shortcut_to ns fid c).
  destruct (shortcut_to ns fid c) eqn:S; [|reflexivity].
  exfalso. apply String.eqb_neq in E. apply E.
  destruct removal_cid as [Hc Sc].
  exact (filter_le1 _ _ _ _ Hone Hc Sc Hin S).
Qed.

Lemma removal_count :
  filter (shortcut_to ns' fid)
         (ui_explorer.list_remove cid (children fav_root)) = [].
Proof.
  apply filter_none. intros c Hc.
  apply removal_none. now apply list_remove_incl in Hc.
Qed.

Lemma removal_mentions x : mentions ns' x -> mentions ns x.
Proof.
  intros H. apply mentions_pop in H. apply mentions_set in H.
  destruct H as [H|[->|H]]; auto.
  - eapply mentions_key; eauto.
  - simpl in H. apply list_remove_incl in H. eapply mentions_child; eauto.
Qed.

Lemma removal_file k n :
  dict_get k ns = Some n -> type n = file -> dict_get k ns' = Some n.
Proof.
  intros Hk Ht. rewrite removal_get.
  destruct (String.eqb cid k) eqn:E.
  - apply String.eqb_eq in E. destruct removal_cid as [_ S].
    apply shortcut_to_true in S. destruct S as (m & Hm & Tm & _).
    rewrite E in Hm. congruence.
  - destruct (String.eqb fav_key k) eqn:E2; auto.
    apply String.eqb_eq in E2. rewrite <- E2 in Hk. congruence.
Qed.
End Removal.

Lemma existsb_false_filter {A} (f : A -> bool) l :
  existsb f l = false -> filter f l = [].
Proof.
  induction l as [|x r IH]; simpl; auto.
  destruct (f x); simpl; [discriminate|auto].
Qed.

Lemma not_root_present ns k :
  (forall fav, dict_get k ns = Some fav -> type fav <> folder) ->
  ~ root_present ns k.
Proof. intros H (n & Hn & Ht). exact (H n Hn Ht). Qed.

Lemma toggle_core_step db fid g node :
  dict_get fid (nodes db) = Some node -> type node = file ->
  shortcut_count db fid <= 1 -> fresh_for g (nodes db) ->
  exists db1 g1,
    toggle_core db fid g = (db1, g1)
    /\ favorites_root_id db1 = favorites_root_id db
    /\ dict_get fid (nodes db1) = Some node
    /\ shortcut_count db1 fid <= 1
    /\ fresh_for g1 (nodes db1)
    /\ (root_present (nodes db) (favorites_root_id db) ->
        root_present (nodes db1) (favorites_root_id db1)
        /\ favorited db1 fid = negb (favorited db fid))
    /\ (~ root_present (nodes db) (favorites_root_id db) ->
        db1 = db /\ g1 = g).
Proof.
  intros Hnode Hfile Hone Hfr.
  assert (Same : ~ root_present (nodes db) (favorites_root_id db) ->
            exists db1 g1,
              (db, g) = (db1, g1)
              /\ favorites_root_id db1 = favorites_root_id db
              /\ dict_get fid (nodes db1) = Some node
              /\ shortcut_count db1 fid <= 1
              /\ fresh_for g1 (nodes db1)
              /\ (root_present (nodes db) (favorites_root_id db) ->
                  root_present (nodes db1) (favorites_root_id db1)
                  /\ favorited db1 fid = negb (favorited db fid))
              /\ (~ root_present (nodes db) (favorites_root_id db) ->
                  db1 = db /\ g1 = g)).
  { intros Hno. exists db, g.
    split; [reflexivity|]. split; [reflexivity|]. split; [exact Hnode|].
    split; [exact Hone|]. split; [exact Hfr|].
    split; [intros Hy; contradiction|auto]. }
  unfold toggle_core. unfold shortcut_count in Hone.
  destruct (dict_get (favorites_root_id db) (nodes db)) as [fav|] eqn:F.
  2:{ apply Same. intros (n & Hn & _). congruence. }
  destruct (NodeType_eqb (type fav) folder) eqn:T; simpl.
  2:{ apply Same. intros (n & Hn & Ht). assert (n = fav) by congruence.
      subst. rewrite Ht in T. discriminate. }
  clear Same. apply NodeType_eqb_eq in T.
  assert (Rp : root_present (nodes db) (favorites_root_id db))
    by (exists fav; auto).
  destruct (existsb (shortcut_to (nodes db) fid) (children fav)) eqn:X.
  - (* favourited: the first shortcut goes *)
    destruct (existsb_find _ _ X) as (cid & Hfind).
    rewrite remove_first_find, Hfind. unfold gret.
    eexists _, g. split; [reflexivity|]. simpl.
    assert (Hf' : dict_get (favorites_root_id db)
                    (dict_pop cid
                       (dict_set (favorites_root_id db)
                          (set_children fav
                             (ui_explorer.list_remove cid (children fav)))
                          (nodes db)))
                  = Some (set_children fav
                            (ui_explorer.list_remove cid (children fav))))
      by (eapply removal_fav; eauto).
    assert (Hc' : filter
                    (shortcut_to
                       (dict_pop cid
                          (dict_set (favorites_root_id db)
                             (set_children fav
                                (ui_explorer.list_remove cid (children fav)))
                             (nodes db))) fid)
                    (ui_explorer.list_remove cid (children fav)) = [])
      by (eapply removal_count; eauto).
    split; [reflexivity|].
    split; [eapply removal_file; eauto|].
    split; [unfold shortcut_count; simpl; rewrite Hf'; simpl; rewrite Hc';
            simpl; lia|].
    split.
    { destruct Hfr as [H1 H2]. split; auto.
      intros i Hi Hm. apply (H1 i Hi).
      eapply removal_mentions; eauto. }
    split; [|contradiction].
    intros _. split.
    + eexists. split; [exact Hf'|exact T].
    + unfold favorited at 2. rewrite F, T. simpl. rewrite X. simpl.
      unfold favorited. simpl. rewrite Hf'. simpl. rewrite T. simpl.
      apply not_true_is_false. intros E. apply existsb_exists in E.
      destruct E as (c & Hc & Sc).
      assert (Hin : In c (filter
                            (shortcut_to
                               (dict_pop cid
                                  (dict_set (favorites_root_id db)
                                     (set_children fav
                                        (ui_explorer.list_remove cid
                                           (children fav)))
                                     (nodes db))) fid)
                            (ui_explorer.list_remove cid (children fav))))
        by (apply filter_In; auto).
      rewrite Hc' in Hin. destruct Hin.
  - (* not favourited: a shortcut is created *)
    rewrite Hnode, Hfile. simpl.
    assert (Hnew : ~ mentions (nodes db) (draw g (used g)))
      by (apply Hfr; lia).
    unfold gbind, new_id, gret.
    eexists _, _. split; [reflexivity|]. simpl.
    split; [reflexivity|].
    assert (Hfav' : dict_get (favorites_root_id db)
                      (with_shortcut (nodes db) (favorites_root_id db) fav node
                                     fid (draw g (used g)))
                    = Some (set_children fav
                              (children fav ++ [draw g (used g)]))).
    { rewrite with_shortcut_get; auto. now rewrite String.eqb_refl. }
    split.
    { rewrite with_shortcut_get; auto.
      destruct (String.eqb (favorites_root_id db) fid) eqn:E.
      - apply String.eqb_eq in E. rewrite E in F. congruence.
      - destruct (String.eqb (draw g (used g)) fid) eqn:E2; auto.
        apply String.eqb_eq in E2. exfalso. apply Hnew. rewrite E2.
        eapply mentions_key; eauto. }
    split.
    { unfold shortcut_count. simpl. rewrite Hfav'. simpl.
      rewrite with_shortcut_filter; auto.
      rewrite (existsb_false_filter _ _ X), String.eqb_refl. simpl. lia. }
    split.
    { apply (fresh_for_advance g (nodes db)); auto.
      intros x. now apply with_shortcut_mentions. }
    split; [|contradiction].
    intros _. split.
    + eexists. split; [exact Hfav'|exact T].
    + unfold favorited at 2. rewrite F, T. simpl. rewrite X. simpl.
      apply favorited_true. simpl.
      eexists _, (draw g (used g)). split; [exact Hfav'|].
      split; [exact T|].
      split; [simpl; apply in_or_app; right; now left|].
      now apply with_shortcut_new.
Qed.

Lemma toggle_core_pair db fid g node :
  dict_get fid (nodes db) = Some node -> type node = file ->
  shortcut_count db fid <= 1 -> fresh_for g (nodes db) ->
  pair_law (fun d => toggle_core d fid) db fid g.
Proof.
  intros Hnode Hfile Hone Hfr. unfold pair_law.
  destruct (toggle_core_step db fid g node Hnode Hfile Hone Hfr)
    as (db1 & g1 & E1 & F1 & N1 & C1 & Fr1 & Y1 & Nn1).
  rewrite E1.
  destruct (toggle_core_step db1 fid g1 node N1 Hfile C1 Fr1)
    as (db2 & g2 & E2 & F2 & N2 & C2 & Fr2 & Y2 & Nn2).
  rewrite E2.
  split; [|split; [|split]]; auto.
  - destruct (dict_get (favorites_root_id db) (nodes db)) as [fav|] eqn:F.
    + destruct (NodeType_eqb (type fav) folder) eqn:T.
      * apply NodeType_eqb_eq in T.
        assert (Rp : root_present (nodes db) (favorites_root_id db))
          by (exists fav; auto).
        destruct (Y1 Rp) as [Rp1 Fv1]. destruct (Y2 Rp1) as [_ Fv2].
        rewrite Fv2, Fv1. apply negb_involutive.
      * assert (Nr : ~ root_present (nodes db) (favorites_root_id db)).
        { intros (n & Hn & Ht). assert (n = fav) by congruence. subst.
          rewrite Ht in T. discriminate. }
        destruct (Nn1 Nr) as [-> ->].
        destruct (Nn2 Nr) as [-> _]. reflexivity.
    + assert (Nr : ~ root_present (nodes db) (favorites_root_id db)).
      { intros (n & Hn & _). congruence. }
      destruct (Nn1 Nr) as [-> ->].
      destruct (Nn2 Nr) as [-> _]. reflexivity.
  - intros Rp. now destruct (Y1 Rp).
Qed.

Lemma explorer_toggle_core cur lid fid db g node :
  fid <> "" -> dict_get fid (nodes db) = Some node ->
  type node = file -> id node = fid ->
  explorer_toggle cur lid fid db g = toggle_core db fid g.
Proof.
  intros Hne Hnode Hfile Hid.
  unfold explorer_toggle, ui_explorer.toggle_favorite_selected,
    ui_explorer._get_selected_node_anywhere; simpl.
  apply String.eqb_neq in Hne. rewrite Hne, Hnode, Hfile, Hid.
  unfold ui_explorer.is_favorited, toggle_core; simpl.
  unfold ui_explorer._remove_shortcut_for_target,
    ui_explorer._add_shortcut_for_target; simpl.
  rewrite Hnode, Hfile; simpl.
  destruct (dict_get (favorites_root_id db) (nodes db)) as [fav|]; auto.
  destruct (NodeType_eqb (type fav) folder); simpl; auto.
  destruct (existsb _ (children fav)); simpl; auto.
Qed.

Lemma fileview_toggle_core locked blocks fid db g node :
  fid <> "" -> dict_get fid (nodes db) = Some node ->
  type node = file ->
  fileview_toggle locked blocks fid db g = toggle_core db fid g.
Proof.
  intros Hne Hnode Hfile.
  unfold fileview_toggle, ui_file_view._toggle_favorite,
    ui_file_view._is_favorited, toggle_core; simpl.
  apply String.eqb_neq in Hne. rewrite Hne.
  destruct (dict_get (favorites_root_id db) (nodes db)) as [fav|]; auto.
  destruct (NodeType_eqb (type fav) folder); simpl; auto.
  destruct (existsb _ (children fav)); simpl; auto.
  rewrite Hnode, Hfile. reflexivity.
Qed.

Lemma pair_law_core toggle db fid g node :
  (forall d g0, dict_get fid (nodes d) = Some node ->
                toggle d g0 = toggle_core d fid g0) ->
  dict_get fid (nodes db) = Some node -> type node = file ->
  shortcut_count db fid <= 1 -> fresh_for g (nodes db) ->
  pair_law toggle db fid g.
Proof.
  intros Hsame Hnode Hfile Hone Hfr.
  pose proof (toggle_core_pair db fid g node Hnode Hfile Hone Hfr) as P.
  unfold pair_law in *. rewrite (Hsame db g Hnode).
  destruct (toggle_core_step db fid g node Hnode Hfile Hone Hfr)
    as (db1 & g1 & E1 & _ & N1 & _).
  rewrite E1 in *. rewrite (Hsame db1 g1 N1). exact P.
Qed.

(** C8 (amended). For a file id resolving to a file node, in a store whose
    Favorites children hold at most one shortcut to it: toggling the
    favourite twice, from the explorer or from the file view, brings the
    favourited state back, the first toggle flips it when the Favorites
    folder exists, and after each toggle there is still at most one
    shortcut to the file. *)
Theorem toggle_favorite_twice (db : Database) (fid : string) (node : Node)
    (g : idgen) (cur : string) (lid : option string) (locked : bool)
    (blocks : list json) :
  fid <> "" ->
  dict_get fid (nodes db) = Some node -> type node = file -> id node = fid ->
  shortcut_count db fid <= 1 ->
  fresh_for g (nodes db) ->
  pair_law (explorer_toggle cur lid fid) db fid g
  /\ pair_law (fileview_toggle locked blocks fid) db fid g.
Proof.
  intros Hne Hnode Hfile Hid Hone Hfr. split.
  - apply (pair_law_core _ db fid g node); auto.
    intros d g0 Hd. now apply (explorer_toggle_core cur lid fid d g0 node).
  - apply (pair_law_core _ db fid g node); auto.
    intros d g0 Hd. now apply (fileview_toggle_core locked blocks fid d g0 node).
Qed.

Lemma toggle_favorite_twice_witness :
  pair_law (explorer_toggle "qc" None "f") sample_db "f" uuids
  /\ pair_law (fileview_toggle false [] "f") sample_db "f" uuids.
Proof.
  apply (toggle_favorite_twice sample_db "f" (file_node "f" "Affidavit")
           uuids "qc" None false []).
  - discriminate.
  - reflexivity.
  - reflexivity.
  - reflexivity.
  - vm_compute. lia.
  - apply (uuids_fresh _ 0). reflexivity.
Defined.

(** C8, as stated, fails on a store that holds two shortcuts to the file:
    each toggle removes one of them, so the file starts favourited and is
    not after two toggles. *)
Lemma toggle_favorite_twice_counterexample :
  dict_get "f" (nodes twice_favorited_db) = Some (file_node "f" "Affidavit")
  /\ shortcut_count twice_favorited_db "f" = 2
  /\ favorited twice_favorited_db "f" = true
  /\ (let (db1, g1) := explorer_toggle "qc" None "f" twice_favorited_db uuids in
      let (db2, g2) := explorer_toggle "qc" None "f" db1 g1 in
      favorited db1 "f" = true /\ favorited db2 "f" = false)
  /\ (let (db1, g1) := fileview_toggle false [] "f" twice_favorited_db uuids in
      let (db2, g2) := fileview_toggle false [] "f" db1 g1 in
      favorited db1 "f" = true /\ favorited db2 "f" = false)
  /\ ~ pair_law (explorer_toggle "qc" None "f") twice_favorited_db "f" uuids.
Proof.
  repeat split; try reflexivity.
  intros H. vm_compute in H. destruct H as [H _]. discriminate.
Qed.

(** ** Renaming a file *)

Lemma shortcut_to_set_name ns fid c sc nm k :
  dict_get c ns = Some sc ->
  shortcut_to (dict_set c (set_name sc nm) ns) fid k = shortcut_to ns fid k.
Proof.
  intros Hc. unfold shortcut_to. rewrite dict_get_set.
  destruct (String.eqb c k) eqn:E; auto.
  apply String.eqb_eq in E. subst k. now rewrite Hc.
Qed.

Lemma set_name_twice n nm : set_name (set_name n nm) nm = set_name n nm.
Proof. reflexivity. Qed.

Lemma sync_get fid nm cids : forall acc k,
  dict_get k (ui_explorer.sync_shortcut_names fid nm cids acc)
  = match dict_get k acc with
    | Some n =>
        if existsb (String.eqb k) cids && shortcut_to acc fid k
        then Some (set_name n nm) else Some n
    | None => None
    end.
Proof.
  unfold ui_explorer.sync_shortcut_names.
  induction cids as [|c r IH]; intros acc k; simpl.
  - now destruct (dict_get k acc).
  - rewrite IH. clear IH.
    destruct (shortcut_to acc fid c) eqn:S.
    + pose proof S as S'. apply shortcut_to_true in S'.
      destruct S' as (sc & Hc & _). rewrite Hc.
      rewrite (shortcut_to_set_name acc fid c sc nm k Hc), dict_get_set.
      destruct (String.eqb k c) eqn:E.
      * apply String.eqb_eq in E. subst k. rewrite String.eqb_refl, Hc, S.
        simpl. now destruct (existsb (String.eqb c) r).
      * rewrite String.eqb_sym, E. simpl. reflexivity.
    + destruct (dict_get k acc) as [n|]; auto.
      destruct (String.eqb k c) eqn:E; simpl; auto.
      apply String.eqb_eq in E. subst k. rewrite S.
      now rewrite andb_false_r.
Qed.

Lemma safe_name_blank s :
  forallb utils.is_space1 (list_ascii_of_string s) = true ->
  utils.safe_name s = "Untitled".
Proof.
  intros H. unfold utils.safe_name, utils.strip.
  assert (E : utils.lstrip (list_ascii_of_string s) = []).
  { induction (list_ascii_of_string s) as [|a r IH]; simpl in *; auto.
    apply andb_true_iff in H. destruct H as [Ha Hr]. rewrite Ha. auto. }
  now rewrite E.
Qed.

Lemma safe_name_spaces n : utils.safe_name (spaces n) = "Untitled".
Proof.
  apply safe_name_blank. induction n as [|n IH]; simpl; auto.
Qed.

(** C9. When rename gives a file node a new name -- the file selected, or
    the live target of a selected shortcut -- the file carries the
    normalized name and so does every shortcut child of the Favorites root
    whose target is the file's id; empty input and input made of ASCII
    whitespace only normalize to "Untitled". *)
Theorem rename_syncs_shortcuts (v : ui_explorer.ExplorerView)
    (rid lid : option string) (new_name : string)
    (key fkey : string) (node fnode : Node) :
  ui_explorer._get_selected_node_anywhere v rid lid = Some (key, node) ->
  ui_explorer.is_root (ui_explorer.db v) (id node) = false ->
  ui_explorer.rename_target v key node = (fkey, fnode) ->
  type fnode = file ->
  let v' := ui_explorer.rename_selected v rid lid (Some new_name) in
  let ns' := nodes (ui_explorer.db v') in
  dict_get fkey ns' = Some (set_name fnode (utils.safe_name new_name))
  /\ (forall fav cid sc,
        dict_get (favorites_root_id (ui_explorer.db v')) ns' = Some fav ->
        type fav = folder -> In cid (children fav) ->
        dict_get cid ns' = Some sc -> type sc = shortcut ->
        target_id sc = Some (id fnode) ->
        name sc = utils.safe_name new_name)
  /\ utils.safe_name "" = "Untitled"
  /\ (forall s, forallb utils.is_space1 (list_ascii_of_string s) = true ->
                utils.safe_name s = "Untitled").
Proof.
  intros Hsel Hroot Htgt Hfile v' ns'.
  split; [|split; [|split; [reflexivity|exact safe_name_blank]]].
  - subst ns' v'. unfold ui_explorer.rename_selected.
    rewrite Hsel, Hroot, Htgt. simpl. rewrite Hfile.
    set (nm := utils.safe_name new_name).
    set (ns1 := dict_set fkey (set_name fnode nm) (nodes (ui_explorer.db v))).
    assert (H1 : dict_get fkey ns1 = Some (set_name fnode nm))
      by apply dict_get_set_eq.
    destruct (dict_get (favorites_root_id (ui_explorer.db v)) ns1) as [fav|];
      auto.
    destruct (NodeType_eqb (type fav) folder); auto.
    rewrite sync_get, H1.
    unfold shortcut_to. rewrite H1. simpl. rewrite Hfile. simpl.
    now rewrite andb_false_r.
  - subst ns' v'. unfold ui_explorer.rename_selected.
    rewrite Hsel, Hroot, Htgt. simpl. rewrite Hfile.
    set (nm := utils.safe_name new_name).
    set (ns1 := dict_set fkey (set_name fnode nm) (nodes (ui_explorer.db v))).
    intros fav cid sc.
    destruct (dict_get (favorites_root_id (ui_explorer.db v)) ns1)
      as [fav0|] eqn:F0.
    2:{ rewrite F0. discriminate. }
    destruct (NodeType_eqb (type fav0) folder) eqn:T0.
    2:{ rewrite F0. intros [= <-] Hty. rewrite Hty in T0. discriminate. }
    rewrite !sync_get, F0.
    assert (Hf0 : shortcut_to ns1 (id fnode)
                    (favorites_root_id (ui_explorer.db v)) = false).
    { unfold shortcut_to. rewrite F0. apply NodeType_eqb_eq in T0.
      now rewrite T0. }
    rewrite Hf0, andb_false_r. intros [= <-] _ Hin.
    destruct (dict_get cid ns1) as [n|] eqn:Hc; [|discriminate].
    assert (Hex : existsb (String.eqb cid) (children fav0) = true).
    { apply existsb_exists. exists cid. split; auto. apply String.eqb_refl. }
    rewrite Hex. simpl.
    destruct (shortcut_to ns1 (id fnode) cid) eqn:S.
    + now intros [= <-].
    + intros [= <-] Hty Htg. exfalso.
      unfold shortcut_to in S. rewrite Hc, Hty, Htg in S. simpl in S.
      now rewrite String.eqb_refl in S.
Qed.

Lemma rename_syncs_shortcuts_witness :
  let v' := ui_explorer.rename_selected sample_view (Some "f") None
              (Some "  Last will ") in
  dict_get "f" (nodes (ui_explorer.db v'))
  = Some (set_name (file_node "f" "Affidavit") "Last will")
  /\ forall fav cid sc,
       dict_get "fav" (nodes (ui_explorer.db v')) = Some fav ->
       type fav = folder -> In cid (children fav) ->
       dict_get cid (nodes (ui_explorer.db v')) = Some sc ->
       type sc = shortcut -> target_id sc = Some "f" ->
       name sc = "Last will".
Proof.
  destruct (rename_syncs_shortcuts sample_view (Some "f") None "  Last will "
              "f" "f" (file_node "f" "Affidavit") (file_node "f" "Affidavit"))
    as (H1 & H2 & _); try reflexivity.
  split; [exact H1|exact H2].
Defined.

(* the same run, computed: the shortcut "s" follows the file's new name;
   an ideographic space (U+3000) is stripped like any other *)
Example rename_run :
  dict_get "s" (nodes (ui_explorer.db
                         (ui_explorer.rename_selected sample_view (Some "f")
                            None (Some "  Last will "))))
  = Some (shortcut_node "s" "Last will" "f")
  /\ utils.safe_name (String (ascii_of_nat 227) (String (ascii_of_nat 128)
                        (String (ascii_of_nat 128) " "))) = "Untitled".
Proof. split; reflexivity. Qed.

(** ** Key consistency of the mutating operations *)

Lemma kc_create_node v answer mk g :
  (forall nid nm, id (mk nid nm) = nid) ->
  key_consistent (nodes (ui_explorer.db v)) ->
  key_consistent
    (nodes (ui_explorer.db (fst (ui_explorer.create_node v answer mk g)))).
Proof.
  intros Hmk H. unfold ui_explorer.create_node, ui_explorer.creation_parent.
  assert (Go : forall pkey parent,
            dict_get pkey (nodes (ui_explorer.db v)) = Some parent ->
            key_consistent
              (nodes (ui_explorer.db
                        (fst ((if negb (NodeType_eqb (type parent) folder)
                               then gret v
                               else match answer with
                                    | None => gret v
                                    | Some name =>
                                        nid <~ new_id ;;
                                        gret (ui_explorer.with_nodes v
                                                (append_child pkey
                                                   (id (mk nid (utils.safe_name name)))
                                                   parent
                                                   (id (mk nid (utils.safe_name name)))
                                                   (dict_set
                                                      (id (mk nid (utils.safe_name name)))
                                                      (mk nid (utils.safe_name name))
                                                      (nodes (ui_explorer.db v)))))
                                    end) g))))).
  { intros pkey parent Hp.
    destruct (negb (NodeType_eqb (type parent) folder)); auto.
    destruct answer as [nm|]; auto.
    cbn. apply kc_append_child.
    - apply kc_set; auto.
    - eapply kc_get; eauto. }
  destruct (dict_get (ui_explorer.current_folder_id v)
                     (nodes (ui_explorer.db v))) as [p|] eqn:P.
  - now apply Go.
  - destruct (dict_get (quickcopy_root_id (ui_explorer.db v))
                       (nodes (ui_explorer.db v))) as [p|] eqn:Q; auto.
Qed.

Lemma kc_remove_first fid fav_key fav_root cids ns :
  key_consistent ns -> id fav_root = fav_key ->
  key_consistent
    (ui_explorer.remove_first_shortcut fid fav_key fav_root cids ns).
Proof.
  intros H Hid. rewrite remove_first_find.
  destruct (find _ cids); auto.
  apply kc_pop. now apply kc_set.
Qed.

Lemma kc_add_shortcut v fid g :
  key_consistent (nodes (ui_explorer.db v)) ->
  key_consistent
    (nodes (ui_explorer.db (fst (ui_explorer._add_shortcut_for_target v fid g)))).
Proof.
  intros H. unfold ui_explorer._add_shortcut_for_target.
  destruct (dict_get fid _) as [t|]; auto.
  destruct (dict_get (favorites_root_id _) _) as [fav|] eqn:F; auto.
  destruct (_ || _); auto.
  destruct (existsb _ _); auto.
  cbn. apply kc_append_child.
  - now apply kc_set.
  - eapply kc_get; eauto.
Qed.

Lemma kc_remove_shortcut v k :
  key_consistent (nodes (ui_explorer.db v)) ->
  key_consistent (nodes (ui_explorer.db (ui_explorer._remove_shortcut v k))).
Proof.
  intros H. unfold ui_explorer._remove_shortcut. simpl. apply kc_pop.
  destruct (dict_get (favorites_root_id _) _) as [fav|] eqn:F; auto.
  destruct (NodeType_eqb (type fav) folder); auto.
  apply kc_set; auto. simpl. eapply kc_get; eauto.
Qed.

Lemma kc_remove_for_target v fid :
  key_consistent (nodes (ui_explorer.db v)) ->
  key_consistent
    (nodes (ui_explorer.db (ui_explorer._remove_shortcut_for_target v fid))).
Proof.
  intros H. unfold ui_explorer._remove_shortcut_for_target.
  destruct (dict_get (favorites_root_id _) _) as [fav|] eqn:F; auto.
  destruct (negb _); auto.
  simpl. apply kc_remove_first; auto. eapply kc_get; eauto.
Qed.

Lemma kc_explorer_toggle v rid lid g :
  key_consistent (nodes (ui_explorer.db v)) ->
  key_consistent
    (nodes (ui_explorer.db
              (fst (ui_explorer.toggle_favorite_selected v rid lid g)))).
Proof.
  intros H. unfold ui_explorer.toggle_favorite_selected.
  destruct (ui_explorer._get_selected_node_anywhere v rid lid) as [[k n]|];
    auto.
  destruct (type n); auto.
  - destruct (ui_explorer.is_favorited v (id n)).
    + now apply kc_remove_for_target.
    + now apply kc_add_shortcut.
  - now apply kc_remove_shortcut.
Qed.

Lemma kc_fileview_toggle fv g :
  key_consistent (nodes (ui_file_view.db fv)) ->
  key_consistent
    (nodes (ui_file_view.db (fst (ui_file_view._toggle_favorite fv g)))).
Proof.
  intros H. unfold ui_file_view._toggle_favorite.
  destruct (ui_file_view.file_id fv) as [fid|]; auto.
  destruct (String.eqb fid ""); auto.
  destruct (dict_get (favorites_root_id _) _) as [fav|] eqn:F; auto.
  destruct (negb _); auto.
  assert (Hid : id fav = favorites_root_id (ui_file_view.db fv))
    by (eapply kc_get; eauto).
  destruct (ui_file_view._is_favorited fv).
  - simpl. now apply kc_remove_first.
  - destruct (dict_get fid _) as [t|]; auto.
    destruct (negb _); auto.
    cbn. apply kc_append_child; auto. now apply kc_set.
Qed.

Lemma kc_insert_imported id_map items : forall ns,
  key_consistent ns ->
  key_consistent (snd (ui_explorer.insert_imported id_map items ns)).
Proof.
  induction items as [|[k n] r IH]; simpl; intros ns H; auto.
  destruct (ui_explorer.subscript id_map k); simpl; auto.
  apply IH. now apply kc_set.
Qed.

Lemma kc_relink id_map items : forall ns,
  key_consistent ns ->
  key_consistent (snd (ui_explorer.relink_children id_map items ns)).
Proof.
  induction items as [|[k n] r IH]; simpl; intros ns H; auto.
  destruct (type n); auto.
  unfold ui_explorer.subscript.
  destruct (dict_get k id_map) as [nid|]; simpl; auto.
  destruct (dict_get nid ns) as [obj|] eqn:O; simpl; auto.
  apply IH. apply kc_set; auto. simpl. eapply kc_get; eauto.
Qed.

Lemma kc_attach v qc_in ns :
  key_consistent ns ->
  key_consistent (snd (ui_explorer.attach_quickcopy v qc_in ns)).
Proof.
  intros H. unfold ui_explorer.attach_quickcopy, ui_explorer.subscript.
  assert (Go : forall akey a,
            dict_get akey ns = Some a ->
            key_consistent
              (snd (match qc_in with
                    | Some q =>
                        if negb (String.eqb q "") && dict_mem q ns
                        then (Ok tt,
                              dict_set akey
                                (set_children a (children a ++ [q])) ns)
                        else (Ok tt, ns)
                    | None => (Ok tt, ns)
                    end))).
  { intros akey a Ha. destruct qc_in as [q|]; auto.
    destruct (_ && _); auto. simpl. apply kc_set; auto.
    simpl. eapply kc_get; eauto. }
  destruct (dict_get (ui_explorer.current_folder_id v) ns) as [a|] eqn:A.
  - destruct (NodeType_eqb (type a) folder); [now apply Go|].
    destruct (dict_get (quickcopy_root_id _) ns) as [q|] eqn:Q; simpl; auto.
  - destruct (dict_get (quickcopy_root_id _) ns) as [q|] eqn:Q; simpl; auto.
Qed.

Lemma kc_merge_favorites v fav_in ns :
  key_consistent ns ->
  key_consistent (snd (ui_explorer.merge_favorites v fav_in ns)).
Proof.
  intros H. unfold ui_explorer.merge_favorites, ui_explorer.subscript.
  destruct fav_in as [f|]; auto.
  destruct (negb _); auto.
  destruct (dict_get f ns); auto.
  destruct (dict_get (favorites_root_id _) ns) as [m|] eqn:M; simpl; auto.
  apply kc_set; auto. simpl. eapply kc_get; eauto.
Qed.

Lemma kc_and_then c k :
  key_consistent (snd c) ->
  (forall ns, key_consistent ns -> key_consistent (snd (k ns))) ->
  key_consistent (snd (ui_explorer.and_then c k)).
Proof.
  destruct c as [[[]| |] ns]; simpl; auto.
Qed.

Lemma kc_import_bundle v raw g :
  key_consistent (nodes (ui_explorer.db v)) ->
  key_consistent
    (nodes (ui_explorer.db (snd (fst (ui_explorer.import_bundle v raw g))))).
Proof.
  intros H. unfold ui_explorer.import_bundle, gbind.
  destruct (db_from_dict raw g) as [[incoming| |] g1]; auto.
  destruct (ui_explorer.remap_ids _ _ _ g1) as [id_map g2].
  match goal with
  | |- context [let '(r1, ns) := ?c in _] =>
      assert (K : key_consistent (snd c)); [|destruct c as [r1 ns]; exact K]
  end.
  repeat apply kc_and_then;
    auto using kc_insert_imported, kc_relink, kc_attach, kc_merge_favorites.
Qed.

Lemma import_node_id id_map old_id d n :
  bundle_io.import_node id_map old_id d = Ok n ->
  ui_explorer.subscript id_map old_id = Ok (id n).
Proof.
  unfold bundle_io.import_node. destruct d as [| | | | |o]; try discriminate.
  destruct (ui_explorer.subscript id_map old_id) as [nid| |]; simpl;
    try discriminate.
  destruct (bundle_io.import_children id_map o); simpl; try discriminate.
  destruct (get_default "name" _ o); simpl; try discriminate.
  destruct (if str_is _ "folder" then _ else _) as [[| |]| |]; simpl;
    try discriminate; now intros [= <-].
Qed.

Lemma kc_import_nodes id_map items : forall ns,
  key_consistent ns ->
  key_consistent (snd (bundle_io.import_nodes id_map items ns)).
Proof.
  induction items as [|[k d] r IH]; simpl; intros ns H; auto.
  destruct (bundle_io.import_node id_map k d); simpl; auto.
  apply IH. now apply kc_set.
Qed.

Lemma kc_import_into_folder db bundle target g :
  key_consistent (nodes db) ->
  key_consistent
    (nodes (snd (fst (bundle_io.import_bundle_into_folder db bundle target g)))).
Proof.
  intros H. unfold bundle_io.import_bundle_into_folder.
  destruct (negb _); auto.
  destruct (negb (truthy _) || negb (truthy _)); auto.
  destruct (get_default "nodes" _ bundle) as [| | | | |items]; auto.
  destruct (get "bundle_root_id" bundle) as [| | |root| |]; auto.
  destruct (negb (dict_mem root items)); auto.
  unfold gbind. destruct (bundle_io.remap_all _ _ g) as [id_map g1].
  pose proof (kc_import_nodes id_map items (nodes db) H) as K.
  destruct (bundle_io.import_nodes id_map items (nodes db)) as [[[]| |] ns];
    simpl in K; auto.
  unfold ui_explorer.subscript.
  destruct (dict_get root id_map); simpl; auto.
  destruct (dict_get target ns) as [t|] eqn:T; simpl; auto.
  apply kc_set; auto. simpl. eapply kc_get; eauto.
Qed.

(** C10. Every database the program constructs or mutates keeps each node
    under its own id: [blank_database], [db_from_dict], folder and file
    creation, the addition (and toggling) of favourite shortcuts, and both
    bundle imports, whatever their outcome. *)
Theorem key_consistency :
  (forall g, key_consistent (nodes (fst (blank_database g))))
  /\ (forall data g db g',
        db_from_dict data g = (Ok db, g') -> key_consistent (nodes db))
  /\ (forall v answer g,
        key_consistent (nodes (ui_explorer.db v)) ->
        key_consistent
          (nodes (ui_explorer.db (fst (ui_explorer.create_folder v answer g))))
        /\ key_consistent
             (nodes (ui_explorer.db (fst (ui_explorer.create_file v answer g)))))
  /\ (forall db fid g,
        key_consistent (nodes db) ->
        key_consistent (nodes (fst (_ensure_favorite_shortcut db fid g))))
  /\ (forall v fid rid lid g,
        key_consistent (nodes (ui_explorer.db v)) ->
        key_consistent
          (nodes (ui_explorer.db
                    (fst (ui_explorer._add_shortcut_for_target v fid g))))
        /\ key_consistent
             (nodes (ui_explorer.db
                       (fst (ui_explorer.toggle_favorite_selected v rid lid g)))))
  /\ (forall fv g,
        key_consistent (nodes (ui_file_view.db fv)) ->
        key_consistent
          (nodes (ui_file_view.db (fst (ui_file_view._toggle_favorite fv g)))))
  /\ (forall v raw g,
        key_consistent (nodes (ui_explorer.db v)) ->
        key_consistent
          (nodes (ui_explorer.db
                    (snd (fst (ui_explorer.import_bundle v raw g))))))
  /\ (forall db bundle target g,
        key_consistent (nodes db) ->
        key_consistent
          (nodes (snd (fst (bundle_io.import_bundle_into_folder
                              db bundle target g))))).
Proof.
  split; [exact kc_blank|].
  split; [exact kc_db_from_dict|].
  split.
  { intros v answer g H. split; apply kc_create_node; auto. }
  split; [exact kc_ensure|].
  split.
  { intros v fid rid lid g H. split;
      [now apply kc_add_shortcut|now apply kc_explorer_toggle]. }
  split; [exact kc_fileview_toggle|].
  split; [exact kc_import_bundle|exact kc_import_into_folder].
Qed.

(* the store decoded from a document with a pinned file, the shortcut it
   gained included, keeps every node under its id *)
Lemma key_consistency_witness :
  exists db g',
    db_from_dict (JObj pinned_file_doc) uuids = (Ok db, g')
    /\ key_consistent (nodes db).
Proof.
  eexists _, _. split; [vm_compute; reflexivity|].
  apply (proj1 (proj2 key_consistency) (JObj pinned_file_doc) uuids _
               {| draw := draw uuids; used := 1 |}).
  vm_compute. reflexivity.
Defined.

(** ** Deleting a subtree *)

Lemma subgraph_refl ns : subgraph ns ns.
Proof. intros x n H. exists n. repeat split; auto. apply incl_refl. Qed.

Lemma subgraph_trans a b c : subgraph a b -> subgraph b c -> subgraph a c.
Proof.
  intros H1 H2 x n Hx.
  destruct (H1 _ _ Hx) as (n1 & G1 & T1 & I1).
  destruct (H2 _ _ G1) as (n2 & G2 & T2 & I2).
  exists n2. repeat split; try congruence. eapply incl_tran; eauto.
Qed.

Lemma subgraph_pop ns k : subgraph (dict_pop k ns) ns.
Proof.
  intros x n. rewrite dict_get_pop. destruct (String.eqb k x); [discriminate|].
  intros H. exists n. repeat split; auto. apply incl_refl.
Qed.

Lemma subgraph_shrink ns k obj cs :
  dict_get k ns = Some obj -> incl cs (children obj) ->
  subgraph (dict_set k (set_children obj cs) ns) ns.
Proof.
  intros Hk Hi x n. rewrite dict_get_set.
  destruct (String.eqb k x) eqn:E.
  - apply String.eqb_eq in E. subst x. intros [= <-].
    exists obj. repeat split; auto.
  - intros H. exists n. repeat split; auto. apply incl_refl.
Qed.

Lemma fold_delete_None fuel cs : fold_delete fuel cs None = None.
Proof. induction cs; simpl; auto. Qed.

Lemma delete_subtree_unfold fuel ns k :
  ui_explorer._delete_subtree (S fuel) ns k
  = match dict_get k ns with
    | None => Some ns
    | Some node =>
        match (match type node with
               | folder => fold_delete fuel (children node) (Some ns)
               | _ => Some ns
               end) with
        | Some ns1 => Some (dict_pop k ns1)
        | None => None
        end
    end.
Proof. reflexivity. Qed.

Lemma deletes_refl ns : deletes ns ns.
Proof. split; [now left|]. intros x n c H1 H2. congruence. Qed.

Lemma deletes_trans a b c : deletes a b -> deletes b c -> deletes a c.
Proof.
  intros [A1 A2] [B1 B2]. split.
  - intros x. destruct (B1 x) as [E|E]; [rewrite E; apply A1|now right].
  - intros x n ch Hx Hgone Hf Hin.
    destruct (A1 x) as [E|E].
    + rewrite Hx in E. exact (B2 x n ch E Hgone Hf Hin).
    + pose proof (A2 x n ch Hx E Hf Hin) as G.
      destruct (B1 ch) as [E2|E2]; congruence.
Qed.

Lemma delete_subtree_spec fuel : forall ns k ns',
  ui_explorer._delete_subtree fuel ns k = Some ns' ->
  deletes ns ns' /\ dict_get k ns' = None.
Proof.
  induction fuel as [|fuel IH]; intros ns k ns'; [discriminate|].
  rewrite delete_subtree_unfold.
  destruct (dict_get k ns) as [node|] eqn:K.
  2:{ intros [= <-]. split; [apply deletes_refl|exact K]. }
  assert (Fold : forall cs start mid,
            fold_delete fuel cs (Some start) = Some mid ->
            deletes start mid
            /\ forall c, In c cs -> dict_get c mid = None).
  { induction cs as [|c r IHr]; intros start mid; simpl.
    - intros [= <-]. split; [apply deletes_refl|tauto].
    - destruct (ui_explorer._delete_subtree fuel start c) as [s1|] eqn:D.
      + intros Hr. destruct (IH _ _ _ D) as [D1 Gc].
        destruct (IHr _ _ Hr) as [D2 Gr].
        split; [eapply deletes_trans; eauto|].
        intros c' [<-|Hin]; auto.
        destruct D2 as [D2 _]. destruct (D2 c); congruence.
      + fold (fold_delete fuel r None). rewrite fold_delete_None.
        discriminate. }
  assert (Pop : forall mid,
            deletes ns mid ->
            (type node = folder -> forall c, In c (children node) ->
                                             dict_get c mid = None) ->
            deletes ns (dict_pop k mid) /\ dict_get k (dict_pop k mid) = None).
  { intros mid [M1 M2] Hch. split; [|apply dict_get_pop_eq]. split.
    - intros x. rewrite dict_get_pop.
      destruct (String.eqb k x); [now right|apply M1].
    - intros x n c Hx Hgone Hf Hin. rewrite dict_get_pop in *.
      destruct (String.eqb k c); auto.
      destruct (String.eqb k x) eqn:E.
      + apply String.eqb_eq in E. subst x.
        assert (n = node) by congruence. subst n. auto.
      + eauto. }
  destruct (type node) eqn:T.
  - destruct (fold_delete fuel (children node) (Some ns)) as [mid|] eqn:F;
      [|discriminate].
    intros [= <-]. destruct (Fold _ _ _ F) as [D G]. apply Pop; auto.
  - intros [= <-]. apply Pop; [apply deletes_refl|discriminate].
  - intros [= <-]. apply Pop; [apply deletes_refl|discriminate].
Qed.

Lemma deletes_subgraph a b : deletes a b -> subgraph b a.
Proof.
  intros [H _] x n Hx. destruct (H x) as [E|E]; [|congruence].
  exists n. split; [congruence|]. split; [reflexivity|apply incl_refl].
Qed.

Lemma reach_snoc ns x k n c :
  reach ns x k -> dict_get k ns = Some n -> type n = folder ->
  In c (children n) -> reach ns x c.
Proof.
  induction 1 as [k|k0 n0 c0 d H0 T0 I0 R IH]; intros Hk Ht Hc.
  - eapply reach_down; eauto. apply reach_here.
  - eapply reach_down; eauto.
Qed.

Lemma descendant_snoc ns p k n c :
  descendant ns p k -> dict_get k ns = Some n -> type n = folder ->
  In c (children n) -> descendant ns p c.
Proof.
  intros (n' & c' & Hp & Tp & Ip & R) Hk Ht Hc.
  exists n', c'. repeat split; auto. eapply reach_snoc; eauto.
Qed.

Lemma delete_subtree_total ns0 :
  acyclic ns0 ->
  forall fuel ns k path,
    subgraph ns ns0 -> NoDup path -> incl path (dict_keys ns0) ->
    (forall p, In p path -> descendant ns0 p k) ->
    length ns0 < fuel + length path ->
    exists ns', ui_explorer._delete_subtree fuel ns k = Some ns'.
Proof.
  intros Hac. induction fuel as [|fuel IH]; intros ns k path Hsub Hnd Hin Hdesc Hlen.
  - exfalso. pose proof (NoDup_incl_length Hnd Hin) as L.
    unfold dict_keys in L. rewrite length_map in L. simpl in Hlen. lia.
  - rewrite delete_subtree_unfold.
    destruct (dict_get k ns) as [node|] eqn:K; [|eauto].
    destruct (type node) eqn:T; eauto.
    destruct (Hsub _ _ K) as (n0 & K0 & T0 & I0).
    rewrite T in T0.
    assert (Hfresh : ~ In k path).
    { intros Hk. exact (Hac k (Hdesc k Hk)). }
    assert (Fold : forall cs start,
              incl cs (children node) -> subgraph start ns0 ->
              exists mid, fold_delete fuel cs (Some start) = Some mid).
    { induction cs as [|c r IHr]; intros start Hcs Hst; simpl; eauto.
      destruct (IH start c (k :: path)) as (s1 & D); auto.
      - now constructor.
      - intros p [<-|Hp]; auto. eapply dict_get_Some_key; eauto.
      - intros p [<-|Hp].
        + exists n0, c. repeat split; auto; [|apply reach_here].
          apply I0, Hcs. now left.
        + eapply descendant_snoc; eauto. apply I0, Hcs. now left.
      - simpl. lia.
      - rewrite D. apply IHr.
        + intros y Hy. apply Hcs. now right.
        + destruct (delete_subtree_spec _ _ _ _ D) as [Dl _].
          eapply subgraph_trans; [eapply deletes_subgraph|]; eauto. }
    destruct (Fold (children node) ns (incl_refl _) Hsub) as (mid & F).
    fold (fold_delete fuel (children node) (Some ns)). rewrite F. eauto.
Qed.

Lemma find_parent_Some ns c k n :
  NoDup (dict_keys ns) ->
  ui_explorer._find_parent_folder ns c = Some (k, n) ->
  dict_get k ns = Some n /\ type n = folder /\ In c (children n).
Proof.
  induction ns as [|[k' n'] r IH]; simpl; [discriminate|].
  intros Hnd. inversion Hnd as [|? ? Hk Hr]; subst.
  destruct (NodeType_eqb (type n') folder && existsb (String.eqb c) (children n'))
    eqn:E.
  - intros [= -> ->]. rewrite String.eqb_refl.
    apply andb_true_iff in E. destruct E as [E1 E2].
    apply NodeType_eqb_eq in E1. apply existsb_exists in E2.
    destruct E2 as (y & Hy & Ey). apply String.eqb_eq in Ey. subst y. auto.
  - intros H. destruct (IH Hr H) as (G & T & I).
    destruct (String.eqb k k') eqn:E2; auto.
    apply String.eqb_eq in E2. subst k'.
    exfalso. apply Hk. eapply dict_get_Some_key; eauto.
Qed.

Lemma find_parent_None ns c :
  ui_explorer._find_parent_folder ns c = None -> unlisted ns c.
Proof.
  induction ns as [|[k' n'] r IH]; simpl; intros H k f; [discriminate|].
  destruct (NodeType_eqb (type n') folder && existsb (String.eqb c) (children n'))
    eqn:E; [discriminate|].
  simpl. destruct (String.eqb k k').
  - intros [= <-] Ht Hin. rewrite Ht in E. simpl in E.
    assert (X : existsb (String.eqb c) (children n') = true).
    { apply existsb_exists. exists c. split; auto. apply String.eqb_refl. }
    congruence.
  - now apply IH.
Qed.

Lemma reach_last ns k d :
  reach ns k d ->
  d = k \/ exists x n, reach ns k x /\ dict_get x ns = Some n
                       /\ type n = folder /\ In d (children n).
Proof.
  induction 1 as [k|k n c d Hk Ht Hc R IH]; [now left|].
  right. destruct IH as [->|(x & m & Rx & Hx & Tx & Ix)].
  - exists k, n. repeat split; auto. apply reach_here.
  - exists x, m. repeat split; auto. eapply reach_down; eauto.
Qed.

Lemma selected_get v rid lid key node :
  ui_explorer._get_selected_node_anywhere v rid lid = Some (key, node) ->
  dict_get key (nodes (ui_explorer.db v)) = Some node.
Proof.
  unfold ui_explorer._get_selected_node_anywhere.
  assert (P : forall x,
            match x with
            | Some k =>
                if String.eqb k "" then None
                else match dict_get k (nodes (ui_explorer.db v)) with
                     | Some n => Some (k, n)
                     | None => None
                     end
            | None => None
            end = Some (key, node) ->
            dict_get key (nodes (ui_explorer.db v)) = Some node).
  { intros [k|]; [|discriminate].
    destruct (String.eqb k ""); [discriminate|].
    destruct (dict_get k _) eqn:G; [|discriminate].
    now intros [= <- <-]. }
  destruct (match rid with Some k => _ | None => None end) as [[k n]|] eqn:R.
  - intros [= <- <-]. now apply P in R.
  - apply P.
Qed.

Lemma unlisted_subgraph a b c : subgraph a b -> unlisted b c -> unlisted a c.
Proof.
  intros S U k f Hk Hf Hin.
  destruct (S _ _ Hk) as (n0 & G0 & T0 & I0).
  apply (U k n0 G0); [congruence|auto].
Qed.

Lemma reach_leaf ns k n d :
  dict_get k ns = Some n -> type n <> folder -> reach ns k d -> d = k.
Proof.
  intros Hk Ht R. destruct R as [k|k n' c d Hk' Ht' _ _]; auto.
  congruence.
Qed.

Lemma filter_neq_In key c l :
  In c (filter (fun cid => negb (String.eqb cid key)) l) <-> In c l /\ c <> key.
Proof.
  rewrite filter_In, negb_true_iff, String.eqb_neq. reflexivity.
Qed.

Section Unparented.
Variables (ns : dict Node) (key : string).
Hypothesis Hnd : NoDup (dict_keys ns).
Hypothesis Hup : unique_parent ns.

Lemma unparented_subgraph : subgraph (unparented ns key) ns.
Proof.
  unfold unparented.
  destruct (ui_explorer._find_parent_folder ns key) as [[pkey p]|] eqn:P;
    [|apply subgraph_refl].
  destruct (find_parent_Some _ _ _ _ Hnd P) as (G & _).
  apply subgraph_shrink; auto.
  intros c Hc. now apply filter_neq_In in Hc.
Qed.

Lemma unparented_unlisted : unlisted (unparented ns key) key.
Proof.
  unfold unparented.
  destruct (ui_explorer._find_parent_folder ns key) as [[pkey p]|] eqn:P;
    [|now apply find_parent_None].
  destruct (find_parent_Some _ _ _ _ Hnd P) as (G & T & I).
  intros k f. rewrite dict_get_set.
  destruct (String.eqb pkey k) eqn:E.
  - intros [= <-] _ Hin. simpl in Hin. apply filter_neq_In in Hin. tauto.
  - intros Hk Hf Hin. apply String.eqb_neq in E. apply E.
    exact (Hup _ _ _ _ _ G T I Hk Hf Hin).
Qed.

Lemma unparented_edges x n :
  dict_get x ns = Some n ->
  exists n1, dict_get x (unparented ns key) = Some n1 /\ type n1 = type n
             /\ forall c, In c (children n) -> c <> key -> In c (children n1).
Proof.
  intros Hx. unfold unparented.
  destruct (ui_explorer._find_parent_folder ns key) as [[pkey p]|] eqn:P;
    [|eauto].
  destruct (find_parent_Some _ _ _ _ Hnd P) as (G & _).
  rewrite dict_get_set. destruct (String.eqb pkey x) eqn:E.
  - apply String.eqb_eq in E. subst x. assert (n = p) by congruence. subst n.
    eexists. split; [reflexivity|]. split; [reflexivity|].
    intros c Hc Hne. simpl. now apply filter_neq_In.
  - eauto.
Qed.
End Unparented.

Lemma remove_for_target_subgraph v fid :
  subgraph (nodes (ui_explorer.db (ui_explorer._remove_shortcut_for_target v fid)))
           (nodes (ui_explorer.db v)).
Proof.
  unfold ui_explorer._remove_shortcut_for_target.
  destruct (dict_get (favorites_root_id _) _) as [fav|] eqn:F;
    [|apply subgraph_refl].
  destruct (negb _); [apply subgraph_refl|].
  simpl. rewrite remove_first_find.
  destruct (find _ _); [|apply subgraph_refl].
  eapply subgraph_trans; [apply subgraph_pop|].
  apply subgraph_shrink; auto. apply list_remove_incl.
Qed.

Lemma delete_finish ns ns2 key node fuel :
  NoDup (dict_keys ns) -> unique_parent ns -> acyclic ns ->
  dict_get key ns = Some node ->
  subgraph ns2 (unparented ns key) ->
  (type node = folder -> ns2 = unparented ns key) ->
  length ns < fuel ->
  exists ns',
    ui_explorer._delete_subtree fuel ns2 key = Some ns'
    /\ deleted_clean ns ns' key.
Proof.
  intros Hnd Hup Hac Hkey Hsub Hfold Hfuel.
  assert (Hsub0 : subgraph ns2 ns).
  { eapply subgraph_trans; [exact Hsub|now apply unparented_subgraph]. }
  destruct (delete_subtree_total ns Hac fuel ns2 key []) as (ns' & D); auto.
  { constructor. }
  { intros x []. }
  { intros p []. }
  { simpl. lia. }
  exists ns'. split; [exact D|].
  destruct (delete_subtree_spec _ _ _ _ D) as [Del Gone].
  assert (Hsub' : subgraph ns' ns2) by now apply deletes_subgraph.
  assert (U : unlisted ns' key).
  { apply (unlisted_subgraph ns' (unparented ns key)).
    - apply (subgraph_trans _ ns2); auto.
    - now apply unparented_unlisted. }
  assert (C1 : forall d, reach ns key d -> dict_get d ns' = None).
  { destruct (type node) eqn:T.
    - assert (G : forall x d, reach ns x d -> dict_get x ns' = None ->
                              dict_get d ns' = None).
      { induction 1 as [k|k n c d Hk Ht Hc R IH]; auto.
        intros Hg. apply IH.
        destruct (string_dec c key) as [->|Hne]; auto.
        destruct (unparented_edges ns key Hnd k n Hk) as (n1 & G1 & T1 & E1).
        rewrite <- (Hfold eq_refl) in G1.
        destruct Del as [_ Del].
        apply (Del k n1 c); auto. congruence. }
      intros d R. exact (G key d R Gone).
    - intros d R. rewrite (reach_leaf ns key node d); auto. congruence.
    - intros d R. rewrite (reach_leaf ns key node d); auto. congruence. }
  split; [exact C1|].
  intros d R. destruct (string_dec d key) as [->|Hne]; auto.
  destruct (reach_last _ _ _ R) as [->|(x & n & Rx & Hx & Tx & Ix)];
    [congruence|].
  intros k f Hk Hf Hin.
  destruct (subgraph_trans _ _ _ Hsub' Hsub0 _ _ Hk) as (n0 & G0 & T0 & I0).
  assert (k = x).
  { apply (Hup k n0 x n d); auto. congruence. }
  subst k. rewrite (C1 x Rx) in Hk. discriminate.
Qed.

(** C5 (amended). In a store satisfying the tree invariant, deleting a
    non-root node that is stored under its own id -- a folder, a file, or
    a shortcut that only the Favorites folder lists -- goes through (the
    recursion ends within a depth of the number of nodes) and leaves the
    node and every descendant absent from the node mapping and listed by
    no remaining folder. *)
Theorem delete_leaves_no_dangling_children (v : ui_explorer.ExplorerView)
    (rid lid : option string) (key : string) (node : Node) (fuel : nat) :
  let ns := nodes (ui_explorer.db v) in
  NoDup (dict_keys ns) ->
  ui_explorer._get_selected_node_anywhere v rid lid = Some (key, node) ->
  id node = key ->
  ui_explorer.is_root (ui_explorer.db v) key = false ->
  unique_parent ns -> acyclic ns ->
  (type node = shortcut ->
   forall k f, dict_get k ns = Some f -> type f = folder ->
               In key (children f) ->
               k = favorites_root_id (ui_explorer.db v)) ->
  length ns < fuel ->
  exists v',
    ui_explorer.delete_selected fuel v rid lid true = Some v'
    /\ deleted_clean ns (nodes (ui_explorer.db v')) key.
Proof.
  intros ns Hnd Hsel Hid Hroot Hup Hac Hsc Hfuel.
  pose proof (selected_get _ _ _ _ _ Hsel) as Hget. fold ns in Hget.
  unfold ui_explorer.delete_selected. rewrite Hsel, Hid, Hroot.
  cbv beta iota. change (negb true) with false. cbv iota.
  assert (E1 : forall w,
            nodes (ui_explorer.db
                     (match ui_explorer._find_parent_folder ns key with
                      | Some (pkey, p) =>
                          ui_explorer.with_nodes v
                            (dict_set pkey
                               (set_children p
                                  (filter (fun cid => negb (String.eqb cid key))
                                          (children p))) ns)
                      | None => w
                      end))
            = match ui_explorer._find_parent_folder ns key with
              | Some _ => unparented ns key
              | None => nodes (ui_explorer.db w)
              end).
  { intros w. unfold unparented.
    destruct (ui_explorer._find_parent_folder ns key) as [[pkey p]|];
      reflexivity. }
  assert (E2 : nodes (ui_explorer.db
                        (match ui_explorer._find_parent_folder ns key with
                         | Some (pkey, p) =>
                             ui_explorer.with_nodes v
                               (dict_set pkey
                                  (set_children p
                                     (filter (fun cid => negb (String.eqb cid key))
                                             (children p))) ns)
                         | None => v
                         end))
                = unparented ns key).
  { rewrite E1. unfold unparented.
    destruct (ui_explorer._find_parent_folder ns key); reflexivity. }
  clear E1. fold ns.
  set (v1 := match ui_explorer._find_parent_folder ns key with
             | Some (pkey, p) => _
             | None => v
             end) in *.
  destruct (type node) eqn:T.
  - (* a folder *)
    destruct (delete_finish ns (nodes (ui_explorer.db v1)) key node fuel
                Hnd Hup Hac Hget) as (ns' & D & C);
      [rewrite E2; apply subgraph_refl | intros _; exact E2 | exact Hfuel |].
    rewrite D. eexists. split; [reflexivity|exact C].
  - (* a file *)
    destruct (delete_finish ns
                (nodes (ui_explorer.db
                          (ui_explorer._remove_shortcut_for_target v1 key)))
                key node fuel Hnd Hup Hac Hget) as (ns' & D & C);
      [rewrite <- E2; apply remove_for_target_subgraph
      | rewrite T; discriminate | exact Hfuel |].
    rewrite D. eexists. split; [reflexivity|exact C].
  - (* a shortcut *)
    eexists. split; [reflexivity|].
    assert (Leaf : forall d, reach ns key d -> d = key).
    { intros d R. apply (reach_leaf ns key node d); auto. congruence. }
    unfold ui_explorer._remove_shortcut. simpl. fold ns.
    split; intros d R; rewrite (Leaf d R).
    + apply dict_get_pop_eq.
    + intros k f. rewrite dict_get_pop.
      destruct (String.eqb key k); [discriminate|].
      destruct (dict_get (favorites_root_id (ui_explorer.db v)) ns)
        as [fav|] eqn:F.
      * destruct (NodeType_eqb (type fav) folder) eqn:Tf.
        -- rewrite dict_get_set.
           destruct (String.eqb (favorites_root_id (ui_explorer.db v)) k) eqn:E.
           ++ intros [= <-] _ Hin. simpl in Hin.
              apply filter_neq_In in Hin. tauto.
           ++ intros Hk Hf Hin. apply String.eqb_neq in E. apply E.
              symmetry. exact (Hsc eq_refl k f Hk Hf Hin).
        -- intros Hk Hf Hin.
           pose proof (Hsc eq_refl k f Hk Hf Hin) as ->.
           assert (f = fav) by congruence. subst f.
           rewrite Hf in Tf. discriminate.
      * intros Hk Hf Hin.
        pose proof (Hsc eq_refl k f Hk Hf Hin) as ->. congruence.
Qed.

Lemma acyclic_by_height ns (h : string -> nat) :
  (forall k n c, dict_get k ns = Some n -> type n = folder ->
                 In c (children n) -> h c < h k) ->
  acyclic ns.
Proof.
  intros Hh.
  assert (R : forall c d, reach ns c d -> h d <= h c).
  { induction 1 as [k|k n c d Hk Ht Hc _ IH]; auto.
    pose proof (Hh _ _ _ Hk Ht Hc). lia. }
  intros k (n & c & Hk & Ht & Hc & Rc).
  pose proof (Hh _ _ _ Hk Ht Hc). pose proof (R _ _ Rc). lia.
Qed.

Ltac entries H :=
  apply dict_get_In in H; simpl in H;
  repeat match type of H with
         | _ \/ _ => destruct H as [H|H]
         end;
  try contradiction; injection H as <- <-.

Ltac members H :=
  simpl in H;
  repeat match type of H with
         | _ \/ _ => destruct H as [H|H]
         end;
  try contradiction; try subst.

Lemma sample_db_tree :
  NoDup (dict_keys (nodes sample_db))
  /\ unique_parent (nodes sample_db) /\ acyclic (nodes sample_db).
Proof.
  split; [|split].
  - simpl. repeat constructor; simpl; intuition discriminate.
  - intros k1 n1 k2 n2 c H1 T1 I1 H2 T2 I2.
    entries H1; try discriminate; members I1;
      entries H2; try discriminate; members I2;
      try reflexivity; discriminate.
  - apply (acyclic_by_height _ example_height).
    intros k n c H T I. entries H; try discriminate; members I;
      vm_compute; lia.
Qed.

Lemma stray_shortcut_db_tree :
  NoDup (dict_keys (nodes stray_shortcut_db))
  /\ unique_parent (nodes stray_shortcut_db)
  /\ acyclic (nodes stray_shortcut_db).
Proof.
  split; [|split].
  - simpl. repeat constructor; simpl; intuition discriminate.
  - intros k1 n1 k2 n2 c H1 T1 I1 H2 T2 I2.
    entries H1; try discriminate; members I1;
      entries H2; try discriminate; members I2;
      try reflexivity; discriminate.
  - apply (acyclic_by_height _ example_height).
    intros k n c H T I. entries H; try discriminate; members I;
      vm_compute; lia.
Qed.

Lemma delete_leaves_no_dangling_children_witness :
  exists v',
    ui_explorer.delete_selected 6 sample_view (Some "d") None true = Some v'
    /\ deleted_clean (nodes sample_db) (nodes (ui_explorer.db v')) "d".
Proof.
  destruct sample_db_tree as (Hnd & Hup & Hac).
  apply (delete_leaves_no_dangling_children sample_view (Some "d") None "d"
           (folder_node "d" "Deeds" ["f"]) 6);
    [exact Hnd | reflexivity | reflexivity | reflexivity | exact Hup
    | exact Hac | discriminate | simpl; lia].
Defined.

(** C5, as stated, fails for a shortcut that a folder other than
    Favorites lists: the shortcut branch of [delete_selected] cleans the
    Favorites children only, so the folder keeps the dangling reference. *)
Lemma delete_leaves_no_dangling_children_counterexample :
  unique_parent (nodes stray_shortcut_db)
  /\ acyclic (nodes stray_shortcut_db)
  /\ ui_explorer.is_root stray_shortcut_db "s" = false
  /\ exists v',
       ui_explorer.delete_selected 6 stray_view (Some "s") None true = Some v'
       /\ dict_get "s" (nodes (ui_explorer.db v')) = None
       /\ dict_get "d" (nodes (ui_explorer.db v'))
          = Some (folder_node "d" "Deeds" ["f"; "s"])
       /\ ~ deleted_clean (nodes stray_shortcut_db)
                          (nodes (ui_explorer.db v')) "s".
Proof.
  destruct stray_shortcut_db_tree as (_ & Hup & Hac).
  split; [exact Hup|]. split; [exact Hac|]. split; [reflexivity|].
  eexists. split; [reflexivity|]. split; [reflexivity|].
  split; [reflexivity|].
  intros [_ U].
  apply (U "s" (reach_here _ "s") "d" (folder_node "d" "Deeds" ["f"; "s"]));
    [reflexivity|reflexivity|simpl; auto].
Qed.

(** ** Bundle import and the identifiers of the store *)

Lemma grows_insert_new ns0 ns k x :
  grows ns0 ns -> dict_get k ns0 = None -> grows ns0 (dict_set k x ns).
Proof.
  intros G Hk k' n' Hg. destruct (G _ _ Hg) as (m & Hm & S).
  exists m. split; auto. rewrite dict_get_set_ne; auto. congruence.
Qed.

Lemma grows_more_children ns0 ns k obj cs :
  grows ns0 ns -> dict_get k ns = Some obj -> incl (children obj) cs ->
  grows ns0 (dict_set k (set_children obj cs) ns).
Proof.
  intros G Hk Hi. eapply grows_trans; [exact G|].
  now apply grows_set_children.
Qed.

Lemma merge_children_incl mine incoming :
  incl mine (ui_explorer.merge_children mine incoming).
Proof.
  unfold ui_explorer.merge_children. revert mine.
  induction incoming as [|c r IH]; simpl; intros mine; [apply incl_refl|].
  destruct (existsb (String.eqb c) mine); auto.
  eapply incl_tran; [|apply IH]. apply incl_appl, incl_refl.
Qed.

(** The remap table of [import_bundle_into_folder]: every bundle id gets
    an identifier drawn for it. *)
Lemma remap_all_spec keys : forall m g,
  let r := bundle_io.remap_all keys m g in
  draw (snd r) = draw g
  /\ used g <= used (snd r)
  /\ (forall old, In old keys ->
        exists i, used g <= i /\ dict_get old (fst r) = Some (draw g i))
  /\ (forall old, ~ In old keys -> dict_get old (fst r) = dict_get old m).
Proof.
  induction keys as [|k r IH]; intros m g; simpl.
  - repeat split; auto. intros old [].
  - unfold gbind, new_id.
    specialize (IH (dict_set k (draw g (used g)) m)
                   {| draw := draw g; used := S (used g) |}).
    simpl in IH. destruct IH as (D & U & I & O).
    split; [exact D|]. split; [lia|]. split.
    + intros old Hin.
      destruct (in_dec string_dec old r) as [Hr|Hr].
      * destruct (I old Hr) as (i & Hi & Gi). exists i. split; [lia|exact Gi].
      * destruct Hin as [->|Hin]; [|contradiction].
        exists (used g). split; [lia|].
        rewrite (O old Hr). apply dict_get_set_eq.
    + intros old Hn. rewrite O by tauto.
      apply dict_get_set_ne. intros ->. apply Hn. now left.
Qed.

(** The remap table of [ExplorerView.import_bundle]: an identifier is
    drawn for the ids that collide with the store, the others are kept. *)
Lemma remap_ids_spec mine keys : forall m g,
  let r := ui_explorer.remap_ids mine keys m g in
  draw (snd r) = draw g
  /\ used g <= used (snd r)
  /\ (forall old, In old keys ->
        exists new, dict_get old (fst r) = Some new
          /\ if dict_mem old mine
             then exists i, used g <= i /\ new = draw g i
             else new = old)
  /\ (forall old, ~ In old keys -> dict_get old (fst r) = dict_get old m).
Proof.
  induction keys as [|k r IH]; intros m g; simpl.
  - repeat split; auto. intros old [].
  - unfold gbind.
    destruct (dict_mem k mine) eqn:M.
    + unfold new_id.
      specialize (IH (dict_set k (draw g (used g)) m)
                     {| draw := draw g; used := S (used g) |}).
      simpl in IH. destruct IH as (D & U & I & O).
      split; [exact D|]. split; [lia|]. split.
      * intros old Hin.
        destruct (in_dec string_dec old r) as [Hr|Hr].
        -- destruct (I old Hr) as (new & Gn & C). exists new. split; auto.
           destruct (dict_mem old mine); auto.
           destruct C as (i & Hi & ->). exists i. split; [lia|auto].
        -- destruct Hin as [->|Hin]; [|contradiction].
           exists (draw g (used g)). rewrite (O old Hr), dict_get_set_eq, M.
           split; auto. exists (used g). split; [lia|auto].
      * intros old Hn. rewrite O by tauto.
        apply dict_get_set_ne. intros ->. apply Hn. now left.
    + unfold gret.
      specialize (IH (dict_set k k m) g).
      simpl in IH. destruct IH as (D & U & I & O).
      split; [exact D|]. split; [exact U|]. split.
      * intros old Hin.
        destruct (in_dec string_dec old r) as [Hr|Hr]; [now apply I|].
        destruct Hin as [->|Hin]; [|contradiction].
        exists old. rewrite (O old Hr), dict_get_set_eq, M. auto.
      * intros old Hn. rewrite O by tauto.
        apply dict_get_set_ne. intros ->. apply Hn. now left.
Qed.

Lemma insert_imported_grows ns0 id_map items :
  new_to ns0 id_map ->
  forall ns, grows ns0 ns ->
             grows ns0 (snd (ui_explorer.insert_imported id_map items ns)).
Proof.
  intros Hnew. induction items as [|[k n] r IH]; simpl; intros ns G; auto.
  unfold ui_explorer.subscript.
  destruct (dict_get k id_map) as [nid|] eqn:K; simpl; auto.
  apply IH. apply grows_insert_new; eauto.
Qed.

Lemma relink_grows ns0 id_map items :
  new_to ns0 id_map ->
  forall ns, grows ns0 ns ->
             grows ns0 (snd (ui_explorer.relink_children id_map items ns)).
Proof.
  intros Hnew. induction items as [|[k n] r IH]; simpl; intros ns G; auto.
  destruct (type n); auto.
  unfold ui_explorer.subscript.
  destruct (dict_get k id_map) as [nid|] eqn:K; simpl; auto.
  destruct (dict_get nid ns) as [obj|]; simpl; auto.
  apply IH. apply grows_insert_new; eauto.
Qed.

Lemma attach_grows ns0 v qc_in ns :
  grows ns0 ns -> grows ns0 (snd (ui_explorer.attach_quickcopy v qc_in ns)).
Proof.
  intros G. unfold ui_explorer.attach_quickcopy, ui_explorer.subscript.
  assert (Go : forall akey a,
            dict_get akey ns = Some a ->
            grows ns0
              (snd (match qc_in with
                    | Some q =>
                        if negb (String.eqb q "") && dict_mem q ns
                        then (Ok tt,
                              dict_set akey
                                (set_children a (children a ++ [q])) ns)
                        else (Ok tt, ns)
                    | None => (Ok tt, ns)
                    end))).
  { intros akey a Ha. destruct qc_in as [q|]; auto.
    destruct (_ && _); auto. simpl.
    apply grows_more_children; auto. apply incl_appl, incl_refl. }
  destruct (dict_get (ui_explorer.current_folder_id v) ns) as [a|] eqn:A.
  - destruct (NodeType_eqb (type a) folder); [now apply Go|].
    destruct (dict_get (quickcopy_root_id _) ns) as [q|] eqn:Q; simpl; auto.
  - destruct (dict_get (quickcopy_root_id _) ns) as [q|] eqn:Q; simpl; auto.
Qed.

Lemma merge_favorites_grows ns0 v fav_in ns :
  grows ns0 ns -> grows ns0 (snd (ui_explorer.merge_favorites v fav_in ns)).
Proof.
  intros G. unfold ui_explorer.merge_favorites, ui_explorer.subscript.
  destruct fav_in as [f|]; auto.
  destruct (negb _); auto.
  destruct (dict_get f ns); auto.
  destruct (dict_get (favorites_root_id _) ns) as [m|] eqn:M; simpl; auto.
  apply grows_more_children; auto. apply merge_children_incl.
Qed.

Lemma and_then_grows ns0 c k :
  grows ns0 (snd c) ->
  (forall ns, grows ns0 ns -> grows ns0 (snd (k ns))) ->
  grows ns0 (snd (ui_explorer.and_then c k)).
Proof. destruct c as [[[]| |] ns]; simpl; auto. Qed.

Lemma import_nodes_grows ns0 id_map items :
  new_to ns0 id_map ->
  forall ns, grows ns0 ns ->
             grows ns0 (snd (bundle_io.import_nodes id_map items ns)).
Proof.
  intros Hnew. induction items as [|[k d] r IH]; simpl; intros ns G; auto.
  destruct (bundle_io.import_node id_map k d) as [n| |] eqn:N; simpl; auto.
  apply IH. apply grows_insert_new; auto.
  apply import_node_id in N. unfold ui_explorer.subscript in N.
  destruct (dict_get k id_map) as [nid|] eqn:K; [|discriminate].
  injection N as <-. eauto.
Qed.

Lemma import_nodes_keeps id_map items : forall ns k,
  dict_mem k ns = true ->
  dict_mem k (snd (bundle_io.import_nodes id_map items ns)) = true.
Proof.
  induction items as [|[o d] r IH]; simpl; intros ns k H; auto.
  destruct (bundle_io.import_node id_map o d); simpl; auto.
  apply IH. unfold dict_mem in *. rewrite dict_get_set.
  destruct (String.eqb (id a) k); auto.
Qed.

Lemma import_nodes_present id_map items : forall ns ns',
  bundle_io.import_nodes id_map items ns = (Ok tt, ns') ->
  forall old, In old (dict_keys items) ->
    exists new, dict_get old id_map = Some new /\ dict_mem new ns' = true.
Proof.
  induction items as [|[o d] r IH]; simpl; intros ns ns' H old; [tauto|].
  destruct (bundle_io.import_node id_map o d) as [n| |] eqn:N;
    try discriminate.
  intros [<-|Hin]; [|eapply IH; eauto].
  apply import_node_id in N. unfold ui_explorer.subscript in N.
  destruct (dict_get o id_map) as [nid|] eqn:K; [|discriminate].
  injection N as ->. exists (id n). split; auto.
  pose proof (import_nodes_keeps id_map r (dict_set (id n) n ns) (id n)) as P.
  rewrite H in P. apply P. unfold dict_mem. now rewrite dict_get_set_eq.
Qed.

(** C2 (amended). Bundle import leaves every pre-existing node under its
    key with its id (and type, name, content and target; children may be
    appended), and hands out no identifier that is a key of the store.
    [import_bundle_into_folder] remaps every bundle id to a freshly drawn
    identifier; the whole-database import of the explorer draws a fresh
    identifier only for the ids that collide with the store and keeps the
    others. *)
Theorem import_keeps_existing_ids :
  (forall db bundle target g items,
     fresh_for g (nodes db) ->
     get_default "nodes" (JObj []) bundle = JObj items ->
     let id_map := fst (bundle_io.remap_all (dict_keys items) [] g) in
     let out := fst (bundle_io.import_bundle_into_folder db bundle target g) in
     grows (nodes db) (nodes (snd out))
     /\ new_to (nodes db) id_map
     /\ (forall old, In old (dict_keys items) ->
           exists i, used g <= i /\ dict_get old id_map = Some (draw g i))
     /\ (fst out = Ok (true, "Imported.") ->
         forall old, In old (dict_keys items) ->
           exists new, dict_get old id_map = Some new
                       /\ dict_mem new (nodes (snd out)) = true))
  /\ (forall v raw g incoming g1,
        db_from_dict raw g = (Ok incoming, g1) ->
        fresh_for g1 (nodes (ui_explorer.db v)) ->
        let mine := nodes (ui_explorer.db v) in
        let id_map :=
          fst (ui_explorer.remap_ids mine (dict_keys (nodes incoming)) [] g1) in
        let out := fst (ui_explorer.import_bundle v raw g) in
        grows mine (nodes (ui_explorer.db (snd out)))
        /\ new_to mine id_map
        /\ (forall old, In old (dict_keys (nodes incoming)) ->
              exists new, dict_get old id_map = Some new
                /\ if dict_mem old mine
                   then exists i, used g1 <= i /\ new = draw g1 i
                   else new = old)).
Proof.
  split.
  - intros db bundle target g items Hfr Hitems id_map out.
    pose proof (remap_all_spec (dict_keys items) [] g) as (D & U & I & O).
    fold id_map in I, O.
    assert (Hnew : new_to (nodes db) id_map).
    { intros old new Hg.
      destruct (in_dec string_dec old (dict_keys items)) as [Hin|Hn].
      - destruct (I old Hin) as (i & Hi & Gi).
        assert (new = draw g i) by congruence. subst new.
        now apply fresh_not_key.
      - rewrite (O old Hn) in Hg. discriminate. }
    split; [|split; [exact Hnew|split; [exact I|]]].
    + subst out. unfold bundle_io.import_bundle_into_folder.
      destruct (negb _); [apply grows_refl|].
      destruct (negb (truthy _) || negb (truthy _)); [apply grows_refl|].
      rewrite Hitems.
      destruct (get "bundle_root_id" bundle) as [| | |root| |];
        try apply grows_refl.
      destruct (negb (dict_mem root items)); [apply grows_refl|].
      unfold gbind.
      destruct (bundle_io.remap_all (dict_keys items) [] g) as [m g1] eqn:R.
      simpl in id_map. subst id_map.
      pose proof (import_nodes_grows (nodes db) m items Hnew (nodes db)
                    (grows_refl _)) as G.
      destruct (bundle_io.import_nodes m items (nodes db)) as [[[]| |] ns];
        simpl in G; auto.
      unfold ui_explorer.subscript.
      destruct (dict_get root m); simpl; auto.
      destruct (dict_get target ns) as [t|] eqn:T; simpl; auto.
      apply grows_more_children; auto. apply incl_appl, incl_refl.
    + subst out. unfold bundle_io.import_bundle_into_folder.
      destruct (negb _); [discriminate|].
      destruct (negb (truthy _) || negb (truthy _)); [discriminate|].
      rewrite Hitems.
      destruct (get "bundle_root_id" bundle) as [| | |root| |];
        try discriminate.
      destruct (negb (dict_mem root items)); [discriminate|].
      unfold gbind.
      destruct (bundle_io.remap_all (dict_keys items) [] g) as [m g1] eqn:R.
      simpl in id_map. subst id_map.
      destruct (bundle_io.import_nodes m items (nodes db)) as [[[]| |] ns] eqn:N;
        try discriminate.
      unfold ui_explorer.subscript.
      destruct (dict_get root m); simpl; try discriminate.
      destruct (dict_get target ns) as [t|] eqn:T; simpl; try discriminate.
      intros _ old Hin.
      destruct (import_nodes_present _ _ _ _ N old Hin) as (new & Gn & Mn).
      exists new. split; auto. unfold dict_mem in *. rewrite dict_get_set.
      destruct (String.eqb target new); auto.
  - intros v raw g incoming g1 Hfrom Hfr mine id_map out.
    pose proof (remap_ids_spec mine (dict_keys (nodes incoming)) [] g1)
      as (D & U & I & O).
    fold id_map in I, O.
    assert (Hnew : new_to mine id_map).
    { intros old new Hg.
      destruct (in_dec string_dec old (dict_keys (nodes incoming))) as [Hin|Hn].
      - destruct (I old Hin) as (new' & Gn & C).
        assert (new' = new) by congruence. subst new'.
        destruct (dict_mem old mine) eqn:M.
        + destruct C as (i & Hi & ->). now apply fresh_not_key.
        + subst new. now apply dict_mem_false.
      - rewrite (O old Hn) in Hg. discriminate. }
    split; [|split; [exact Hnew|exact I]].
    subst out. unfold ui_explorer.import_bundle, gbind. rewrite Hfrom.
    fold mine.
    destruct (ui_explorer.remap_ids mine (dict_keys (nodes incoming)) [] g1)
      as [m g2] eqn:R.
    simpl in id_map. subst id_map.
    match goal with
    | |- context [let '(r1, ns) := ?c in _] =>
        assert (K : grows mine (snd c)); [|destruct c as [r1 ns]; exact K]
    end.
    repeat apply and_then_grows;
      auto using insert_imported_grows, relink_grows, attach_grows,
                 merge_favorites_grows, grows_refl.
Qed.

Lemma import_keeps_existing_ids_witness :
  grows (nodes sample_db)
        (nodes (snd (fst (bundle_io.import_bundle_into_folder
                            sample_db folder_bundle "qc" uuids))))
  /\ forall old, In old ["d"; "e"] ->
       exists i, 0 <= i
         /\ dict_get old (fst (bundle_io.remap_all ["d"; "e"] [] uuids))
            = Some (draw uuids i).
Proof.
  destruct (proj1 import_keeps_existing_ids sample_db folder_bundle "qc" uuids
              [ raw_node "d" "folder" "Deeds" ["e"] [];
                raw_node "e" "folder" "Old" [] [] ])
    as (G & _ & I & _).
  - apply (uuids_fresh _ 0). reflexivity.
  - reflexivity.
  - split; [exact G|exact I].
Defined.

(** C2, as stated, fails on the explorer's import: the ids of
    [foreign_doc] do not occur in the store, so the remap table is the
    identity, no identifier is drawn, and the imported file sits under its
    bundle id "x". *)
Lemma import_keeps_existing_ids_counterexample :
  exists incoming v' g',
    db_from_dict foreign_doc uuids = (Ok incoming, uuids)
    /\ ui_explorer.import_bundle sample_view foreign_doc uuids
       = (Ok tt, v', g')
    /\ In "x" (dict_keys (nodes incoming))
    /\ dict_get "x" (fst (ui_explorer.remap_ids (nodes sample_db)
                            (dict_keys (nodes incoming)) [] uuids))
       = Some "x"
    /\ used g' = used uuids
    /\ dict_get "x" (nodes (ui_explorer.db v')) = Some (file_node "x" "Lease")
    /\ forall i, draw uuids i <> "x".
Proof.
  eexists _, _, _.
  split; [vm_compute; reflexivity|].
  split; [vm_compute; reflexivity|].
  split; [simpl; auto|].
  split; [reflexivity|]. split; [reflexivity|]. split; [reflexivity|].
  intros i. simpl. discriminate.
Qed.

(** ** Bundle export *)

Lemma export_entry_no_target n d :
  bundle_io.export_entry n = Ok (JObj d) -> dict_get "target_id" d = None.
Proof.
  unfold bundle_io.export_entry.
  destruct (match type n with folder => _ | _ => _ end); simpl;
    try discriminate.
  now intros [= <-].
Qed.

Lemma export_entry_file_raises n c :
  type n <> folder -> content n = Some c ->
  bundle_io.export_entry n = Raise AttributeError.
Proof.
  unfold bundle_io.export_entry. intros Ht Hc. rewrite Hc.
  destruct (type n); [congruence|reflexivity|reflexivity].
Qed.

Lemma fold_walk_None fuel ns cs : fold_walk fuel ns cs None = None.
Proof. induction cs; simpl; auto. Qed.

Lemma walk_unfold fuel ns k out :
  bundle_io.walk (S fuel) ns k out
  = match dict_get k ns with
    | None => Some out
    | Some n =>
        match type n with
        | folder => fold_walk fuel ns (children n) (Some (out ++ [k]))
        | _ => Some (out ++ [k])
        end
    end.
Proof. reflexivity. Qed.

Lemma reach_inv ns k d :
  reach ns k d ->
  d = k \/ exists n c, dict_get k ns = Some n /\ type n = folder
                       /\ In c (children n) /\ reach ns c d.
Proof. destruct 1; eauto 8. Qed.

(** [walk] appends the subtree of the node, the node first. *)
Lemma walk_spec ns fuel : forall k out out',
  bundle_io.walk fuel ns k out = Some out' ->
  exists l, out' = out ++ l
            /\ (forall d, In d l <-> in_subtree ns k d)
            /\ (dict_get k ns <> None -> exists t, l = k :: t).
Proof.
  induction fuel as [|fuel IH]; intros k out out'; [discriminate|].
  rewrite walk_unfold.
  destruct (dict_get k ns) as [n|] eqn:K.
  2:{ intros [= <-]. exists []. rewrite app_nil_r. split; auto.
      split; [|congruence].
      intros d. split; [intros []|]. intros [R P].
      destruct (reach_inv _ _ _ R) as [->|(n & c & Hn & _)]; congruence. }
  assert (Leaf : type n <> folder ->
                 forall d, In d [k] <-> in_subtree ns k d).
  { intros Ht d. split.
    - intros [<-|[]]. split; [apply reach_here|congruence].
    - intros [R _]. left. symmetry. eapply reach_leaf; eauto. }
  assert (Fold : forall cs start res,
            fold_walk fuel ns cs (Some start) = Some res ->
            exists l, res = start ++ l
                      /\ forall d, In d l <->
                                   exists c, In c cs /\ in_subtree ns c d).
  { induction cs as [|c r IHr]; intros start res; simpl.
    - intros [= <-]. exists []. rewrite app_nil_r. split; auto.
      intros d. split; [intros []|intros (c & [] & _)].
    - destruct (bundle_io.walk fuel ns c start) as [o|] eqn:W.
      + intros Hr. destruct (IH _ _ _ W) as (l1 & -> & S1 & _).
        destruct (IHr _ _ Hr) as (l2 & -> & S2).
        exists (l1 ++ l2). rewrite app_assoc. split; auto.
        intros d. rewrite in_app_iff, S1, S2. split.
        * intros [H|(c' & Hc & H)]; eauto.
        * intros (c' & [<-|Hc] & H); eauto.
      + fold (fold_walk fuel ns r None). rewrite fold_walk_None.
        discriminate. }
  destruct (type n) eqn:T.
  - intros F. destruct (Fold _ _ _ F) as (l & -> & S).
    exists (k :: l). rewrite <- app_assoc. split; auto.
    split; [|eauto].
    intros d. simpl. rewrite S. split.
    + intros [<-|(c & Hc & R & P)].
      * split; [apply reach_here|congruence].
      * split; auto. eapply reach_down; eauto.
    + intros [R P].
      destruct (reach_inv _ _ _ R) as [->|(n' & c & Hn & _ & Hc & Rc)]; auto.
      right. exists c. assert (n' = n) by congruence. subst n'.
      split; auto. split; auto.
  - intros [= <-]. exists [k]. split; auto. split; [|eauto].
    apply Leaf. discriminate.
  - intros [= <-]. exists [k]. split; auto. split; [|eauto].
    apply Leaf. discriminate.
Qed.

Lemma walk_total ns :
  acyclic ns ->
  forall fuel k path out,
    NoDup path -> incl path (dict_keys ns) ->
    (forall p, In p path -> descendant ns p k) ->
    length ns < fuel + length path ->
    exists out', bundle_io.walk fuel ns k out = Some out'.
Proof.
  intros Hac. induction fuel as [|fuel IH]; intros k path out Hnd Hin Hd Hlen.
  - exfalso. pose proof (NoDup_incl_length Hnd Hin) as L.
    unfold dict_keys in L. rewrite length_map in L. simpl in Hlen. lia.
  - rewrite walk_unfold.
    destruct (dict_get k ns) as [n|] eqn:K; [|eauto].
    destruct (type n) eqn:T; eauto.
    assert (Hfresh : ~ In k path) by (intros Hk; exact (Hac k (Hd k Hk))).
    assert (Fold : forall cs start,
              incl cs (children n) ->
              exists res, fold_walk fuel ns cs (Some start) = Some res).
    { induction cs as [|c r IHr]; intros start Hcs; simpl; eauto.
      destruct (IH c (k :: path) start) as (o & W).
      - now constructor.
      - intros p [<-|Hp]; auto. eapply dict_get_Some_key; eauto.
      - intros p [<-|Hp].
        + exists n, c. repeat split; auto; [|apply reach_here].
          apply Hcs. now left.
        + eapply descendant_snoc; eauto. apply Hcs. now left.
      - simpl. lia.
      - rewrite W. apply IHr. intros y Hy. apply Hcs. now right. }
    apply Fold, incl_refl.
Qed.

Lemma export_nodes_keys ns ids : forall out res,
  bundle_io.export_nodes ns ids out = Ok res ->
  forall k, In k (dict_keys res) <-> In k (dict_keys out) \/ In k ids.
Proof.
  induction ids as [|i r IH]; simpl; intros out res.
  - intros [= <-] k. tauto.
  - destruct (ui_explorer.subscript ns i); simpl; try discriminate.
    destruct (bundle_io.export_entry a); simpl; try discriminate.
    intros H k. rewrite (IH _ _ H k), dict_keys_set. intuition.
Qed.

Lemma export_nodes_total ns ids : forall out,
  (forall d, In d ids ->
     exists n, dict_get d ns = Some n
               /\ (type n = folder \/ content n = None)) ->
  exists res, bundle_io.export_nodes ns ids out = Ok res.
Proof.
  induction ids as [|i r IH]; simpl; intros out H; eauto.
  destruct (H i (or_introl eq_refl)) as (n & Hn & C).
  unfold ui_explorer.subscript. rewrite Hn. simpl.
  assert (E : exists e, bundle_io.export_entry n = Ok e).
  { unfold bundle_io.export_entry.
    destruct C as [C|C]; rewrite C; simpl; eauto.
    destruct (type n); simpl; eauto. }
  destruct E as (e & ->). simpl. apply IH. intros d Hd. apply H. now right.
Qed.

(** What does hold of the export: on a store without cycles the walk ends
    and collects exactly the subtree of the root, the root first; and when
    no collected file or shortcut has a content, the bundle is returned
    with exactly these nodes. *)
Lemma export_collects_subtree db root fuel :
  acyclic (nodes db) -> length (nodes db) < fuel ->
  exists ids,
    bundle_io._collect_subtree fuel db root = Some ids
    /\ (forall d, In d ids <-> in_subtree (nodes db) root d)
    /\ (dict_get root (nodes db) <> None -> exists t, ids = root :: t)
    /\ ((forall d n, In d ids -> dict_get d (nodes db) = Some n ->
                     type n = folder \/ content n = None) ->
        exists out,
          bundle_io.export_bundle fuel db root
          = Some (Ok (JObj [("bundle_root_id", JStr root);
                            ("nodes", JObj out)]))
          /\ forall k, In k (dict_keys out) <-> in_subtree (nodes db) root k).
Proof.
  intros Hac Hfuel. unfold bundle_io.export_bundle, bundle_io._collect_subtree.
  destruct (walk_total (nodes db) Hac fuel root [] []) as (ids & W).
  { constructor. }
  { intros x []. }
  { intros p []. }
  { simpl. lia. }
  destruct (walk_spec _ _ _ _ _ W) as (l & E & S & Hd). simpl in E. subst l.
  exists ids. rewrite W. split; [reflexivity|]. split; [exact S|].
  split; [exact Hd|].
  intros Hc.
  destruct (export_nodes_total (nodes db) ids []) as (out & X).
  { intros d Hin. destruct (proj1 (S d) Hin) as [_ P].
    destruct (dict_get d (nodes db)) as [n|] eqn:G; [|congruence].
    exists n. split; eauto. }
  exists out. rewrite X. split; [reflexivity|].
  intros k. rewrite (export_nodes_keys _ _ _ _ X k), <- S. simpl. tauto.
Qed.

(** C4 does not hold of the code.  Exporting the Favorites folder of
    [sample_db] returns a bundle with the folder and its shortcut, in walk
    order, but the entry of the shortcut has no [target_id] (no exported
    entry ever has one); and exporting a folder that holds a file with
    content raises AttributeError instead of returning a bundle. *)
Theorem export_bundle_drops_target_id :
  bundle_io._collect_subtree 6 sample_db "fav" = Some ["fav"; "s"]
  /\ (exists entry,
        bundle_io.export_bundle 6 sample_db "fav"
        = Some (Ok (JObj [ ("bundle_root_id", JStr "fav");
                           ("nodes",
                             JObj [ ("fav",
                                      JObj [ ("id", JStr "fav");
                                             ("type", JStr "folder");
                                             ("name", JStr "Favorites");
                                             ("children", JArr [JStr "s"]);
                                             ("content", JNull) ]);
                                    ("s", JObj entry) ]) ]))
        /\ dict_get "id" entry = Some (JStr "s")
        /\ dict_get "type" entry = Some (JStr "shortcut")
        /\ dict_get "target_id" entry = None)
  /\ dict_get "s" (nodes sample_db) = Some (shortcut_node "s" "Affidavit" "f")
  /\ (forall n d, bundle_io.export_entry n = Ok (JObj d) ->
                  dict_get "target_id" d = None)
  /\ bundle_io._collect_subtree 6 sample_db "d" = Some ["d"; "f"]
  /\ bundle_io.export_bundle 6 sample_db "d" = Some (Raise AttributeError).
Proof.
  split; [reflexivity|]. split.
  { eexists. split; [vm_compute; reflexivity|].
    split; [reflexivity|]. split; reflexivity. }
  split; [reflexivity|]. split; [exact export_entry_no_target|].
  split; reflexivity.
Qed.

(** * Further properties of the store operations *)

(** ** Stores the decoder accepts *)

Lemma dict_keys_set_eq {V} k (v : V) d :
  dict_keys (dict_set k v d)
  = if dict_mem k d then dict_keys d else dict_keys d ++ [k].
Proof.
  unfold dict_mem. induction d as [|[k' v'] r IH]; simpl; auto.
  destruct (String.eqb k k') eqn:E; simpl; auto.
  rewrite IH. now destruct (dict_get k r).
Qed.

Lemma NoDup_dict_set {V} k (v : V) d :
  NoDup (dict_keys d) -> NoDup (dict_keys (dict_set k v d)).
Proof.
  intros H. rewrite dict_keys_set_eq. destruct (dict_mem k d) eqn:M; auto.
  apply dict_mem_false, dict_get_None in M.
  apply NoDup_app; [exact H|repeat constructor; simpl; tauto|].
  intros x Hx [<-|[]]. contradiction.
Qed.

Lemma Forall_dict_set {V} (P : string * V -> Prop) k (v : V) d :
  Forall P d -> P (k, v) -> Forall P (dict_set k v d).
Proof.
  intros H Hp. induction H as [|[k' v'] r Hh Ht IH]; simpl.
  - repeat constructor; auto.
  - destruct (String.eqb k k') eqn:E.
    + apply String.eqb_eq in E. subst k'. constructor; auto.
    + constructor; auto.
Qed.

Lemma dict_mem_set {V} k k' (v : V) d :
  dict_mem k d = true -> dict_mem k (dict_set k' v d) = true.
Proof.
  unfold dict_mem. rewrite dict_get_set.
  destruct (String.eqb k' k); auto.
Qed.

Lemma upgrade_read_doc_truthy raw fc :
  _upgrade_legacy_content raw = Ok fc -> truthy (read_doc fc) = true.
Proof.
  destruct raw as [| | | | |o]; simpl; try (now intros [= <-]).
  destruct (dict_mem "read_doc" o || dict_mem "copy_docs" o).
  - destruct (py_or (get "copy_docs" o) _); try discriminate.
    intros [= <-]. simpl. unfold py_or.
    destruct (truthy (get "read_doc" o)) eqn:T; auto.
  - destruct (iter _); simpl; try discriminate. now intros [= <-].
Qed.

Lemma parse_node_content_ok nid d n : parse_node nid d = Ok n -> content_ok n.
Proof.
  unfold parse_node.
  destruct (match get "target_id" d with
            | JNull => Ok None | JStr s => Ok (Some s) | _ => Untyped end);
    simpl; try discriminate.
  destruct (str_is (get_default "type" (JStr "folder") d) "file") eqn:F.
  - destruct (_upgrade_legacy_content _) as [c| |] eqn:U; simpl;
      try discriminate.
    destruct (raw_id nid d); simpl; try discriminate.
    destruct (match get_default "name" _ d with JStr s => Ok s | _ => Untyped end);
      simpl; try discriminate.
    destruct (raw_children d); simpl; try discriminate.
    intros [= <-]. unfold content_ok, node_type_of. simpl. rewrite F.
    split; [eapply upgrade_read_doc_truthy|eapply upgrade_copy_docs_nonempty];
      eauto.
  - simpl.
    destruct (raw_id nid d); simpl; try discriminate.
    destruct (match get_default "name" _ d with JStr s => Ok s | _ => Untyped end);
      simpl; try discriminate.
    destruct (raw_children d); simpl; try discriminate.
    intros [= <-]. unfold content_ok, node_type_of. simpl. rewrite F.
    now destruct (str_is _ "shortcut").
Qed.

Lemma tidy_set ns k n : tidy ns -> content_ok n -> tidy (dict_set k n ns).
Proof.
  intros [H1 H2] Hn. split; [now apply NoDup_dict_set|].
  now apply Forall_dict_set.
Qed.

Lemma tidy_get ns k n : tidy ns -> dict_get k ns = Some n -> content_ok n.
Proof.
  intros [_ H] Hg. apply dict_get_In in Hg. rewrite Forall_forall in H.
  exact (H _ Hg).
Qed.

Lemma content_ok_set_children n cs : content_ok n -> content_ok (set_children n cs).
Proof. now destruct n. Qed.

Lemma tidy_parse_nodes items : forall acc ns,
  tidy acc -> parse_nodes items acc = Ok ns -> tidy ns.
Proof.
  induction items as [|[k j] r IH]; simpl; intros acc ns Ha.
  - now intros [= <-].
  - destruct j; try (now apply IH).
    destruct (parse_node k o) as [n| |] eqn:P; simpl; try discriminate.
    apply IH. apply tidy_set; auto. eapply parse_node_content_ok; eauto.
Qed.

Lemma tidy_update a b : tidy a -> tidy b -> tidy (dict_update a b).
Proof.
  unfold dict_update. intros Ha [_ Hb]. revert a Ha.
  induction Hb as [|[k n] r Hh Ht IH]; simpl; intros a Ha; auto.
  apply IH. now apply tidy_set.
Qed.

Lemma dict_mem_update {V} k (a b : dict V) :
  dict_mem k a = true -> dict_mem k (dict_update a b) = true.
Proof.
  unfold dict_update. revert a. induction b as [|[k' v] r IH]; simpl; auto.
  intros a H. apply IH. now apply dict_mem_set.
Qed.

Lemma tidy_append_child ns key written obj c :
  tidy ns -> content_ok obj -> tidy (append_child key written obj c ns).
Proof.
  intros H Ho. unfold append_child. destruct (String.eqb key written); auto.
  apply tidy_set; [exact H|now apply content_ok_set_children].
Qed.

Lemma dict_mem_append_child ns key written obj c k :
  dict_mem k ns = true -> dict_mem k (append_child key written obj c ns) = true.
Proof.
  intros H. unfold append_child. destruct (String.eqb key written); auto.
  now apply dict_mem_set.
Qed.

Lemma ensure_keeps db fid g :
  tidy (nodes db) ->
  let db1 := fst (_ensure_favorite_shortcut db fid g) in
  tidy (nodes db1)
  /\ quickcopy_root_id db1 = quickcopy_root_id db
  /\ favorites_root_id db1 = favorites_root_id db
  /\ forall k, dict_mem k (nodes db) = true -> dict_mem k (nodes db1) = true.
Proof.
  intros H. unfold _ensure_favorite_shortcut.
  destruct (dict_get (favorites_root_id db) (nodes db)) as [fav|] eqn:F;
    [|simpl; auto].
  destruct (negb (NodeType_eqb (type fav) folder)); [simpl; auto|].
  destruct (existsb _ (children fav)); [simpl; auto|].
  destruct (dict_get fid (nodes db)) as [t|]; [|simpl; auto].
  destruct (negb (NodeType_eqb (type t) file)); [simpl; auto|].
  cbn. split; [|split; [|split]]; auto.
  - apply tidy_append_child; [apply tidy_set; [exact H|exact I]|].
    eapply tidy_get; eauto.
  - intros k Hk. apply dict_mem_append_child. now apply dict_mem_set.
Qed.

Lemma migrate_keeps items : forall db g db' g',
  tidy (nodes db) ->
  migrate_pinned items db g = (Ok db', g') ->
  tidy (nodes db')
  /\ quickcopy_root_id db' = quickcopy_root_id db
  /\ favorites_root_id db' = favorites_root_id db
  /\ forall k, dict_mem k (nodes db) = true -> dict_mem k (nodes db') = true.
Proof.
  induction items as [|[k j] r IH]; simpl; intros db g db' g' H.
  - intros [= <- _]. auto.
  - destruct j; try (now apply IH).
    destruct (get "pinned" o) as [|[|]| | | |]; try (now apply IH).
    destruct (raw_id k o) as [fid| |]; try discriminate.
    unfold gbind.
    pose proof (ensure_keeps db fid g H) as K.
    destruct (_ensure_favorite_shortcut db fid g) as [db1 g1] eqn:E.
    simpl in K. destruct K as (K1 & K2 & K3 & K4).
    intros M. destruct (IH _ _ _ _ K1 M) as (L1 & L2 & L3 & L4).
    split; [|split; [|split]]; auto; congruence.
Qed.

Lemma tidy_blank g : tidy (nodes (fst (blank_database g))).
Proof.
  rewrite blank_database_eq. lazy beta iota zeta delta [fst nodes].
  apply tidy_set; [|exact I]. apply tidy_set; [|exact I].
  split; constructor.
Qed.

Lemma loadable_blank g :
  draw g (used g) <> "" -> draw g (S (used g)) <> "" ->
  loadable (fst (blank_database g)).
Proof.
  intros Hf Hq. pose proof (tidy_blank g) as [T1 T2].
  pose proof (kc_blank g) as K.
  rewrite blank_database_eq in *.
  lazy beta iota zeta delta [fst nodes] in T1, T2, K.
  unfold loadable.
  lazy beta iota zeta delta [fst nodes quickcopy_root_id favorites_root_id].
  repeat (split; [assumption|]).
  split; [|split; [|split; [|assumption]]]; auto.
  - unfold dict_mem. now rewrite dict_get_set_eq.
  - apply dict_mem_set. unfold dict_mem. now rewrite dict_get_set_eq.
Qed.

Lemma loadable_intro db :
  tidy (nodes db) -> key_consistent (nodes db) ->
  quickcopy_root_id db <> "" ->
  dict_mem (quickcopy_root_id db) (nodes db) = true ->
  favorites_root_id db <> "" ->
  dict_mem (favorites_root_id db) (nodes db) = true ->
  loadable db.
Proof. intros [T1 T2] K Q1 Q2 F1 F2. repeat split; assumption. Qed.

Lemma db_from_dict_loadable (data : json) (g g' : idgen) (db : Database) :
  (forall i, used g <= i -> draw g i <> "") ->
  db_from_dict data g = (Ok db, g') ->
  loadable db.
Proof.
  intros Hne.
  assert (Hb : loadable (fst (blank_database g)))
    by (apply loadable_blank; apply Hne; lia).
  destruct data as [| | | | |top]; try (intros [= <- _]; exact Hb).
  intros H. pose proof (kc_db_from_dict _ _ _ _ H) as Hkc. revert H.
  unfold db_from_dict.
  destruct (raw_items _) as [items| |]; simpl; try discriminate.
  destruct (parse_nodes items []) as [ns| |] eqn:P; simpl; try discriminate.
  assert (Hns : tidy ns).
  { eapply tidy_parse_nodes; [|exact P]. split; constructor. }
  destruct (missing_root (get "quickcopy_root_id" top) ns) as [[|]| |] eqn:MQ;
    simpl; try discriminate.
  - (* legacy document *)
    unfold gbind. destruct (blank_database g) as [db0 g0] eqn:B.
    simpl in Hb. destruct Hb as (B1 & B2 & B3 & B4 & B5 & B6 & B7).
    assert (Hm : tidy (dict_update (nodes db0) ns))
      by (apply tidy_update; [split|]; auto).
    destruct (if truthy (get "root_id" top) then _ else _) as [[|]| |];
      try discriminate.
    + destruct (get "root_id" top); try discriminate.
      destruct (dict_get (quickcopy_root_id db0) _) as [qc|] eqn:Q;
        try discriminate.
      intros [= <- _]. apply loadable_intro;
        [ | exact Hkc | exact B3 | | exact B5 | ]; cbn.
      * apply tidy_set; auto. apply content_ok_set_children.
        eapply tidy_get; eauto.
      * unfold dict_mem. now rewrite dict_get_set_eq.
      * apply dict_mem_set. now apply dict_mem_update.
    + intros [= <- _]. apply loadable_intro;
        [ exact Hm | exact Hkc | exact B3 | | exact B5 | ]; cbn;
        now apply dict_mem_update.
  - revert MQ.
    destruct (get "quickcopy_root_id" top) as [| | |qc| |]; intros MQ;
      try discriminate;
      try (destruct (missing_root (get "favorites_root_id" top) ns);
           discriminate).
    rewrite missing_root_str in MQ.
    destruct (String.eqb qc "") eqn:Eq; [discriminate|].
    apply String.eqb_neq in Eq.
    assert (Mq : dict_mem qc ns = true).
    { destruct (dict_mem qc ns); [reflexivity|discriminate]. }
    destruct (missing_root (get "favorites_root_id" top) ns) as [[|]| |] eqn:MF;
      try discriminate; unfold gbind; cbn.
    + intros M. apply migrate_keeps in M; [|cbn; apply tidy_set; auto; exact I].
      cbn in M. destruct M as (T & M2 & M3 & M4).
      apply loadable_intro; rewrite ?M2, ?M3;
        [ exact T | exact Hkc | exact Eq | | apply Hne; lia | ].
      * apply M4. now apply dict_mem_set.
      * apply M4. unfold dict_mem. now rewrite dict_get_set_eq.
    + revert MF.
      destruct (get "favorites_root_id" top) as [| | |f| |]; intros MF;
        try discriminate.
      rewrite missing_root_str in MF.
      destruct (String.eqb f "") eqn:Ef; [discriminate|].
      apply String.eqb_neq in Ef.
      assert (Mf : dict_mem f ns = true).
      { destruct (dict_mem f ns); [reflexivity|discriminate]. }
      intros M. apply migrate_keeps in M; [|exact Hns].
      cbn in M. destruct M as (T & M2 & M3 & M4).
      apply loadable_intro; rewrite ?M2, ?M3;
        [ exact T | exact Hkc | exact Eq | now apply M4 | exact Ef
        | now apply M4 ].
Qed.

Lemma loadable_reload db g :
  loadable db -> db_from_dict (db_to_dict db) g = (Ok db, g).
Proof.
  intros (Hnd & Hkc & Hq & Hqm & Hf & Hfm & Hct).
  apply dict_mem_true in Hqm, Hfm.
  destruct Hqm as [qn Hqn], Hfm as [fn Hfn].
  destruct db as [qc fav ns]. simpl in *.
  unfold db_to_dict. simpl nodes.
  rewrite (fold_set_fresh node_to_dict ns []); auto. simpl app.
  unfold db_from_dict.
  change (get_default "nodes" (JObj []) _)
    with (JObj (map (fun p => (fst p, node_to_dict (snd p))) ns)).
  change (get "quickcopy_root_id" _) with (JStr qc).
  change (get "favorites_root_id" _) with (JStr fav).
  change (get "root_id" _) with JNull.
  assert (Hit : raw_items (JObj (map (fun p => (fst p, node_to_dict (snd p))) ns))
                = Ok (map (fun p => (fst p, node_to_dict (snd p))) ns)).
  { destruct ns; reflexivity. }
  rewrite Hit. cbn [rbind].
  rewrite (parse_nodes_to_dict ns []); auto.
  change ([] ++ ns) with ns. cbn [rbind].
  rewrite (missing_root_present ns qc qn Hq Hqn). cbn [rbind].
  rewrite (missing_root_present ns fav fn Hf Hfn).
  unfold gbind, gret. apply migrate_pinned_to_dict.
Qed.

(** X1. Whatever document the decoder accepts, the store it returns is
    sound: its keys are unique, every node sits under its own id, both
    root ids are non-empty and resolve, every file node carries a content
    with a non-empty read document and at least one copy document, and no
    other node carries a content.  (uuid4 never returns the empty
    string.) *)
Theorem decoded_store_sound (data : json) (g g' : idgen) (db : Database) :
  (forall i, used g <= i -> draw g i <> "") ->
  db_from_dict data g = (Ok db, g') ->
  NoDup (dict_keys (nodes db))
  /\ (forall k n, dict_get k (nodes db) = Some n -> id n = k)
  /\ (quickcopy_root_id db <> ""
      /\ dict_get (quickcopy_root_id db) (nodes db) <> None)
  /\ (favorites_root_id db <> ""
      /\ dict_get (favorites_root_id db) (nodes db) <> None)
  /\ (forall k n, dict_get k (nodes db) = Some n ->
        match type n with
        | file => exists c, content n = Some c
                            /\ truthy (read_doc c) = true
                            /\ copy_docs c <> []
        | _ => content n = None
        end).
Proof.
  intros Hne H.
  destruct (db_from_dict_loadable _ _ _ _ Hne H)
    as (Hnd & Hkc & Hq & Hqm & Hf & Hfm & Hct).
  apply dict_mem_true in Hqm, Hfm.
  destruct Hqm as [qn Hqn], Hfm as [fn Hfn].
  split; [exact Hnd|]. split; [intros k n; now apply kc_get|].
  split; [split; [exact Hq|congruence]|].
  split; [split; [exact Hf|congruence]|].
  intros k n Hg. apply dict_get_In in Hg.
  rewrite Forall_forall in Hct. specialize (Hct _ Hg).
  unfold content_ok in Hct. simpl in Hct.
  destruct (type n), (content n) as [c|]; try tauto; eauto.
Qed.

Lemma decoded_store_sound_witness :
  exists db g',
    db_from_dict (JObj legacy_pinned_doc) uuids = (Ok db, g')
    /\ NoDup (dict_keys (nodes db))
    /\ dict_get (quickcopy_root_id db) (nodes db) <> None.
Proof.
  eexists _, _. split; [vm_compute; reflexivity|].
  pose proof (decoded_store_sound (JObj legacy_pinned_doc) uuids) as S.
  edestruct S as (S1 & _ & (_ & S3) & _);
    [intros i _; discriminate | vm_compute; reflexivity |].
  split; [exact S1|exact S3].
Defined.

(** X2. Loading is stable: once a document has been loaded, saving the
    store and loading it again gives the same store, and draws no
    identifier, so every migration the first load performed is performed
    once. *)
Theorem reload_is_stable (data : json) (g g' : idgen) (db : Database) :
  (forall i, used g <= i -> draw g i <> "") ->
  db_from_dict data g = (Ok db, g') ->
  forall g2, db_from_dict (db_to_dict db) g2 = (Ok db, g2).
Proof.
  intros Hne H g2. apply loadable_reload.
  eapply db_from_dict_loadable; eauto.
Qed.

Lemma reload_is_stable_witness :
  exists db g',
    db_from_dict (JObj pinned_file_doc) uuids = (Ok db, g')
    /\ favorited db "f" = true
    /\ db_from_dict (db_to_dict db) g' = (Ok db, g').
Proof.
  eexists _, _. split; [vm_compute; reflexivity|].
  split; [reflexivity|].
  eapply (reload_is_stable (JObj pinned_file_doc) uuids);
    [intros i _; discriminate | vm_compute; reflexivity].
Defined.

(** ** Legacy documents *)

Lemma dict_get_update {V} k (b : dict V) : forall a,
  NoDup (dict_keys b) ->
  dict_get k (dict_update a b)
  = match dict_get k b with Some v => Some v | None => dict_get k a end.
Proof.
  unfold dict_update. induction b as [|[k' v] r IH]; simpl; intros a Hnd; auto.
  inversion Hnd as [|? ? Hk Hr]; subst. rewrite IH by exact Hr.
  destruct (dict_get k r) eqn:R.
  - destruct (String.eqb k k') eqn:E; auto.
    apply String.eqb_eq in E. subst k'.
    apply dict_get_Some_key in R. contradiction.
  - rewrite dict_get_set. rewrite String.eqb_sym.
    now destruct (String.eqb k k').
Qed.

(** X3. A legacy document (no resolving [quickcopy_root_id]) whose
    [root_id] is a string gets two new root folders under the next two
    identifiers; the new QuickCopy root has the old root as its only child
    when [root_id] names a parsed folder and no child otherwise, the new
    Favorites root is empty, and every parsed node is kept as parsed. *)
Theorem legacy_root_attached (top : dict json) (items : dict json)
    (parsed : dict Node) (r : string) (g : idgen) :
  raw_items (get_default "nodes" (JObj []) top) = Ok items ->
  parse_nodes items [] = Ok parsed ->
  missing_root (get "quickcopy_root_id" top) parsed = Ok true ->
  get "root_id" top = JStr r ->
  fresh_for g parsed ->
  let fav := draw g (used g) in
  let qc := draw g (S (used g)) in
  exists db,
    db_from_dict (JObj top) g = (Ok db, advance (advance g))
    /\ favorites_root_id db = fav /\ quickcopy_root_id db = qc
    /\ dict_get fav (nodes db) = Some (folder_node fav "Favorites" [])
    /\ dict_get qc (nodes db)
       = Some (folder_node qc "QuickCopy"
                 (if legacy_attach (JStr r) parsed then [r] else []))
    /\ (forall k n, dict_get k parsed = Some n ->
                    dict_get k (nodes db) = Some n)
    /\ (forall k, dict_get k (nodes db) <> None ->
                  k = fav \/ k = qc \/ dict_get k parsed <> None).
Proof.
  intros Hit Hp Hm Hr Hfr fav qc.
  assert (Hnd : NoDup (dict_keys parsed)).
  { eapply (tidy_parse_nodes items [] parsed); [split; constructor|exact Hp]. }
  assert (Hfav : dict_get fav parsed = None)
    by (apply (fresh_not_key g); auto).
  assert (Hqc : dict_get qc parsed = None)
    by (apply (fresh_not_key g); auto).
  assert (Hne : fav <> qc).
  { intros E. destruct Hfr as [_ Hinj].
    apply Hinj in E; [lia|lia|lia]. }
  set (base := dict_set qc (root_node qc "QuickCopy")
                 (dict_set fav (root_node fav "Favorites") [])).
  assert (G : forall k, dict_get k (dict_update base parsed)
                = match dict_get k parsed with
                  | Some v => Some v
                  | None => if String.eqb qc k
                            then Some (root_node qc "QuickCopy")
                            else if String.eqb fav k
                            then Some (root_node fav "Favorites")
                            else None
                  end).
  { intros k. rewrite dict_get_update by exact Hnd.
    destruct (dict_get k parsed); auto. unfold base.
    rewrite !dict_get_set. simpl. reflexivity. }
  unfold db_from_dict. rewrite Hit. cbn [rbind]. rewrite Hp. cbn [rbind].
  rewrite Hm. cbn [rbind]. unfold gbind. rewrite blank_database_eq.
  rewrite Hr. fold fav qc.
  lazy beta iota zeta delta [nodes quickcopy_root_id favorites_root_id].
  fold base.
  unfold legacy_attach, in_nodes, truthy.
  destruct (String.eqb r "") eqn:Er; cbn [negb andb rbind].
  - (* empty root_id: nothing attached *)
    eexists. split; [reflexivity|]. cbn.
    split; [reflexivity|]. split; [reflexivity|].
    split; [now rewrite G, Hfav, String.eqb_refl,
              (proj2 (String.eqb_neq qc fav)) by congruence|].
    split; [now rewrite G, Hqc, String.eqb_refl|].
    split.
    + intros k n Hk. now rewrite G, Hk.
    + intros k. rewrite G. destruct (dict_get k parsed); [intros _; right; right; discriminate|].
      destruct (String.eqb qc k) eqn:E1; [apply String.eqb_eq in E1; auto|].
      destruct (String.eqb fav k) eqn:E2; [apply String.eqb_eq in E2; auto|].
      congruence.
  - unfold dict_mem. destruct (dict_get r parsed) as [rn|] eqn:R; cbn [andb].
    + destruct (NodeType_eqb (type rn) folder) eqn:T.
      * rewrite G, Hqc, String.eqb_refl.
        eexists. split; [reflexivity|]. cbn.
        split; [reflexivity|]. split; [reflexivity|].
        assert (Hrq : qc <> r) by congruence.
        split; [rewrite dict_get_set_ne by congruence;
                now rewrite G, Hfav, String.eqb_refl,
                  (proj2 (String.eqb_neq qc fav)) by congruence|].
        split; [now rewrite dict_get_set_eq|].
        split.
        -- intros k n Hk. rewrite dict_get_set_ne by congruence.
           now rewrite G, Hk.
        -- intros k. rewrite dict_get_set.
           destruct (String.eqb qc k) eqn:E1;
             [apply String.eqb_eq in E1; auto|].
           rewrite G, E1.
           destruct (dict_get k parsed); [intros _; right; right; discriminate|].
           destruct (String.eqb fav k) eqn:E2;
             [apply String.eqb_eq in E2; auto|]. congruence.
      * eexists. split; [reflexivity|]. cbn.
        split; [reflexivity|]. split; [reflexivity|].
        split; [now rewrite G, Hfav, String.eqb_refl,
                  (proj2 (String.eqb_neq qc fav)) by congruence|].
        split; [now rewrite G, Hqc, String.eqb_refl|].
        split.
        -- intros k n Hk. now rewrite G, Hk.
        -- intros k. rewrite G.
           destruct (dict_get k parsed); [intros _; right; right; discriminate|].
           destruct (String.eqb qc k) eqn:E1; [apply String.eqb_eq in E1; auto|].
           destruct (String.eqb fav k) eqn:E2; [apply String.eqb_eq in E2; auto|].
           congruence.
    + eexists. split; [reflexivity|]. cbn.
      split; [reflexivity|]. split; [reflexivity|].
      split; [now rewrite G, Hfav, String.eqb_refl,
                (proj2 (String.eqb_neq qc fav)) by congruence|].
      split; [now rewrite G, Hqc, String.eqb_refl|].
      split.
      * intros k n Hk. now rewrite G, Hk.
      * intros k. rewrite G.
        destruct (dict_get k parsed); [intros _; right; right; discriminate|].
        destruct (String.eqb qc k) eqn:E1; [apply String.eqb_eq in E1; auto|].
        destruct (String.eqb fav k) eqn:E2; [apply String.eqb_eq in E2; auto|].
        congruence.
Qed.

Lemma legacy_root_attached_witness :
  exists db,
    db_from_dict (JObj legacy_pinned_doc) uuids
    = (Ok db, advance (advance uuids))
    /\ dict_get (quickcopy_root_id db) (nodes db)
       = Some (folder_node "#|" "QuickCopy" ["r"])
    /\ favorited db "f" = false.
Proof.
  edestruct (legacy_root_attached legacy_pinned_doc) with (r := "r") (g := uuids)
    as (db & H1 & H2 & H3 & H4 & H5 & H6 & H7);
    [ vm_compute; reflexivity | vm_compute; reflexivity | reflexivity
    | reflexivity | apply (uuids_fresh _ 0); reflexivity | ].
  exists db. split; [exact H1|]. split.
  - rewrite H3. exact H5.
  - unfold favorited. rewrite H2, H4. reflexivity.
Defined.

(** ** Ensuring a favourite twice *)

(** X4. [_ensure_favorite_shortcut] is idempotent: run a second time for
    the same id it changes nothing and draws no identifier, whatever the
    store and whatever identifier the first run drew. *)
Theorem ensure_favorite_idempotent (db : Database) (fid : string) (g : idgen) :
  _ensure_favorite_shortcut
    (fst (_ensure_favorite_shortcut db fid g)) fid
    (snd (_ensure_favorite_shortcut db fid g))
  = _ensure_favorite_shortcut db fid g.
Proof.
  unfold _ensure_favorite_shortcut at 2 3 4.
  destruct (dict_get (favorites_root_id db) (nodes db)) as [fav|] eqn:F.
  2:{ cbn. unfold _ensure_favorite_shortcut. now rewrite F. }
  destruct (negb (NodeType_eqb (type fav) folder)) eqn:T.
  { cbn. unfold _ensure_favorite_shortcut. now rewrite F, T. }
  destruct (existsb (shortcut_to (nodes db) fid) (children fav)) eqn:E.
  { cbn. unfold _ensure_favorite_shortcut. now rewrite F, T, E. }
  destruct (dict_get fid (nodes db)) as [t|] eqn:Ft.
  2:{ cbn. unfold _ensure_favorite_shortcut. now rewrite F, T, E, Ft. }
  destruct (negb (NodeType_eqb (type t) file)) eqn:Tt.
  { cbn. unfold _ensure_favorite_shortcut. now rewrite F, T, E, Ft, Tt. }
  cbn [gbind new_id gret fst snd]. unfold gbind, new_id, gret. cbn [fst snd].
  set (sc_id := draw g (used g)).
  set (sc := {| id := sc_id; type := shortcut; name := name t; children := [];
                content := None; target_id := Some fid |}).
  unfold _ensure_favorite_shortcut, set_nodes, append_child.
  cbn [nodes favorites_root_id quickcopy_root_id].
  change (id sc) with sc_id.
  destruct (String.eqb (favorites_root_id db) sc_id) eqn:Ek.
  - apply String.eqb_eq in Ek. rewrite Ek, dict_get_set_eq. reflexivity.
  - apply String.eqb_neq in Ek. rewrite dict_get_set_eq.
    cbn [type set_children children]. rewrite T.
    rewrite existsb_app. cbn [existsb].
    assert (S : shortcut_to
                  (dict_set (favorites_root_id db)
                     (set_children fav (children fav ++ [sc_id]))
                     (dict_set sc_id sc (nodes db))) fid sc_id = true).
    { unfold shortcut_to. rewrite dict_get_set_ne by exact Ek.
      rewrite dict_get_set_eq. simpl. apply String.eqb_refl. }
    rewrite S. rewrite orb_true_r. reflexivity.
Qed.

(** ** The data file *)

(** X5. First start: with no data file, [load_or_create_blank] returns the
    blank database and leaves a data file behind; the next start reads
    exactly that database back from the file, draws no identifier and
    leaves the file as it is. *)
Theorem first_start_then_restart (g : idgen) :
  draw g (used g) <> "" -> draw g (S (used g)) <> "" ->
  exists db f,
    storage.load_or_create_blank None g = ((Ok db, Some f), advance (advance g))
    /\ db = fst (blank_database g)
    /\ forall g2, storage.load_or_create_blank (Some f) g2
                  = ((Ok db, Some f), g2).
Proof.
  intros Hf Hq. pose proof (loadable_blank g Hf Hq) as L.
  unfold storage.load_or_create_blank, storage.save, storage.load, gbind, gret.
  rewrite blank_database_eq in *. cbn [fst] in L.
  eexists _, _. split; [reflexivity|]. split; [reflexivity|].
  intros g2. now rewrite (loadable_reload _ g2 L).
Qed.

Lemma first_start_then_restart_witness :
  exists db f,
    storage.load_or_create_blank None uuids
    = ((Ok db, Some f), advance (advance uuids))
    /\ dict_keys (nodes db) = ["#"; "#|"]
    /\ storage.load_or_create_blank (Some f) uuids = ((Ok db, Some f), uuids).
Proof.
  destruct (first_start_then_restart uuids) as (db & f & H1 & H2 & H3);
    [discriminate | discriminate |].
  exists db, f. split; [exact H1|]. split; [|apply H3].
  rewrite H2. reflexivity.
Defined.

(** ** Names *)

Lemma lstrip_clean s : starts_clean s -> utils.lstrip s = s.
Proof.
  destruct s as [|a [|b [|c r]]]; simpl; auto.
  - now intros [-> _].
  - now intros [-> [-> _]].
  - now intros [-> [-> ->]].
Qed.

Lemma rstrip_rev_clean s : ends_clean_rev s -> utils.rstrip_rev s = s.
Proof.
  destruct s as [|a [|b [|c r]]]; simpl; auto.
  - now intros [-> _].
  - now intros [-> [-> _]].
  - now intros [-> [-> ->]].
Qed.

Lemma lstrip_suffix n : forall s, length s <= n ->
  starts_clean (utils.lstrip s) /\ exists p, s = p ++ utils.lstrip s.
Proof.
  induction n as [|n IH]; intros s Hn.
  - destruct s; [|simpl in Hn; lia]. split; [exact I|now exists []].
  - destruct s as [|a r]; [split; [exact I|now exists []]|].
    simpl in Hn. cbn [utils.lstrip].
    destruct (utils.is_space1 a) eqn:S1.
    { destruct (IH r) as [C [p Hp]]; [lia|]. split; auto.
      exists (a :: p). simpl. now rewrite <- Hp. }
    destruct r as [|b r2]; [split; [simpl; auto|now exists []]|].
    destruct (utils.is_space2 a b) eqn:S2.
    { simpl in Hn. destruct (IH r2) as [C [p Hp]]; [lia|]. split; auto.
      exists (a :: b :: p). simpl. now rewrite <- Hp. }
    destruct r2 as [|c r3]; [split; [simpl; auto|now exists []]|].
    destruct (utils.is_space3 a b c) eqn:S3.
    { simpl in Hn. destruct (IH r3) as [C [p Hp]]; [lia|]. split; auto.
      exists (a :: b :: c :: p). simpl. now rewrite <- Hp. }
    split; [simpl; auto|now exists []].
Qed.

Lemma rstrip_rev_suffix n : forall s, length s <= n ->
  ends_clean_rev (utils.rstrip_rev s) /\ exists p, s = p ++ utils.rstrip_rev s.
Proof.
  induction n as [|n IH]; intros s Hn.
  - destruct s; [|simpl in Hn; lia]. split; [exact I|now exists []].
  - destruct s as [|a r]; [split; [exact I|now exists []]|].
    simpl in Hn. cbn [utils.rstrip_rev].
    destruct (utils.is_space1 a) eqn:S1.
    { destruct (IH r) as [C [p Hp]]; [lia|]. split; auto.
      exists (a :: p). simpl. now rewrite <- Hp. }
    destruct r as [|b r2]; [split; [simpl; auto|now exists []]|].
    destruct (utils.is_space2 b a) eqn:S2.
    { simpl in Hn. destruct (IH r2) as [C [p Hp]]; [lia|]. split; auto.
      exists (a :: b :: p). simpl. now rewrite <- Hp. }
    destruct r2 as [|c r3]; [split; [simpl; auto|now exists []]|].
    destruct (utils.is_space3 c b a) eqn:S3.
    { simpl in Hn. destruct (IH r3) as [C [p Hp]]; [lia|]. split; auto.
      exists (a :: b :: c :: p). simpl. now rewrite <- Hp. }
    split; [simpl; auto|now exists []].
Qed.

Lemma starts_clean_prefix m q : starts_clean (m ++ q) -> starts_clean m.
Proof.
  destruct m as [|a [|b [|c r]]]; simpl; auto.
  - intros [H _]. auto.
  - intros [H1 [H2 _]]. auto.
Qed.

Lemma stripped_fixed l :
  starts_clean (stripped l) /\ ends_clean_rev (rev (stripped l))
  /\ exists p q, l = p ++ stripped l ++ q.
Proof.
  unfold stripped.
  destruct (lstrip_suffix (length l) l (le_n _)) as [C1 [p Hp]].
  destruct (rstrip_rev_suffix _ (rev (utils.lstrip l)) (le_n _)) as [C2 [q Hq]].
  assert (E : utils.lstrip l = rev (utils.rstrip_rev (rev (utils.lstrip l))) ++ rev q).
  { rewrite <- rev_app_distr, <- Hq. now rewrite rev_involutive. }
  split; [|split].
  - eapply starts_clean_prefix. rewrite <- E. exact C1.
  - now rewrite rev_involutive.
  - exists p, (rev q). now rewrite <- E.
Qed.

Lemma stripped_idempotent l : stripped (stripped l) = stripped l.
Proof.
  destruct (stripped_fixed l) as (C1 & C2 & _).
  unfold stripped at 1. rewrite (lstrip_clean _ C1).
  rewrite (rstrip_rev_clean _ C2). apply rev_involutive.
Qed.

Lemma strip_idempotent s : utils.strip (utils.strip s) = utils.strip s.
Proof.
  unfold utils.strip. rewrite list_ascii_of_string_of_list_ascii.
  fold (stripped (list_ascii_of_string s)).
  fold (stripped (stripped (list_ascii_of_string s))).
  now rewrite stripped_idempotent.
Qed.

(** X6. [utils.safe_name] never answers the empty name, and a name it answered
    is one it keeps: applied again it changes nothing.  The name has no
    white space left at either end. *)
Theorem safe_name_normal (s : string) :
  utils.safe_name s <> ""
  /\ utils.safe_name (utils.safe_name s) = utils.safe_name s
  /\ utils.strip (utils.safe_name s) = utils.safe_name s.
Proof.
  assert (N : utils.safe_name s <> "").
  { unfold utils.safe_name. destruct (String.eqb (utils.strip s) "") eqn:E;
      [discriminate|]. now apply String.eqb_neq in E. }
  assert (S : utils.strip (utils.safe_name s) = utils.safe_name s).
  { unfold utils.safe_name. destruct (String.eqb (utils.strip s) "") eqn:E;
      [reflexivity|apply strip_idempotent]. }
  split; [exact N|]. split; [|exact S].
  unfold utils.safe_name at 1. rewrite S.
  apply String.eqb_neq in N. now rewrite N.
Qed.

(** ** Creating a node *)

Lemma creation_parent_get v pkey parent :
  ui_explorer.creation_parent v = Some (pkey, parent) ->
  dict_get pkey (nodes (ui_explorer.db v)) = Some parent.
Proof.
  unfold ui_explorer.creation_parent.
  destruct (dict_get (ui_explorer.current_folder_id v) _) eqn:C.
  - now intros [= <- <-].
  - destruct (dict_get (quickcopy_root_id _) _) eqn:Q; [|discriminate].
    now intros [= <- <-].
Qed.

(** X7. Creating a folder or a file (the name prompt answered) under a
    parent that resolves to a folder draws one identifier, files the new
    node under it with the normalised name and no children, and appends
    the id to the end of the parent's children, where it occurs exactly
    once; every other node, the roots and the current folder stay as they
    were. *)
Theorem create_appends_new_node (v : ui_explorer.ExplorerView)
    (pkey : string) (parent : Node) (answer : string) (as_file : bool)
    (g : idgen) :
  ui_explorer.creation_parent v = Some (pkey, parent) ->
  type parent = folder ->
  fresh_for g (nodes (ui_explorer.db v)) ->
  let create := if as_file then ui_explorer.create_file
                else ui_explorer.create_folder in
  let nid := draw g (used g) in
  let name := utils.safe_name answer in
  let v' := fst (create v (Some answer) g) in
  snd (create v (Some answer) g) = advance g
  /\ dict_get nid (nodes (ui_explorer.db v)) = None
  /\ dict_get nid (nodes (ui_explorer.db v'))
     = Some (if as_file then file_node nid name else folder_node nid name [])
  /\ dict_get pkey (nodes (ui_explorer.db v'))
     = Some (set_children parent (children parent ++ [nid]))
  /\ count_occ string_dec (children parent ++ [nid]) nid = 1
  /\ (forall k, k <> nid -> k <> pkey ->
        dict_get k (nodes (ui_explorer.db v'))
        = dict_get k (nodes (ui_explorer.db v)))
  /\ quickcopy_root_id (ui_explorer.db v') = quickcopy_root_id (ui_explorer.db v)
  /\ favorites_root_id (ui_explorer.db v') = favorites_root_id (ui_explorer.db v)
  /\ ui_explorer.current_folder_id v' = ui_explorer.current_folder_id v.
Proof.
  intros Hp Ht Hfr create nid name v'.
  pose proof (creation_parent_get _ _ _ Hp) as Hg.
  assert (Hnew : dict_get nid (nodes (ui_explorer.db v)) = None)
    by (apply (fresh_not_key g); auto).
  assert (Hne : pkey <> nid) by congruence.
  assert (Hnot : ~ In nid (children parent)).
  { intros Hin. destruct Hfr as [Hm _]. apply (Hm (used g) (le_n _)).
    right. exists (pkey, parent). split; [now apply dict_get_In|exact Hin]. }
  assert (E : create v (Some answer) g
              = (ui_explorer.with_nodes v
                   (dict_set pkey (set_children parent (children parent ++ [nid]))
                      (dict_set nid
                         (if as_file then file_node nid name
                          else folder_node nid name [])
                         (nodes (ui_explorer.db v)))),
                 advance g)).
  { unfold create, ui_explorer.create_file, ui_explorer.create_folder,
      ui_explorer.create_node.
    destruct as_file; rewrite Hp, Ht; cbn [NodeType_eqb negb];
      unfold gbind, new_id, gret, append_child; cbn [id];
      fold nid; fold name;
      rewrite (proj2 (String.eqb_neq pkey nid) Hne); reflexivity. }
  unfold v'. rewrite E. cbn [fst snd].
  split; [reflexivity|]. split; [exact Hnew|].
  split; [cbn; rewrite dict_get_set_ne by exact Hne; apply dict_get_set_eq|].
  split; [cbn; apply dict_get_set_eq|].
  split.
  { rewrite count_occ_app. cbn [count_occ].
    destruct (string_dec nid nid) as [_|N]; [|congruence].
    rewrite (proj1 (count_occ_not_In string_dec _ _) Hnot). reflexivity. }
  split; [|repeat split].
  intros k K1 K2. cbn.
  rewrite dict_get_set_ne by congruence. apply dict_get_set_ne. congruence.
Qed.

Lemma create_appends_new_node_witness :
  let v' := fst (ui_explorer.create_file sample_view (Some "  Deed of gift ") uuids) in
  dict_get "#" (nodes (ui_explorer.db v')) = Some (file_node "#" "Deed of gift")
  /\ dict_get "d" (nodes (ui_explorer.db v'))
     = Some (folder_node "d" "Deeds" ["f"; "#"]).
Proof.
  destruct (create_appends_new_node sample_view "d"
              (folder_node "d" "Deeds" ["f"]) "  Deed of gift " true uuids)
    as (_ & _ & H3 & H4 & _);
    [reflexivity | reflexivity | apply (uuids_fresh _ 0); reflexivity |].
  split; [exact H3|exact H4].
Defined.

(** ** Renaming *)

Lemma renamed_refl n : renamed n n.
Proof. now destruct n. Qed.

Lemma rename_target_get v key node key' node' :
  dict_get key (nodes (ui_explorer.db v)) = Some node ->
  ui_explorer.rename_target v key node = (key', node') ->
  dict_get key' (nodes (ui_explorer.db v)) = Some node'.
Proof.
  unfold ui_explorer.rename_target. intros Hk.
  destruct (type node); try (now intros [= <- <-]).
  destruct (target_id node) as [t|]; try (now intros [= <- <-]).
  destruct (dict_get t _) eqn:T; now intros [= <- <-].
Qed.

(** X8. Renaming changes names and nothing else: after [rename_selected],
    whatever was selected and answered, the store has the same keys, every
    node has the id, type, children, content and target it had, and the
    roots and the current folder are the same. *)
Theorem rename_changes_names_only (v : ui_explorer.ExplorerView)
    (rid lid : option string) (answer : option string) :
  let v' := ui_explorer.rename_selected v rid lid answer in
  quickcopy_root_id (ui_explorer.db v') = quickcopy_root_id (ui_explorer.db v)
  /\ favorites_root_id (ui_explorer.db v') = favorites_root_id (ui_explorer.db v)
  /\ ui_explorer.current_folder_id v' = ui_explorer.current_folder_id v
  /\ forall k,
       match dict_get k (nodes (ui_explorer.db v)),
             dict_get k (nodes (ui_explorer.db v')) with
       | Some n, Some n' => renamed n n'
       | None, None => True
       | _, _ => False
       end.
Proof.
  assert (Same : forall k,
            match dict_get k (nodes (ui_explorer.db v)),
                  dict_get k (nodes (ui_explorer.db v)) with
            | Some n, Some n' => renamed n n'
            | None, None => True
            | _, _ => False
            end).
  { intros k. destruct (dict_get k _); [apply renamed_refl|exact I]. }
  unfold ui_explorer.rename_selected.
  destruct (ui_explorer._get_selected_node_anywhere v rid lid)
    as [[key node]|] eqn:Sel; [|now repeat split].
  destruct (ui_explorer.is_root _ _); [now repeat split|].
  destruct (ui_explorer.rename_target v key node) as [key' node'] eqn:R.
  destruct answer as [new_name|]; [|now repeat split].
  pose proof (rename_target_get _ _ _ _ _ (selected_get _ _ _ _ _ Sel) R) as Hk.
  cbn [ui_explorer.db ui_explorer.with_nodes ui_explorer.current_folder_id
       set_nodes quickcopy_root_id favorites_root_id nodes].
  split; [reflexivity|]. split; [reflexivity|]. split; [reflexivity|].
  set (nm := utils.safe_name new_name).
  set (ns := nodes (ui_explorer.db v)) in *.
  assert (One : forall k,
            match dict_get k ns, dict_get k (dict_set key' (set_name node' nm) ns) with
            | Some n, Some n' => renamed n n'
            | None, None => True
            | _, _ => False
            end).
  { intros k. rewrite dict_get_set. destruct (String.eqb key' k) eqn:E.
    - apply String.eqb_eq in E. subst k. rewrite Hk. reflexivity.
    - apply Same. }
  intros k. cbn [type set_name].
  destruct (type node'); try apply One.
  destruct (dict_get (favorites_root_id (ui_explorer.db v)) _) as [fav|];
    try apply One.
  destruct (NodeType_eqb (type fav) folder); try apply One.
  rewrite sync_get. specialize (One k).
  destruct (dict_get k ns) as [n|],
           (dict_get k (dict_set key' (set_name node' nm) ns)) as [n1|];
    try exact One; try contradiction.
  destruct (_ && _); [|exact One].
  unfold renamed in *. rewrite One. reflexivity.
Qed.

(** ** What a deletion keeps *)

Lemma lost_only_refl drop n : lost_only drop n n.
Proof. repeat split; auto. apply incl_refl. Qed.

Lemma lost_only_trans drop a b c :
  lost_only drop a b -> lost_only drop b c -> lost_only drop a c.
Proof.
  intros (A1 & A2 & A3 & A4 & A5 & A6 & A7) (B1 & B2 & B3 & B4 & B5 & B6 & B7).
  repeat split; try congruence.
  - eapply incl_tran; eauto.
  - intros x Hx Hd. apply B7; auto.
Qed.

Lemma lost_only_weaken (d1 d2 : string -> bool) n n' :
  (forall c, d2 c = false -> d1 c = false) ->
  lost_only d1 n n' -> lost_only d2 n n'.
Proof.
  intros H (A1 & A2 & A3 & A4 & A5 & A6 & A7).
  repeat split; auto.
Qed.

Lemma reach_subgraph a b k d : subgraph a b -> reach a k d -> reach b k d.
Proof.
  intros S. induction 1 as [k|k n c d Hk Ht Hc R IH]; [apply reach_here|].
  destruct (S _ _ Hk) as (n0 & G0 & T0 & I0).
  eapply reach_down; eauto. congruence.
Qed.

Lemma delete_subtree_only_reach fuel : forall ns k ns',
  ui_explorer._delete_subtree fuel ns k = Some ns' ->
  forall x, dict_get x ns' = dict_get x ns \/ reach ns k x.
Proof.
  induction fuel as [|fuel IH]; intros ns k ns'; [discriminate|].
  rewrite delete_subtree_unfold.
  destruct (dict_get k ns) as [node|] eqn:K.
  2:{ intros [= <-] x. now left. }
  assert (Fold : forall cs start mid,
            fold_delete fuel cs (Some start) = Some mid ->
            subgraph start ns ->
            forall x, dict_get x mid = dict_get x start
                      \/ exists c, In c cs /\ reach ns c x).
  { induction cs as [|c r IHr]; intros start mid; simpl.
    - intros [= <-] _ x. now left.
    - destruct (ui_explorer._delete_subtree fuel start c) as [s1|] eqn:D.
      + intros Hr Hs x.
        destruct (delete_subtree_spec _ _ _ _ D) as [Del _].
        assert (Hs1 : subgraph s1 ns).
        { eapply subgraph_trans; [apply deletes_subgraph; eauto|exact Hs]. }
        destruct (IHr _ _ Hr Hs1 x) as [E|(c' & Hc' & Rc')].
        * destruct (IH _ _ _ D x) as [E1|R1].
          -- left. congruence.
          -- right. exists c. split; [now left|].
             exact (reach_subgraph _ _ _ _ Hs R1).
        * right. exists c'. split; [now right|exact Rc'].
      + fold (fold_delete fuel r None). rewrite fold_delete_None.
        discriminate. }
  assert (Pop : forall mid,
            (forall x, dict_get x mid = dict_get x ns \/ reach ns k x) ->
            forall x, dict_get x (dict_pop k mid) = dict_get x ns
                      \/ reach ns k x).
  { intros mid H x. rewrite dict_get_pop.
    destruct (String.eqb k x) eqn:E; [|apply H].
    apply String.eqb_eq in E. subst x. right. apply reach_here. }
  destruct (type node) eqn:T.
  - destruct (fold_delete fuel (children node) (Some ns)) as [mid|] eqn:F;
      [|discriminate].
    intros [= <-]. apply Pop. intros x.
    destruct (Fold _ _ _ F (subgraph_refl ns) x) as [E|(c & Hc & Rc)];
      [now left|right].
    eapply reach_down; eauto.
  - intros [= <-]. apply Pop. now left.
  - intros [= <-]. apply Pop. now left.
Qed.

Lemma unparented_lost ns key x n :
  NoDup (dict_keys ns) ->
  dict_get x ns = Some n ->
  exists n1, dict_get x (unparented ns key) = Some n1
             /\ lost_only (fun c => String.eqb c key) n n1.
Proof.
  intros Hnd Hx. unfold unparented.
  destruct (ui_explorer._find_parent_folder ns key) as [[pkey p]|] eqn:P.
  2:{ exists n. split; [exact Hx|apply lost_only_refl]. }
  destruct (find_parent_Some _ _ _ _ Hnd P) as (G & _).
  rewrite dict_get_set. destruct (String.eqb pkey x) eqn:E.
  - apply String.eqb_eq in E. subst x. assert (n = p) by congruence. subst n.
    eexists. split; [reflexivity|]. repeat split; simpl.
    + intros c Hc. now apply filter_neq_In in Hc.
    + intros c Hc Hd. apply filter_neq_In. split; auto.
      now apply String.eqb_neq.
  - exists n. split; [exact Hx|apply lost_only_refl].
Qed.

Lemma shortcut_to_unparented ns key fid c :
  NoDup (dict_keys ns) ->
  shortcut_to (unparented ns key) fid c = shortcut_to ns fid c.
Proof.
  intros Hnd. unfold shortcut_to.
  destruct (dict_get c ns) as [n|] eqn:C.
  - destruct (unparented_lost ns key c n Hnd C) as (n1 & G & (_ & T & _ & _ & Tg & _)).
    now rewrite G, T, Tg.
  - unfold unparented.
    destruct (ui_explorer._find_parent_folder ns key) as [[pkey p]|] eqn:P;
      [|now rewrite C].
    destruct (find_parent_Some _ _ _ _ Hnd P) as (G & _).
    rewrite dict_get_set_ne; [now rewrite C|congruence].
Qed.

Lemma list_remove_In_ne x c l :
  In c l -> c <> x -> In c (ui_explorer.list_remove x l).
Proof.
  induction l as [|y r IH]; simpl; [tauto|].
  intros [->|H] Hne.
  - destruct (String.eqb c x) eqn:E; [|now left].
    apply String.eqb_eq in E. contradiction.
  - destruct (String.eqb y x); [exact H|right; auto].
Qed.

Lemma remove_for_target_lost v fid x n :
  dict_get x (nodes (ui_explorer.db v)) = Some n ->
  shortcut_to (nodes (ui_explorer.db v)) fid x = false ->
  exists n',
    dict_get x (nodes (ui_explorer.db
                         (ui_explorer._remove_shortcut_for_target v fid)))
    = Some n'
    /\ lost_only (shortcut_to (nodes (ui_explorer.db v)) fid) n n'.
Proof.
  intros Hx Hs. unfold ui_explorer._remove_shortcut_for_target.
  destruct (dict_get (favorites_root_id _) _) as [fav|] eqn:F;
    [|exists n; split; [exact Hx|apply lost_only_refl]].
  destruct (negb _); [exists n; split; [exact Hx|apply lost_only_refl]|].
  simpl. rewrite remove_first_find.
  destruct (find _ _) as [cid|] eqn:Fd;
    [|exists n; split; [exact Hx|apply lost_only_refl]].
  destruct (find_some _ _ Fd) as [Hin Hc].
  rewrite dict_get_pop, dict_get_set.
  destruct (String.eqb cid x) eqn:E1.
  { apply String.eqb_eq in E1. subst x. congruence. }
  destruct (String.eqb (favorites_root_id (ui_explorer.db v)) x) eqn:E2.
  - apply String.eqb_eq in E2. subst x. assert (n = fav) by congruence. subst n.
    eexists. split; [reflexivity|]. repeat split; simpl.
    + apply list_remove_incl.
    + intros c Hc' Hd. apply list_remove_In_ne; auto. congruence.
  - exists n. split; [exact Hx|apply lost_only_refl].
Qed.

Lemma deletion_start v key :
  nodes (ui_explorer.db
           (match ui_explorer._find_parent_folder (nodes (ui_explorer.db v)) key with
            | Some (pkey, p) =>
                ui_explorer.with_nodes v
                  (dict_set pkey
                     (set_children p
                        (filter (fun cid => negb (String.eqb cid key))
                                (children p)))
                     (nodes (ui_explorer.db v)))
            | None => v
            end))
  = unparented (nodes (ui_explorer.db v)) key.
Proof.
  unfold unparented.
  destruct (ui_explorer._find_parent_folder _ key) as [[pkey p]|]; reflexivity.
Qed.

Lemma delete_frame (v v' : ui_explorer.ExplorerView)
    (rid lid : option string) (key : string) (node : Node) (fuel : nat)
    (confirm : bool) :
  let ns := nodes (ui_explorer.db v) in
  NoDup (dict_keys ns) ->
  ui_explorer._get_selected_node_anywhere v rid lid = Some (key, node) ->
  id node = key ->
  ui_explorer.delete_selected fuel v rid lid confirm = Some v' ->
  quickcopy_root_id (ui_explorer.db v') = quickcopy_root_id (ui_explorer.db v)
  /\ favorites_root_id (ui_explorer.db v') = favorites_root_id (ui_explorer.db v)
  /\ (forall x, dict_get x ns = None ->
                dict_get x (nodes (ui_explorer.db v')) = None)
  /\ (forall x n,
        dict_get x ns = Some n -> ~ reach ns key x ->
        shortcut_to ns key x = false ->
        exists n', dict_get x (nodes (ui_explorer.db v')) = Some n'
                   /\ lost_only (dropped ns key) n n').
Proof.
  intros ns Hnd Hsel Hid.
  assert (Same : quickcopy_root_id (ui_explorer.db v) = quickcopy_root_id (ui_explorer.db v)
            /\ favorites_root_id (ui_explorer.db v) = favorites_root_id (ui_explorer.db v)
            /\ (forall x, dict_get x ns = None -> dict_get x ns = None)
            /\ (forall x n,
                  dict_get x ns = Some n -> ~ reach ns key x ->
                  shortcut_to ns key x = false ->
                  exists n', dict_get x ns = Some n'
                             /\ lost_only (dropped ns key) n n')).
  { repeat split; auto. intros x n Hx _ _. exists n. split; auto.
    apply lost_only_refl. }
  unfold ui_explorer.delete_selected. rewrite Hsel, Hid.
  destruct (ui_explorer.is_root _ key); [intros [= <-]; exact Same|].
  assert (None1 : forall x, dict_get x ns = None ->
                            dict_get x (unparented ns key) = None).
  { intros x Hx. destruct (dict_get x (unparented ns key)) as [n1|] eqn:G; auto.
    destruct (unparented_subgraph ns key Hnd _ _ G) as (n0 & G0 & _).
    congruence. }
  assert (Finish : forall d2 ns2 cur,
            quickcopy_root_id d2 = quickcopy_root_id (ui_explorer.db v) ->
            favorites_root_id d2 = favorites_root_id (ui_explorer.db v) ->
            (forall x, dict_get x ns = None -> dict_get x ns2 = None) ->
            (forall x n, dict_get x ns = Some n -> ~ reach ns key x ->
                         shortcut_to ns key x = false ->
                         exists n', dict_get x ns2 = Some n'
                                    /\ lost_only (dropped ns key) n n') ->
            subgraph ns2 ns ->
            match ui_explorer._delete_subtree fuel ns2 key with
            | Some ns3 =>
                Some {| ui_explorer.db := set_nodes d2 ns3;
                        ui_explorer.current_folder_id := cur |}
            | None => None
            end = Some v' ->
            quickcopy_root_id (ui_explorer.db v') = quickcopy_root_id (ui_explorer.db v)
            /\ favorites_root_id (ui_explorer.db v') = favorites_root_id (ui_explorer.db v)
            /\ (forall x, dict_get x ns = None ->
                          dict_get x (nodes (ui_explorer.db v')) = None)
            /\ (forall x n,
                  dict_get x ns = Some n -> ~ reach ns key x ->
                  shortcut_to ns key x = false ->
                  exists n', dict_get x (nodes (ui_explorer.db v')) = Some n'
                             /\ lost_only (dropped ns key) n n')).
  { intros d2 ns2 cur Q2 F2 N2 K2 S2.
    destruct (ui_explorer._delete_subtree fuel ns2 key) as [ns3|] eqn:D;
      [|discriminate].
    intros [= <-]. cbn.
    destruct (delete_subtree_spec _ _ _ _ D) as [[Del _] _].
    split; [exact Q2|]. split; [exact F2|]. split.
    - intros x Hx. destruct (Del x) as [E|E]; [|exact E].
      rewrite E. now apply N2.
    - intros x n Hx Hr Hs.
      destruct (delete_subtree_only_reach _ _ _ _ D x) as [E|R].
      + rewrite E. now apply K2.
      + exfalso. apply Hr. exact (reach_subgraph _ _ _ _ S2 R). }
  assert (K1 : forall x n, dict_get x ns = Some n ->
                 exists n', dict_get x (unparented ns key) = Some n'
                            /\ lost_only (dropped ns key) n n').
  { intros x n Hx.
    destruct (unparented_lost ns key x n Hnd Hx) as (n1 & G1 & L1).
    exists n1. split; [exact G1|].
    eapply lost_only_weaken; [|exact L1].
    unfold dropped. intros c Hc. now apply orb_false_iff in Hc. }
  set (v1 := match ui_explorer._find_parent_folder ns key with
             | Some (pkey, p) =>
                 ui_explorer.with_nodes v
                   (dict_set pkey
                      (set_children p
                         (filter (fun cid => negb (String.eqb cid key))
                                 (children p))) ns)
             | None => v
             end).
  assert (E1 : nodes (ui_explorer.db v1) = unparented ns key)
    by apply deletion_start.
  assert (Q1 : quickcopy_root_id (ui_explorer.db v1)
               = quickcopy_root_id (ui_explorer.db v)
               /\ favorites_root_id (ui_explorer.db v1)
                  = favorites_root_id (ui_explorer.db v)).
  { unfold v1. destruct (ui_explorer._find_parent_folder ns key) as [[pkey p]|];
      split; reflexivity. }
  destruct (type node) eqn:T.
  - (* a folder *)
    destruct confirm; cbn [negb]; [|intros [= <-]; exact Same].
    fold ns. fold v1. rewrite E1.
    apply Finish; try tauto.
    + intros x n Hx _ _. now apply K1.
    + now apply unparented_subgraph.
  - (* a file *)
    destruct confirm; cbn [negb]; [|intros [= <-]; exact Same].
    fold ns. fold v1.
    assert (R1 : quickcopy_root_id
                   (ui_explorer.db (ui_explorer._remove_shortcut_for_target v1 key))
                 = quickcopy_root_id (ui_explorer.db v)
                 /\ favorites_root_id
                      (ui_explorer.db (ui_explorer._remove_shortcut_for_target v1 key))
                    = favorites_root_id (ui_explorer.db v)).
    { unfold ui_explorer._remove_shortcut_for_target.
      destruct (dict_get _ _); [|exact Q1].
      destruct (negb _); [exact Q1|]. exact Q1. }
    apply Finish; try tauto.
    + intros x Hx.
      destruct (dict_get x (nodes (ui_explorer.db
                  (ui_explorer._remove_shortcut_for_target v1 key))))
        as [n2|] eqn:G; auto.
      destruct (remove_for_target_subgraph v1 key _ _ G) as (n0 & G0 & _).
      rewrite E1, (None1 x Hx) in G0. discriminate.
    + intros x n Hx _ Hs.
      destruct (K1 x n Hx) as (n1 & G1 & L1).
      destruct (remove_for_target_lost v1 key x n1) as (n2 & G2 & L2).
      * now rewrite E1.
      * rewrite E1. now rewrite shortcut_to_unparented.
      * exists n2. split; [exact G2|].
        eapply lost_only_trans; [exact L1|].
        eapply lost_only_weaken; [|exact L2].
        intros c Hc. rewrite E1, shortcut_to_unparented by exact Hnd.
        unfold dropped in Hc. now apply orb_false_iff in Hc.
    + eapply subgraph_trans; [apply remove_for_target_subgraph|].
      rewrite E1. now apply unparented_subgraph.
  - (* a shortcut *)
    destruct confirm; cbn [negb]; [|intros [= <-]; exact Same].
    intros [= <-]. unfold ui_explorer._remove_shortcut. cbn. fold ns.
    split; [reflexivity|]. split; [reflexivity|].
    assert (G : forall x,
              dict_get x
                (dict_pop key
                   match dict_get (favorites_root_id (ui_explorer.db v)) ns with
                   | Some fav_root =>
                       if NodeType_eqb (type fav_root) folder
                       then dict_set (favorites_root_id (ui_explorer.db v))
                              (set_children fav_root
                                 (filter (fun c => negb (String.eqb c key))
                                         (children fav_root))) ns
                       else ns
                   | None => ns
                   end)
              = if String.eqb key x then None
                else match dict_get x ns with
                     | Some n =>
                         if String.eqb (favorites_root_id (ui_explorer.db v)) x
                            && NodeType_eqb (type n) folder
                         then Some (set_children n
                                      (filter (fun c => negb (String.eqb c key))
                                              (children n)))
                         else Some n
                     | None => None
                     end).
    { intros x. rewrite dict_get_pop. destruct (String.eqb key x); auto.
      destruct (dict_get (favorites_root_id (ui_explorer.db v)) ns)
        as [fav|] eqn:F.
      - destruct (NodeType_eqb (type fav) folder) eqn:Tf.
        + rewrite dict_get_set.
          destruct (String.eqb (favorites_root_id (ui_explorer.db v)) x) eqn:E.
          * apply String.eqb_eq in E. subst x. now rewrite F, Tf.
          * now destruct (dict_get x ns).
        + destruct (dict_get x ns) as [n|] eqn:X; auto.
          destruct (String.eqb (favorites_root_id (ui_explorer.db v)) x) eqn:E;
            auto.
          apply String.eqb_eq in E. subst x.
          assert (n = fav) by congruence. subst n. now rewrite Tf.
      - destruct (dict_get x ns) as [n|] eqn:X; auto.
        destruct (String.eqb (favorites_root_id (ui_explorer.db v)) x) eqn:E;
          auto.
        apply String.eqb_eq in E. subst x. congruence. }
    split.
    + intros x Hx. rewrite G, Hx. now destruct (String.eqb key x).
    + intros x n Hx Hr _. rewrite G, Hx.
      destruct (String.eqb key x) eqn:E.
      { apply String.eqb_eq in E. subst x. exfalso. apply Hr, reach_here. }
      destruct (_ && _).
      * eexists. split; [reflexivity|]. repeat split; simpl.
        -- intros c Hc. now apply filter_neq_In in Hc.
        -- intros c Hc Hd. apply filter_neq_In. split; auto.
           unfold dropped in Hd. apply orb_false_iff in Hd.
           now apply String.eqb_neq.
      * exists n. split; [reflexivity|apply lost_only_refl].
Qed.

(** X9. A deletion takes nothing else away.  After [delete_selected],
    whatever the answer to the prompt, the roots are the same, no key is
    new, and every node that is neither in the subtree of the deleted node
    nor a favourite shortcut to it is still there with its id, type, name,
    content and target; its children are the ones it had, less the deleted
    node and favourite shortcuts to it. *)
Theorem delete_keeps_the_rest (v v' : ui_explorer.ExplorerView)
    (rid lid : option string) (key : string) (node : Node) (fuel : nat)
    (confirm : bool) :
  let ns := nodes (ui_explorer.db v) in
  NoDup (dict_keys ns) ->
  ui_explorer._get_selected_node_anywhere v rid lid = Some (key, node) ->
  id node = key ->
  ui_explorer.delete_selected fuel v rid lid confirm = Some v' ->
  quickcopy_root_id (ui_explorer.db v') = quickcopy_root_id (ui_explorer.db v)
  /\ favorites_root_id (ui_explorer.db v') = favorites_root_id (ui_explorer.db v)
  /\ (forall x, dict_get x ns = None ->
                dict_get x (nodes (ui_explorer.db v')) = None)
  /\ (forall x n,
        dict_get x ns = Some n -> ~ reach ns key x ->
        shortcut_to ns key x = false ->
        exists n', dict_get x (nodes (ui_explorer.db v')) = Some n'
                   /\ lost_only (dropped ns key) n n').
Proof. exact (delete_frame v v' rid lid key node fuel confirm). Qed.

Lemma reach_height ns (h : string -> nat) :
  (forall k n c, dict_get k ns = Some n -> type n = folder ->
                 In c (children n) -> h c < h k) ->
  forall c d, reach ns c d -> h d <= h c.
Proof.
  intros Hh c d R. induction R as [k|k n c d Hk Ht Hc R IH]; [lia|].
  specialize (Hh k n c Hk Ht Hc). lia.
Qed.

Lemma sample_db_heights k n c :
  dict_get k (nodes sample_db) = Some n -> type n = folder ->
  In c (children n) -> example_height c < example_height k.
Proof.
  intros H T I. entries H; try discriminate; members I; vm_compute; lia.
Qed.

Lemma delete_keeps_the_rest_witness :
  exists v' n',
    ui_explorer.delete_selected 6 sample_view (Some "d") None true = Some v'
    /\ dict_get "qc" (nodes (ui_explorer.db v')) = Some n'
    /\ lost_only (dropped (nodes sample_db) "d")
                 (folder_node "qc" "QuickCopy" ["d"]) n'.
Proof.
  destruct (ui_explorer.delete_selected 6 sample_view (Some "d") None true)
    as [v'|] eqn:D; [|exfalso; vm_compute in D; discriminate].
  destruct (delete_keeps_the_rest sample_view v' (Some "d") None "d"
              (folder_node "d" "Deeds" ["f"]) 6 true
              (proj1 sample_db_tree) eq_refl eq_refl D) as (_ & _ & _ & K).
  destruct (K "qc" (folder_node "qc" "QuickCopy" ["d"])) as (n' & G & L);
    [reflexivity| |reflexivity|].
  - intros R. apply (reach_height _ example_height sample_db_heights) in R.
    vm_compute in R. lia.
  - exists v', n'. split; [reflexivity|]. split; assumption.
Defined.





(** ** Deleting a favourited file *)

Lemma filter_filter_le {A} (f g : A -> bool) l :
  length (filter f (filter g l)) <= length (filter f l).
Proof.
  induction l as [|x r IH]; simpl; auto.
  destruct (g x); simpl; destruct (f x); simpl; lia.
Qed.

Lemma unparented_count db key fid :
  NoDup (dict_keys (nodes db)) ->
  shortcut_count db fid <= 1 ->
  shortcut_count (set_nodes db (unparented (nodes db) key)) fid <= 1.
Proof.
  intros Hnd H. unfold shortcut_count in *. cbn [nodes set_nodes favorites_root_id].
  destruct (dict_get (favorites_root_id db) (unparented (nodes db) key))
    as [fav1|] eqn:F1; [|lia].
  destruct (unparented_subgraph _ key Hnd _ _ F1) as (fav & F & _).
  rewrite F in H.
  assert (E : forall c, shortcut_to (unparented (nodes db) key) fid c
                        = shortcut_to (nodes db) fid c)
    by (intros c; now apply shortcut_to_unparented).
  rewrite (filter_ext _ _ E).
  revert F1. unfold unparented.
  destruct (ui_explorer._find_parent_folder (nodes db) key) as [[pkey p]|] eqn:P.
  - destruct (find_parent_Some _ _ _ _ Hnd P) as (G & _).
    rewrite dict_get_set.
    destruct (String.eqb pkey (favorites_root_id db)) eqn:E1.
    + apply String.eqb_eq in E1. subst pkey. intros [= <-]. simpl.
      assert (p = fav) by congruence. subst p.
      etransitivity; [apply filter_filter_le|exact H].
    + intros F1. assert (fav1 = fav) by congruence. now subst.
  - intros F1. assert (fav1 = fav) by congruence. now subst.
Qed.

Lemma remove_for_target_clears v fid :
  shortcut_count (ui_explorer.db v) fid <= 1 ->
  favorited (ui_explorer.db (ui_explorer._remove_shortcut_for_target v fid)) fid
  = false.
Proof.
  intros H. unfold shortcut_count in H.
  unfold ui_explorer._remove_shortcut_for_target.
  destruct (dict_get (favorites_root_id (ui_explorer.db v))
                     (nodes (ui_explorer.db v))) as [fav|] eqn:F.
  2:{ unfold favorited. now rewrite F. }
  destruct (NodeType_eqb (type fav) folder) eqn:T; cbn [negb].
  2:{ unfold favorited. now rewrite F, T. }
  apply NodeType_eqb_eq in T.
  unfold favorited. cbn [ui_explorer.db ui_explorer.with_nodes set_nodes
                         nodes favorites_root_id].
  rewrite remove_first_find.
  destruct (find _ (children fav)) as [cid|] eqn:Fd.
  - erewrite removal_fav by eauto. cbn [type set_children children].
    rewrite T. cbn [NodeType_eqb negb].
    destruct (existsb _ _) eqn:E; [|reflexivity].
    apply existsb_exists in E. destruct E as (c & Hc & Sc).
    apply list_remove_incl in Hc.
    assert (N : shortcut_to
                  (dict_pop cid
                     (dict_set (favorites_root_id (ui_explorer.db v))
                        (set_children fav
                           (ui_explorer.list_remove cid (children fav)))
                        (nodes (ui_explorer.db v)))) fid c = false)
      by (eapply removal_none; eauto).
    congruence.
  - rewrite F, T. cbn [NodeType_eqb negb].
    destruct (existsb _ _) eqn:E; [|reflexivity].
    apply existsb_find in E. destruct E as (a & Ha). congruence.
Qed.

Lemma favorited_pop db fid k :
  k <> favorites_root_id db ->
  favorited db fid = false ->
  favorited (set_nodes db (dict_pop k (nodes db))) fid = false.
Proof.
  intros Hk H. unfold favorited in *.
  cbn [nodes set_nodes favorites_root_id].
  rewrite dict_get_pop_ne by exact Hk.
  destruct (dict_get (favorites_root_id db) (nodes db)) as [fav|]; auto.
  destruct (negb _); auto.
  destruct (existsb (shortcut_to (dict_pop k (nodes db)) fid) (children fav))
    eqn:E; auto.
  apply existsb_exists in E. destruct E as (c & Hc & Sc).
  assert (S : shortcut_to (nodes db) fid c = true).
  { unfold shortcut_to in *. rewrite dict_get_pop in Sc.
    destruct (String.eqb k c); [discriminate|exact Sc]. }
  assert (X : existsb (shortcut_to (nodes db) fid) (children fav) = true)
    by (apply existsb_exists; eauto).
  congruence.
Qed.

Lemma remove_for_target_roots v fid :
  quickcopy_root_id (ui_explorer.db (ui_explorer._remove_shortcut_for_target v fid))
  = quickcopy_root_id (ui_explorer.db v)
  /\ favorites_root_id (ui_explorer.db (ui_explorer._remove_shortcut_for_target v fid))
     = favorites_root_id (ui_explorer.db v).
Proof.
  unfold ui_explorer._remove_shortcut_for_target.
  destruct (dict_get _ _); [|now split]. now destruct (negb _).
Qed.

(** X11. Deleting a file takes its favourite with it: for a non-root file
    stored under its own id to which the Favorites folder lists at most
    one shortcut, [delete_selected] goes through (one level of recursion
    is enough), the file is gone from the store and it is no longer
    favourited: no child of the Favorites folder is a shortcut to it. *)
Theorem delete_file_unfavourites (v : ui_explorer.ExplorerView)
    (rid lid : option string) (key : string) (node : Node) (fuel : nat) :
  let ns := nodes (ui_explorer.db v) in
  NoDup (dict_keys ns) ->
  ui_explorer._get_selected_node_anywhere v rid lid = Some (key, node) ->
  id node = key ->
  type node = file ->
  ui_explorer.is_root (ui_explorer.db v) key = false ->
  shortcut_count (ui_explorer.db v) key <= 1 ->
  exists v',
    ui_explorer.delete_selected (S fuel) v rid lid true = Some v'
    /\ dict_get key (nodes (ui_explorer.db v')) = None
    /\ favorited (ui_explorer.db v') key = false.
Proof.
  intros ns Hnd Hsel Hid Hty Hroot Hone.
  pose proof (selected_get _ _ _ _ _ Hsel) as Hget. fold ns in Hget.
  unfold ui_explorer.delete_selected.
  rewrite Hsel, Hid, Hroot, Hty. cbn [negb NodeType_eqb andb]. fold ns.
  set (v1 := match ui_explorer._find_parent_folder ns key with
             | Some (pkey, p) =>
                 ui_explorer.with_nodes v
                   (dict_set pkey
                      (set_children p
                         (filter (fun cid => negb (String.eqb cid key))
                                 (children p))) ns)
             | None => v
             end).
  assert (E1 : ui_explorer.db v1 = set_nodes (ui_explorer.db v) (unparented ns key)).
  { unfold v1, unparented.
    destruct (ui_explorer._find_parent_folder ns key) as [[pkey p]|];
      [reflexivity|]. now destruct (ui_explorer.db v). }
  set (v2 := ui_explorer._remove_shortcut_for_target v1 key).
  destruct (remove_for_target_roots v1 key) as [_ Rf]. fold v2 in Rf.
  rewrite E1 in Rf. cbn [favorites_root_id set_nodes] in Rf.
  assert (C2 : favorited (ui_explorer.db v2) key = false).
  { apply remove_for_target_clears. rewrite E1.
    now apply unparented_count. }
  assert (Hfk : key <> favorites_root_id (ui_explorer.db v)).
  { unfold ui_explorer.is_root in Hroot. apply orb_false_iff in Hroot.
    now apply String.eqb_neq. }
  assert (T2 : forall n2, dict_get key (nodes (ui_explorer.db v2)) = Some n2 ->
                          type n2 = file).
  { intros n2 G.
    destruct (remove_for_target_subgraph v1 key _ _ G) as (n1 & G1 & T1 & _).
    rewrite E1 in G1. cbn [nodes set_nodes] in G1.
    destruct (unparented_subgraph ns key Hnd _ _ G1) as (n0 & G0 & T0 & _).
    assert (n0 = node) by congruence. subst n0. congruence. }
  cbn [ui_explorer._delete_subtree].
  destruct (dict_get key (nodes (ui_explorer.db v2))) as [n2|] eqn:G2.
  - rewrite (T2 n2 eq_refl). eexists. split; [reflexivity|].
    cbn [ui_explorer.db nodes set_nodes].
    split; [apply dict_get_pop_eq|].
    assert (P := favorited_pop (ui_explorer.db v2) key key).
    rewrite Rf in P. specialize (P Hfk C2).
    unfold favorited in *. cbn [nodes set_nodes favorites_root_id] in *.
    exact P.
  - eexists. split; [reflexivity|].
    cbn [ui_explorer.db nodes set_nodes]. split; [exact G2|].
    unfold favorited in *. cbn [nodes set_nodes favorites_root_id] in *.
    exact C2.
Qed.

Lemma delete_file_unfavourites_witness :
  favorited sample_db "f" = true
  /\ exists v',
       ui_explorer.delete_selected 1 sample_view (Some "f") None true = Some v'
       /\ dict_get "f" (nodes (ui_explorer.db v')) = None
       /\ favorited (ui_explorer.db v') "f" = false.
Proof.
  split; [reflexivity|].
  apply (delete_file_unfavourites sample_view (Some "f") None "f"
           (file_node "f" "Affidavit") 0);
    [ exact (proj1 sample_db_tree) | reflexivity | reflexivity | reflexivity
    | reflexivity | vm_compute; lia ].
Defined.

(** ** Opening *)


(** X13. Deleting a folder does not clean the favourites of the files in
    it.  In a store satisfying the tree invariant, after the deletion of a
    non-root folder a shortcut outside the folder whose target was inside
    it is still in the store, its target is gone, and opening the
    shortcut gives the "Missing target" error. *)
Theorem deleted_folder_leaves_dangling_favourite
    (v : ui_explorer.ExplorerView) (rid lid lid' : option string)
    (key : string) (node : Node) (fuel : nat) (s f : string) (sc : Node) :
  let ns := nodes (ui_explorer.db v) in
  NoDup (dict_keys ns) -> unique_parent ns -> acyclic ns ->
  ui_explorer._get_selected_node_anywhere v rid lid = Some (key, node) ->
  id node = key -> type node = folder ->
  ui_explorer.is_root (ui_explorer.db v) key = false ->
  length ns < fuel ->
  dict_get s ns = Some sc -> type sc = shortcut -> target_id sc = Some f ->
  s <> "" -> f <> key ->
  reach ns key f -> ~ reach ns key s ->
  exists v' sc',
    ui_explorer.delete_selected fuel v rid lid true = Some v'
    /\ dict_get f (nodes (ui_explorer.db v')) = None
    /\ dict_get s (nodes (ui_explorer.db v')) = Some sc'
    /\ type sc' = shortcut /\ target_id sc' = Some f
    /\ ui_explorer.open_selected v' (Some s) lid'
       = (v', ui_explorer.MissingTarget).
Proof.
  intros ns Hnd Hup Hac Hsel Hid Hty Hroot Hfuel Hs Ts Tg Hne Hfk Rf Rs.
  pose proof (selected_get _ _ _ _ _ Hsel) as Hget. fold ns in Hget.
  assert (Ex : exists v',
            ui_explorer.delete_selected fuel v rid lid true = Some v'
            /\ deleted_clean ns (nodes (ui_explorer.db v')) key).
  { unfold ui_explorer.delete_selected.
    rewrite Hsel, Hid, Hroot, Hty. cbn [negb]. fold ns.
    pose proof (deletion_start v key) as E. fold ns in E.
    destruct (delete_finish ns (unparented ns key) key node fuel
                Hnd Hup Hac Hget) as (ns' & D & C);
      [apply subgraph_refl | reflexivity | exact Hfuel |].
    rewrite E, D. eexists. split; [reflexivity|exact C]. }
  destruct Ex as (v' & D & [Gone _]).
  destruct (delete_frame v v' rid lid key node fuel true Hnd Hsel Hid D)
    as (_ & _ & _ & Keep).
  destruct (Keep s sc Hs Rs) as (sc' & Gs & (_ & Lt & _ & _ & Ltg & _)).
  { unfold shortcut_to. fold ns. rewrite Hs, Ts, Tg. simpl.
    now apply String.eqb_neq. }
  exists v', sc'. split; [exact D|]. split; [now apply Gone|].
  split; [exact Gs|]. split; [congruence|]. split; [congruence|].
  unfold ui_explorer.open_selected, ui_explorer._get_selected_node_anywhere.
  rewrite (proj2 (String.eqb_neq s "") Hne), Gs.
  replace (type sc') with shortcut by congruence.
  replace (target_id sc') with (Some f) by congruence.
  rewrite (Gone f Rf). now destruct (String.eqb f "").
Qed.

Lemma deleted_folder_leaves_dangling_favourite_witness :
  exists v' sc',
    ui_explorer.delete_selected 6 sample_view (Some "d") None true = Some v'
    /\ dict_get "f" (nodes (ui_explorer.db v')) = None
    /\ dict_get "s" (nodes (ui_explorer.db v')) = Some sc'
    /\ type sc' = shortcut /\ target_id sc' = Some "f"
    /\ ui_explorer.open_selected v' (Some "s") None
       = (v', ui_explorer.MissingTarget).
Proof.
  destruct sample_db_tree as (Hnd & Hup & Hac).
  apply (deleted_folder_leaves_dangling_favourite sample_view (Some "d") None
           None "d" (folder_node "d" "Deeds" ["f"]) 6 "s" "f"
           (shortcut_node "s" "Affidavit" "f"));
    [ exact Hnd | exact Hup | exact Hac | reflexivity | reflexivity
    | reflexivity | reflexivity | simpl; lia | reflexivity | reflexivity
    | reflexivity | discriminate | discriminate | | ].
  - eapply reach_down; [reflexivity|reflexivity|now left|apply reach_here].
  - intros R. apply reach_inv in R. destruct R as [R|(n & c & G & T & I & R)];
      [discriminate|].
    injection G as <-. destruct I as [<-|[]].
    apply reach_inv in R. destruct R as [R|(n' & c' & G' & T' & _)];
      [discriminate|]. injection G' as <-. discriminate.
Defined.

(** ** Merging the favourites of an imported store *)



(** ** Single-subtree bundles *)

(** X15. [import_bundle_into_folder] refuses without touching anything:
    whenever it answers (False, message) -- the target is not a folder of
    the store, or the bundle lacks its nodes or its root -- the store is
    the one it was given and no identifier has been drawn. *)
Theorem import_refusal_is_clean (db db' : Database) (bundle : dict json)
    (target msg : string) (g g' : idgen) :
  bundle_io.import_bundle_into_folder db bundle target g
  = (Ok (false, msg), db', g') ->
  db' = db /\ g' = g.
Proof.
  unfold bundle_io.import_bundle_into_folder.
  destruct (negb _); [now intros [= _ <- <-]|].
  destruct (negb (truthy _) || negb (truthy _)); [now intros [= _ <- <-]|].
  destruct (get_default "nodes" (JObj []) bundle) as [| | | | |items];
    try discriminate.
  destruct (get "bundle_root_id" bundle) as [| | |root| |];
    try discriminate; try (now intros [= _ <- <-]).
  destruct (negb (dict_mem root items)); [now intros [= _ <- <-]|].
  unfold gbind.
  destruct (bundle_io.remap_all (dict_keys items) [] g) as [m g1].
  destruct (bundle_io.import_nodes m items (nodes db)) as [[[]| |] ns];
    try discriminate.
  destruct (ui_explorer.subscript m root); try discriminate.
  destruct (ui_explorer.subscript ns target); discriminate.
Qed.

Lemma import_refusal_is_clean_witness :
  bundle_io.import_bundle_into_folder sample_db folder_bundle "f" uuids
  = (Ok (false, "Target folder is invalid."), sample_db, uuids).
Proof.
  destruct (bundle_io.import_bundle_into_folder sample_db folder_bundle "f" uuids)
    as [[r db'] g'] eqn:E.
  assert (R : r = Ok (false, "Target folder is invalid."))
    by (vm_compute in E; congruence).
  subst r.
  destruct (import_refusal_is_clean _ _ _ _ _ _ _ E) as [-> ->]. reflexivity.
Defined.

Lemma import_node_file id_map old d :
  get_default "type" (JStr "folder") d = JStr "file" ->
  forall n, bundle_io.import_node id_map old (JObj d) <> Ok n.
Proof.
  intros Ht n. unfold bundle_io.import_node. rewrite Ht.
  destruct (ui_explorer.subscript id_map old); simpl; try discriminate.
  destruct (bundle_io.import_children id_map d); simpl; try discriminate.
  destruct (match get_default "name" _ d with JStr s => Ok s | _ => Untyped end);
    simpl; discriminate.
Qed.

Lemma import_nodes_all_ok id_map items : forall ns ns',
  bundle_io.import_nodes id_map items ns = (Ok tt, ns') ->
  forall old d, In (old, d) items ->
                exists n, bundle_io.import_node id_map old d = Ok n.
Proof.
  induction items as [|[o d] r IH]; simpl; intros ns ns' H old d' Hin; [tauto|].
  destruct (bundle_io.import_node id_map o d) as [n| |] eqn:N;
    try discriminate.
  destruct Hin as [[= <- <-]|Hin]; [eauto|]. eapply IH; eauto.
Qed.

(** X16. A bundle that holds a file is never imported by
    [import_bundle_into_folder]: whatever the store and the target, the
    call does not answer (True, message) when some entry of the bundle
    has the type "file" (its import statement names [blank_rich], which
    models.py does not define). *)
Theorem import_with_file_entry_fails (db : Database) (bundle : dict json)
    (target : string) (g : idgen) (items : dict json) (k : string)
    (d : dict json) :
  get_default "nodes" (JObj []) bundle = JObj items ->
  In (k, JObj d) items ->
  get_default "type" (JStr "folder") d = JStr "file" ->
  forall msg,
    fst (fst (bundle_io.import_bundle_into_folder db bundle target g))
    <> Ok (true, msg).
Proof.
  intros Hitems Hin Hty msg.
  unfold bundle_io.import_bundle_into_folder.
  destruct (negb _); [discriminate|].
  destruct (negb (truthy _) || negb (truthy _)); [discriminate|].
  rewrite Hitems.
  destruct (get "bundle_root_id" bundle) as [| | |root| |];
    try discriminate.
  destruct (negb (dict_mem root items)); [discriminate|].
  unfold gbind.
  destruct (bundle_io.remap_all (dict_keys items) [] g) as [m g1].
  destruct (bundle_io.import_nodes m items (nodes db)) as [[[]| |] ns] eqn:N;
    try discriminate.
  exfalso.
  destruct (import_nodes_all_ok _ _ _ _ N k (JObj d) Hin) as (n & Hn).
  exact (import_node_file m k d Hty n Hn).
Qed.

Lemma import_with_file_entry_fails_witness :
  fst (fst (bundle_io.import_bundle_into_folder sample_db file_bundle "qc" uuids))
  <> Ok (true, "Imported.")
  /\ fst (fst (bundle_io.import_bundle_into_folder sample_db file_bundle "qc" uuids))
     = Raise ImportError.
Proof.
  split; [|reflexivity].
  apply (import_with_file_entry_fails sample_db file_bundle "qc" uuids
           [ raw_node "d" "folder" "Deeds" ["x"] [];
             raw_node "x" "file" "Lease" [] [] ]
           "x" [("id", JStr "x"); ("type", JStr "file"); ("name", JStr "Lease");
                ("children", JArr [])]);
    [reflexivity | simpl; auto | reflexivity].
Defined.




(** ** Export and content *)

Lemma export_entry_outcome n :
  (exists d, bundle_io.export_entry n = Ok d)
  \/ bundle_io.export_entry n = Raise AttributeError.
Proof.
  unfold bundle_io.export_entry.
  destruct (type n); simpl; eauto; destruct (content n); simpl; eauto.
Qed.

Lemma export_nodes_raises ns ids : forall out f n c,
  (forall d, In d ids -> dict_get d ns <> None) ->
  In f ids -> dict_get f ns = Some n -> type n <> folder ->
  content n = Some c ->
  bundle_io.export_nodes ns ids out = Raise AttributeError.
Proof.
  induction ids as [|i r IH]; simpl; intros out f n c Hall Hin Hf Ht Hc;
    [contradiction|].
  unfold ui_explorer.subscript.
  destruct (dict_get i ns) as [ni|] eqn:Gi;
    [|exfalso; apply (Hall i); auto].
  cbn [rbind].
  destruct (string_dec i f) as [->|Hne].
  - assert (ni = n) by congruence. subst ni.
    now rewrite (export_entry_file_raises n c Ht Hc).
  - destruct (export_entry_outcome ni) as [[d Hd]|Hr]; rewrite ?Hd, ?Hr;
      [|reflexivity].
    cbn [rbind]. destruct Hin as [E|Hin]; [contradiction|].
    eapply IH; eauto.
Qed.

(** X18. Export fails on content: in a store without cycles,
    [export_bundle] raises AttributeError for every root whose subtree
    holds a node that is not a folder and carries a content -- every file
    the application creates -- instead of returning a bundle (it reads
    [read_rich] and [copy_blocks], which [FileContent] does not have). *)
Theorem export_fails_on_file_content (db : Database) (root f : string)
    (n : Node) (c : FileContent) (fuel : nat) :
  acyclic (nodes db) -> length (nodes db) < fuel ->
  in_subtree (nodes db) root f ->
  dict_get f (nodes db) = Some n -> type n <> folder -> content n = Some c ->
  bundle_io.export_bundle fuel db root = Some (Raise AttributeError).
Proof.
  intros Hac Hfuel Hin Hf Ht Hc.
  destruct (export_collects_subtree db root fuel Hac Hfuel)
    as (ids & W & S & _).
  unfold bundle_io.export_bundle. rewrite W.
  rewrite (export_nodes_raises (nodes db) ids [] f n c); auto.
  - intros d Hd. apply S in Hd. now destruct Hd.
  - now apply S.
Qed.

Lemma export_fails_on_file_content_witness :
  bundle_io.export_bundle 6 sample_db "qc" = Some (Raise AttributeError).
Proof.
  apply (export_fails_on_file_content sample_db "qc" "f"
           (file_node "f" "Affidavit") FileContent_default 6);
    [ exact (proj2 (proj2 sample_db_tree)) | simpl; lia | | reflexivity
    | discriminate | reflexivity ].
  split; [|discriminate].
  eapply reach_down; [reflexivity|reflexivity|now left|].
  eapply reach_down; [reflexivity|reflexivity|now left|apply reach_here].
Defined.

(** X19. Export of a subtree without content: in a store without cycles,
    when every node of the subtree of the root is a folder or carries no
    content, [export_bundle] returns a bundle whose root is the given id
    and whose nodes are exactly the nodes of the subtree (the root and
    everything reached from it through the children of folders). *)
Theorem export_bundle_is_the_subtree (db : Database) (root : string)
    (fuel : nat) :
  acyclic (nodes db) -> length (nodes db) < fuel ->
  (forall d n, in_subtree (nodes db) root d ->
               dict_get d (nodes db) = Some n ->
               type n = folder \/ content n = None) ->
  exists out,
    bundle_io.export_bundle fuel db root
    = Some (Ok (JObj [("bundle_root_id", JStr root); ("nodes", JObj out)]))
    /\ forall k, In k (dict_keys out) <-> in_subtree (nodes db) root k.
Proof.
  intros Hac Hfuel Hc.
  destruct (export_collects_subtree db root fuel Hac Hfuel)
    as (ids & _ & S & _ & X).
  apply X. intros d n Hd. apply Hc. now apply S.
Qed.

Lemma export_bundle_is_the_subtree_witness :
  exists out,
    bundle_io.export_bundle 6 sample_db "fav"
    = Some (Ok (JObj [("bundle_root_id", JStr "fav"); ("nodes", JObj out)]))
    /\ forall k, In k (dict_keys out) <-> in_subtree (nodes sample_db) "fav" k.
Proof.
  apply (export_bundle_is_the_subtree sample_db "fav" 6);
    [exact (proj2 (proj2 sample_db_tree)) | simpl; lia |].
  intros d n [R _] G.
  apply reach_inv in R. destruct R as [->|(m & c & Gm & Tm & Im & R)].
  - injection G as <-. now left.
  - injection Gm as <-. destruct Im as [<-|[]].
    apply reach_inv in R. destruct R as [->|(m' & c' & Gm' & Tm' & _)].
    + injection G as <-. now right.
    + injection Gm' as <-. discriminate.
Defined.

(** ** What the whole-database import adds *)

Lemma remap_ids_injective mine keys0 g0 :
  (forall i j, used g0 <= i -> used g0 <= j -> draw g0 i = draw g0 j -> i = j) ->
  (forall i, used g0 <= i -> ~ In (draw g0 i) keys0) ->
  forall keys m g,
    draw g = draw g0 -> used g0 <= used g ->
    NoDup keys -> incl keys keys0 ->
    (forall k, In k keys -> dict_get k m = None) ->
    (forall o x, dict_get o m = Some x ->
       In o keys0
       /\ (x = o \/ exists i, used g0 <= i < used g /\ x = draw g0 i)) ->
    injective m ->
    injective (fst (ui_explorer.remap_ids mine keys m g)).
Proof.
  intros Hinj Hout keys.
  induction keys as [|k r IH]; intros m g Hd Hu Hnd Hincl Hnew Hm Him;
    simpl; [exact Him|].
  inversion Hnd as [|? ? Hk Hr]; subst.
  unfold gbind.
  assert (Hk0 : In k keys0) by (apply Hincl; now left).
  assert (Step : forall x g',
            draw g' = draw g0 -> used g0 <= used g' ->
            (x = k \/ exists i, used g0 <= i < used g' /\ x = draw g0 i) ->
            (forall o y, dict_get o m = Some y -> y <> x) ->
            (forall o y, dict_get o m = Some y ->
               In o keys0
               /\ (y = o \/ exists i, used g0 <= i < used g' /\ y = draw g0 i)) ->
            injective (fst (ui_explorer.remap_ids mine r (dict_set k x m) g'))).
  { intros x g' Hd' Hu' Hx Hne Hm'. apply IH; auto.
    - intros z Hz. apply Hincl. now right.
    - intros z Hz. rewrite dict_get_set_ne; [apply Hnew; now right|].
      intros ->. contradiction.
    - intros o y. rewrite dict_get_set.
      destruct (String.eqb k o) eqn:E.
      + apply String.eqb_eq in E. subst o. intros [= <-]. split; auto.
      + apply Hm'.
    - intros o1 o2 y. rewrite !dict_get_set.
      destruct (String.eqb k o1) eqn:E1, (String.eqb k o2) eqn:E2.
      + apply String.eqb_eq in E1, E2. congruence.
      + intros [= <-] H2. exfalso. exact (Hne _ _ H2 eq_refl).
      + intros H1 [= <-]. exfalso. exact (Hne _ _ H1 eq_refl).
      + apply Him. }
  destruct (dict_mem k mine) eqn:M.
  - unfold new_id. cbn [fst snd].
    apply Step; cbn [draw used]; auto.
    + right. exists (used g). rewrite Hd. split; [lia|reflexivity].
    + intros o y Hy E. destruct (Hm _ _ Hy) as [Ho [->|(i & Hi & ->)]].
      * apply (Hout (used g) Hu). rewrite <- Hd, <- E. exact Ho.
      * rewrite Hd in E. apply Hinj in E; lia.
    + intros o y Hy. destruct (Hm _ _ Hy) as [Ho [->|(i & Hi & ->)]];
        split; auto. right. exists i. split; [lia|reflexivity].
  - unfold gret. cbn [fst snd]. apply Step; auto.
    intros o y Hy E. subst y.
    destruct (Hm _ _ Hy) as [Ho [E|(i & Hi & E)]].
    + subst o. rewrite (Hnew k) in Hy; [discriminate|now left].
    + apply (Hout i); [lia|]. now rewrite <- E.
Qed.

Lemma insert_imported_spec id_map : forall items ns,
  injective id_map -> NoDup (dict_keys items) ->
  (forall old, In old (dict_keys items) -> dict_get old id_map <> None) ->
  exists ns1,
    ui_explorer.insert_imported id_map items ns = (Ok tt, ns1)
    /\ (forall old n new, In (old, n) items -> dict_get old id_map = Some new ->
          dict_get new ns1 = Some (set_children (imported id_map new n) []))
    /\ (forall k, (forall old, In old (dict_keys items) ->
                               dict_get old id_map <> Some k) ->
                  dict_get k ns1 = dict_get k ns).
Proof.
  induction items as [|[o nd] r IH]; intros ns Hinj Hnd Hall; simpl.
  - exists ns. split; [reflexivity|]. split; [intros ? ? ? []|reflexivity].
  - inversion Hnd as [|? ? Hk Hr]; subst.
    unfold ui_explorer.subscript.
    destruct (dict_get o id_map) as [nid|] eqn:Ko;
      [|exfalso; apply (Hall o); [now left|exact Ko]].
    cbn [id].
    destruct (IH (dict_set nid
                    {| id := nid; type := type nd; name := name nd;
                       children := []; content := content nd;
                       target_id := match type nd with
                                    | shortcut =>
                                        ui_explorer.remap_target id_map (target_id nd)
                                    | _ => target_id nd
                                    end |} ns) Hinj Hr)
      as (ns1 & E & A & B).
    { intros old Hin. apply Hall. now right. }
    exists ns1. split; [exact E|]. split.
    + intros old n new [[= <- <-]|Hin] Hg.
      * assert (new = nid) by congruence. subst new.
        rewrite B; [apply dict_get_set_eq|].
        intros old Hold Hg'. apply Hk.
        now rewrite (Hinj _ _ _ Ko Hg').
      * eapply A; eauto.
    + intros k Hnot. rewrite B.
      * apply dict_get_set_ne. intros ->. apply (Hnot o); [now left|exact Ko].
      * intros old Hin. apply Hnot. now right.
Qed.

Lemma relink_children_spec id_map : forall items ns,
  injective id_map -> NoDup (dict_keys items) ->
  (forall old n, In (old, n) items -> type n = folder ->
     exists new, dict_get old id_map = Some new /\ dict_get new ns <> None) ->
  exists ns2,
    ui_explorer.relink_children id_map items ns = (Ok tt, ns2)
    /\ (forall old n new obj,
          In (old, n) items -> type n = folder ->
          dict_get old id_map = Some new -> dict_get new ns = Some obj ->
          dict_get new ns2
          = Some (set_children obj
                    (ui_explorer.remap_children id_map (children n))))
    /\ (forall k, (forall old n, In (old, n) items -> type n = folder ->
                                 dict_get old id_map <> Some k) ->
                  dict_get k ns2 = dict_get k ns).
Proof.
  induction items as [|[o nd] r IH]; intros ns Hinj Hnd Hall; simpl.
  - exists ns. split; [reflexivity|]. split; [intros ? ? ? ? []|reflexivity].
  - inversion Hnd as [|? ? Hk Hr]; subst.
    destruct (type nd) eqn:T.
    + (* a folder *)
      destruct (Hall o nd (or_introl eq_refl) T) as (nid & Ko & Pn).
      unfold ui_explorer.subscript. rewrite Ko. cbn [rbind].
      destruct (dict_get nid ns) as [obj|] eqn:Gn; [|congruence].
      cbn [rbind].
      set (ns' := dict_set nid
                    (set_children obj
                       (ui_explorer.remap_children id_map (children nd))) ns).
      assert (Other : forall old n new, In (old, n) r ->
                dict_get old id_map = Some new -> new <> nid).
      { intros old n new Hin Hg ->. apply Hk.
        rewrite (Hinj _ _ _ Ko Hg).
        change old with (fst (old, n)). now apply in_map. }
      destruct (IH ns' Hinj Hr) as (ns2 & E & A & B).
      { intros old n Hin Tn.
        destruct (Hall old n (or_intror Hin) Tn) as (new & Hg & Pg).
        exists new. split; [exact Hg|].
        unfold ns'. rewrite dict_get_set_ne; [exact Pg|].
        intros ->. exact (Other _ _ _ Hin Hg eq_refl). }
      exists ns2. split; [exact E|]. split.
      * intros old n new obj' [[= <- <-]|Hin] Tn Hg Ho.
        -- assert (new = nid) by congruence. subst new.
           assert (obj' = obj) by congruence. subst obj'.
           rewrite B; [unfold ns'; apply dict_get_set_eq|].
           intros old n Hin _ Hg'. exact (Other _ _ _ Hin Hg' eq_refl).
        -- apply (A old n new obj'); auto.
           unfold ns'. rewrite dict_get_set_ne; [exact Ho|].
           intros ->. exact (Other _ _ _ Hin Hg eq_refl).
      * intros k Hnot. rewrite B.
        -- unfold ns'. apply dict_get_set_ne. intros ->.
           exact (Hnot o nd (or_introl eq_refl) T Ko).
        -- intros old n Hin. apply Hnot. now right.
    + destruct (IH ns Hinj Hr) as (ns2 & E & A & B).
      { intros old n Hin. apply Hall. now right. }
      exists ns2. split; [exact E|]. split.
      * intros old n new obj [[= <- <-]|Hin] Tn; [congruence|].
        now apply (A old n new obj).
      * intros k Hnot. apply B. intros old n Hin. apply Hnot. now right.
    + destruct (IH ns Hinj Hr) as (ns2 & E & A & B).
      { intros old n Hin. apply Hall. now right. }
      exists ns2. split; [exact E|]. split.
      * intros old n new obj [[= <- <-]|Hin] Tn; [congruence|].
        now apply (A old n new obj).
      * intros k Hnot. apply B. intros old n Hin. apply Hnot. now right.
Qed.

Lemma attach_quickcopy_spec v qc_in ns a :
  dict_get (ui_explorer.current_folder_id v) ns = Some a -> type a = folder ->
  exists ns3,
    ui_explorer.attach_quickcopy v qc_in ns = (Ok tt, ns3)
    /\ (forall k, k <> ui_explorer.current_folder_id v ->
                  dict_get k ns3 = dict_get k ns)
    /\ (forall k, dict_get k ns <> None -> dict_get k ns3 <> None).
Proof.
  intros Ha Ta. unfold ui_explorer.attach_quickcopy.
  rewrite Ha, Ta. cbn [NodeType_eqb].
  destruct qc_in as [q|]; [|exists ns; auto].
  destruct (negb (String.eqb q "") && dict_mem q ns); [|exists ns; auto].
  eexists. split; [reflexivity|]. split.
  - intros k Hk. apply dict_get_set_ne. congruence.
  - intros k Hk. rewrite dict_get_set.
    destruct (String.eqb _ k); [discriminate|exact Hk].
Qed.

Lemma merge_favorites_spec v fav_in ns :
  dict_get (favorites_root_id (ui_explorer.db v)) ns <> None ->
  exists ns4,
    ui_explorer.merge_favorites v fav_in ns = (Ok tt, ns4)
    /\ forall k, k <> favorites_root_id (ui_explorer.db v) ->
                 dict_get k ns4 = dict_get k ns.
Proof.
  intros Hf. unfold ui_explorer.merge_favorites, ui_explorer.subscript.
  destruct fav_in as [f|]; [|exists ns; auto].
  destruct (negb (String.eqb f "")); [|exists ns; auto].
  destruct (dict_get f ns) as [inc|]; [|exists ns; auto].
  destruct (dict_get (favorites_root_id (ui_explorer.db v)) ns) as [my|];
    [|congruence].
  eexists. split; [reflexivity|].
  intros k Hk. apply dict_get_set_ne. congruence.
Qed.

(** X22. The whole-database import copies every incoming node.  When
    the document is accepted, the current folder is a folder of the store
    and the Favorites root is in the store, [import_bundle] goes through,
    and every node of the incoming store is filed under the id the table
    gives it, with its type, name and content, its children translated
    through the table (those the table does not know dropped) and, for a
    shortcut, its target translated.  (uuid4 returns identifiers that are
    not empty, new to the store and to the incoming document.) *)
Theorem import_bundle_copies_every_node (v : ui_explorer.ExplorerView)
    (raw : json) (g g1 : idgen) (incoming : Database) (a : Node) :
  let mine := nodes (ui_explorer.db v) in
  let id_map :=
    fst (ui_explorer.remap_ids mine (dict_keys (nodes incoming)) [] g1) in
  db_from_dict raw g = (Ok incoming, g1) ->
  (forall i, used g <= i -> draw g i <> "") ->
  fresh_for g1 mine ->
  (forall i, used g1 <= i -> ~ In (draw g1 i) (dict_keys (nodes incoming))) ->
  dict_get (ui_explorer.current_folder_id v) mine = Some a -> type a = folder ->
  dict_get (favorites_root_id (ui_explorer.db v)) mine <> None ->
  exists v' g2,
    ui_explorer.import_bundle v raw g = (Ok tt, v', g2)
    /\ forall old n, dict_get old (nodes incoming) = Some n ->
         exists new,
           dict_get old id_map = Some new
           /\ dict_get new mine = None
           /\ dict_get new (nodes (ui_explorer.db v'))
              = Some (imported id_map new n).
Proof.
  intros mine id_map Hfrom Hne Hfr Hout Ha Ta Hfav.
  destruct (db_from_dict_loadable _ _ _ _ Hne Hfrom) as (Hnd & _).
  pose proof (remap_ids_spec mine (dict_keys (nodes incoming)) [] g1)
    as (_ & _ & I & O).
  fold id_map in I, O.
  assert (Hinj : injective id_map).
  { unfold id_map.
    apply (remap_ids_injective mine (dict_keys (nodes incoming)) g1);
      auto; try apply incl_refl.
    - exact (proj2 Hfr).
    - intros o x. discriminate.
    - intros o1 o2 x. discriminate. }
  assert (Hnew : forall old new, dict_get old id_map = Some new ->
                                 dict_get new mine = None).
  { intros old new Hg.
    destruct (in_dec string_dec old (dict_keys (nodes incoming))) as [Hin|Hn].
    - destruct (I old Hin) as (new' & Gn & C).
      assert (new' = new) by congruence. subst new'.
      destruct (dict_mem old mine) eqn:M.
      + destruct C as (i & Hi & ->). now apply fresh_not_key.
      + subst new. now apply dict_mem_false.
    - rewrite (O old Hn) in Hg. discriminate. }
  assert (Hall : forall old, In old (dict_keys (nodes incoming)) ->
                             dict_get old id_map <> None).
  { intros old Hin. destruct (I old Hin) as (new & Gn & _). congruence. }
  destruct (insert_imported_spec id_map (nodes incoming) mine Hinj Hnd Hall)
    as (ns1 & E1 & A1 & B1).
  destruct (relink_children_spec id_map (nodes incoming) ns1 Hinj Hnd)
    as (ns2 & E2 & A2 & B2).
  { intros old n Hin _.
    assert (Hk : In old (dict_keys (nodes incoming)))
      by (change old with (fst (old, n)); now apply in_map).
    destruct (I old Hk) as (new & Gn & _). exists new. split; [exact Gn|].
    rewrite (A1 old n new Hin Gn). discriminate. }
  assert (Mine : forall k, dict_get k mine <> None ->
                           dict_get k ns2 = dict_get k mine).
  { intros k Hk. rewrite B2, B1; auto.
    - intros old _ Hg. apply Hnew in Hg. contradiction.
    - intros old n _ _ Hg. apply Hnew in Hg. contradiction. }
  destruct (attach_quickcopy_spec v
              (dict_get (quickcopy_root_id incoming) id_map) ns2 a)
    as (ns3 & E3 & B3 & P3); auto.
  { rewrite Mine; [exact Ha|congruence]. }
  destruct (merge_favorites_spec v
              (dict_get (favorites_root_id incoming) id_map) ns3)
    as (ns4 & E4 & B4).
  { apply P3. now rewrite Mine. }
  unfold ui_explorer.import_bundle, gbind. rewrite Hfrom. fold mine.
  destruct (ui_explorer.remap_ids mine (dict_keys (nodes incoming)) [] g1)
    as [m g2] eqn:R.
  cbn [fst] in id_map. subst id_map.
  rewrite E1. cbn [ui_explorer.and_then]. rewrite E2.
  cbn [ui_explorer.and_then]. rewrite E3. cbn [ui_explorer.and_then].
  rewrite E4. unfold gret.
  eexists _, _. split; [reflexivity|].
  intros old n Hg. apply dict_get_In in Hg.
  assert (Hk : In old (dict_keys (nodes incoming)))
    by (change old with (fst (old, n)); now apply in_map).
  destruct (I old Hk) as (new & Gn & _).
  exists new. split; [exact Gn|]. split; [eauto|].
  cbn [ui_explorer.db ui_explorer.with_nodes nodes set_nodes].
  assert (Nm : dict_get new mine = None) by eauto.
  rewrite B4, B3 by congruence.
  pose proof (A1 old n new Hg Gn) as G1.
  destruct (type n) eqn:T.
  - rewrite (A2 old n new _ Hg T Gn G1). unfold imported. now rewrite T.
  - rewrite B2, G1; [unfold imported; now rewrite T|].
    intros old' n' Hin' T' Hg'.
    assert (old' = old) by (eapply Hinj; eauto). subst old'.
    assert (n' = n).
    { apply (dict_In_get _ _ _ Hnd) in Hin', Hg. congruence. }
    congruence.
  - rewrite B2, G1; [unfold imported; now rewrite T|].
    intros old' n' Hin' T' Hg'.
    assert (old' = old) by (eapply Hinj; eauto). subst old'.
    assert (n' = n).
    { apply (dict_In_get _ _ _ Hnd) in Hin', Hg. congruence. }
    congruence.
Qed.

Lemma import_bundle_copies_every_node_witness :
  exists v' g2,
    ui_explorer.import_bundle sample_view foreign_doc uuids = (Ok tt, v', g2)
    /\ dict_get "x" (nodes (ui_explorer.db v')) = Some (file_node "x" "Lease").
Proof.
  edestruct (import_bundle_copies_every_node sample_view foreign_doc uuids uuids)
    as (v' & g2 & E & C);
    [ vm_compute; reflexivity
    | intros i _; discriminate
    | apply (uuids_fresh _ 0); reflexivity
    | intros i _ H; simpl in H;
      repeat (destruct H as [H|H]; [discriminate|]); exact H
    | reflexivity | reflexivity | discriminate | ].
  exists v', g2. split; [exact E|].
  destruct (C "x" (file_node "x" "Lease") eq_refl) as (new & G & _ & H).
  vm_compute in G. injection G as <-. exact H.
Defined.

(** * The file view *)

Section FileViewFacts.
Import ui_file_view.

(** ** The copy sections of the file view *)

Lemma list_set_length {A} i (x : A) l :
  i < length l -> length (list_set i x l) = length l.
Proof.
  intros H. unfold list_set.
  rewrite length_app, length_firstn. cbn [length]. rewrite length_skipn. lia.
Qed.

Lemma list_set_nth {A} i (x : A) l j :
  i < length l ->
  nth_error (list_set i x l) j
  = if Nat.eqb j i then Some x else nth_error l j.
Proof.
  intros H. unfold list_set.
  destruct (Nat.eqb j i) eqn:E.
  - apply Nat.eqb_eq in E. subst j.
    rewrite nth_error_app2 by (rewrite length_firstn; lia).
    rewrite length_firstn. replace (i - Nat.min i (length l)) with 0 by lia.
    reflexivity.
  - apply Nat.eqb_neq in E. destruct (Nat.lt_ge_cases j i) as [L|G].
    + rewrite nth_error_app1 by (rewrite length_firstn; lia).
      rewrite nth_error_firstn.
      now rewrite (proj2 (Nat.ltb_lt j i) L).
    + rewrite nth_error_app2 by (rewrite length_firstn; lia).
      rewrite length_firstn. replace (Nat.min i (length l)) with i by lia.
      destruct (j - i) as [|m] eqn:M; [lia|]. cbn [nth_error].
      rewrite nth_error_skipn. f_equal. lia.
Qed.

Lemma create_rows_spec shown docs : forall ws,
  create_rows shown docs = Some ws ->
  length ws = length docs
  /\ forall k d, nth_error docs k = Some d ->
       exists w, shown d = Some w /\ nth_error ws k = Some w.
Proof.
  induction docs as [|doc r IH]; simpl; intros ws.
  - intros [= <-]. split; [reflexivity|]. intros [|k] d; discriminate.
  - destruct (shown doc) as [w|] eqn:S; [|discriminate].
    destruct (create_rows shown r) as [ws'|]; [|discriminate].
    intros [= <-]. destruct (IH ws' eq_refl) as [L N].
    split; [simpl; now rewrite L|].
    intros [|k] d; simpl.
    + intros [= <-]. eauto.
    + apply N.
Qed.

(** X20. Moving a copy section exchanges two sections and nothing else.
    In an unlocked view, for a position [idx] and a target position
    [idx + direction] both within the sections, [_move_block] (when the
    widgets are rebuilt without an exception) keeps the number of
    sections and shows, at each position, the document that sat at the
    exchanged position; the store, the open file and the lock are as
    before.  When the view is locked or the target position is outside
    the sections, nothing changes. *)
Theorem move_block_exchanges_two (shown : json -> option json)
    (fv : FileView) (idx direction : Z) :
  let n := length (block_widgets fv) in
  let new_idx := (idx + direction)%Z in
  (lock_var fv = true \/ (new_idx < 0)%Z \/ (Z.of_nat n <= new_idx)%Z ->
   _move_block shown fv idx direction = Some fv)
  /\ (lock_var fv = false ->
      (0 <= idx < Z.of_nat n)%Z -> (0 <= new_idx < Z.of_nat n)%Z ->
      forall fv', _move_block shown fv idx direction = Some fv' ->
        length (block_widgets fv') = n
        /\ db fv' = db fv /\ file_id fv' = file_id fv
        /\ lock_var fv' = lock_var fv
        /\ forall j d, nth_error (block_widgets fv) j = Some d ->
             exists w, shown d = Some w
               /\ nth_error (block_widgets fv')
                    (exchanged (Z.to_nat idx) (Z.to_nat new_idx) j) = Some w).
Proof.
  intros n new_idx. unfold _move_block. fold n new_idx. split.
  - intros [L|[L|L]]; [now rewrite L| |];
      destruct (lock_var fv); auto.
    + now rewrite (proj2 (Z.ltb_lt _ _) L).
    + rewrite (proj2 (Z.leb_le _ _) L). now rewrite orb_true_r.
  - intros L Hi Hn fv'. rewrite L.
    rewrite (proj2 (Z.ltb_ge _ _)) by lia.
    rewrite (proj2 (Z.leb_gt _ _)) by lia. cbn [orb].
    unfold py_pos.
    rewrite (proj2 (Z.leb_le 0 idx)) by lia.
    rewrite (proj2 (Z.ltb_lt idx _)) by lia. cbn [andb].
    set (i := Z.to_nat idx). set (i' := Z.to_nat new_idx).
    assert (Li : i < n) by (unfold i; lia).
    assert (Li' : i' < n) by (unfold i'; lia).
    destruct (nth_error (block_widgets fv) i') as [a|] eqn:A;
      [|apply nth_error_None in A; fold n in A; lia].
    destruct (nth_error (block_widgets fv) i) as [b|] eqn:B;
      [|apply nth_error_None in B; fold n in B; lia].
    set (docs1 := list_set i a (block_widgets fv)).
    set (docs2 := list_set i' b docs1).
    assert (L1 : length docs1 = n) by (apply list_set_length; exact Li).
    assert (L2 : length docs2 = n)
      by (unfold docs2; rewrite list_set_length; lia).
    unfold _rebuild_blocks.
    assert (E : match docs2 with [] => [blank_rich_doc] | _ :: _ => docs2 end
                = docs2).
    { destruct docs2; [simpl in L2; lia|reflexivity]. }
    rewrite E.
    destruct (create_rows shown docs2) as [ws|] eqn:C; [|discriminate].
    intros [= <-]. destruct (create_rows_spec _ _ _ C) as [Lw Nw].
    cbn [block_widgets with_blocks db file_id lock_var].
    split; [congruence|]. split; [reflexivity|]. split; [reflexivity|].
    split; [first [reflexivity | congruence]|].
    intros j d Hj. apply Nw.
    unfold docs2. rewrite list_set_nth by lia.
    unfold docs1. rewrite list_set_nth by exact Li.
    unfold exchanged.
    destruct (Nat.eqb j i) eqn:E1.
    + apply Nat.eqb_eq in E1. subst j. rewrite Nat.eqb_refl. congruence.
    + destruct (Nat.eqb j i') eqn:E2.
      * apply Nat.eqb_eq in E2. subst j.
        rewrite Nat.eqb_sym, E1, Nat.eqb_refl. congruence.
      * now rewrite E2, E1.
Qed.

Lemma move_block_exchanges_two_witness :
  let fv := {| db := sample_db; file_id := Some "f"; lock_var := false;
               block_widgets := [JStr "a"; JStr "b"; JStr "c"] |} in
  _move_block Some fv 2 (-1)
  = Some (with_blocks fv [JStr "a"; JStr "c"; JStr "b"])
  /\ exists w, nth_error [JStr "a"; JStr "c"; JStr "b"] (exchanged 2 1 2) = Some w.
Proof.
  intros fv. split; [reflexivity|].
  destruct (proj2 (move_block_exchanges_two Some fv 2 (-1)) eq_refl)
    with (fv' := with_blocks fv [JStr "a"; JStr "c"; JStr "b"])
    as (_ & _ & _ & _ & N);
    [simpl; lia | simpl; lia | reflexivity |].
  destruct (N 2 (JStr "c") eq_refl) as (w & _ & Hw).
  exists w. exact Hw.
Defined.

(** ** Saving *)

Lemma collect_meta e :
  load_meta (_collect_content_from_ui e)
  = (meta_locked e, meta_autosave e, meta_last_saved e).
Proof.
  unfold load_meta, _read_meta, _collect_content_from_ui, get_default.
  cbn [read_doc].
  unfold _LOCK_KEY, _AUTOSAVE_KEY, _LAST_SAVED_KEY.
  rewrite dict_get_set_eq.
  rewrite (dict_get_set_ne "_last_saved_ts" "_autosave") by discriminate.
  rewrite dict_get_set_eq.
  rewrite (dict_get_set_ne "_last_saved_ts" "_locked") by discriminate.
  rewrite (dict_get_set_ne "_autosave" "_locked") by discriminate.
  rewrite dict_get_set_eq. cbn [truthy].
  reflexivity.
Qed.

Lemma dict_set_nonempty {V} k (v : V) d : dict_set k v d <> [].
Proof. destruct d as [|[k' v'] r]; simpl; [|destruct (String.eqb k k')]; discriminate. Qed.

Lemma collect_content_ok e n :
  type n = file -> content_ok (set_content n (_collect_content_from_ui e)).
Proof.
  intros T. unfold content_ok. cbn [type content set_content]. rewrite T.
  unfold _collect_content_from_ui. cbn [read_doc copy_docs truthy]. split.
  - destruct (dict_set _LAST_SAVED_KEY _ _) eqn:E; [|reflexivity].
    now apply dict_set_nonempty in E.
  - destruct (block_widgets (view e)); discriminate.
Qed.

(** X21. What [_save] stores comes back.  For an open file [_save]
    replaces the content of that node and touches no other node; the
    stored content has at least one copy document, even when the view
    shows none; and when the node is written by [node_to_dict] and parsed
    again, the same node results, from whose content the view reads back
    the lock flag, the autosave flag and the time of this save. *)
Theorem save_then_reload_restores (e : Editor) (now fid : string)
    (node : Node) :
  file_id (view e) = Some fid -> fid <> "" ->
  dict_get fid (nodes (db (view e))) = Some node -> type node = file ->
  let e' := _save e now in
  exists c,
    dict_get fid (nodes (db (view e'))) = Some (set_content node c)
    /\ (forall k, k <> fid ->
          dict_get k (nodes (db (view e'))) = dict_get k (nodes (db (view e))))
    /\ copy_docs c <> []
    /\ (block_widgets (view e) <> [] -> copy_docs c = block_widgets (view e))
    /\ load_meta c = (meta_locked e, meta_autosave e, JStr now)
    /\ meta_last_saved e' = JStr now
    /\ match node_to_dict (set_content node c) with
       | JObj d => parse_node fid d = Ok (set_content node c)
       | _ => False
       end.
Proof.
  intros Hf Hne Hg Ht e'. unfold e', _save.
  rewrite Hf, (proj2 (String.eqb_neq fid "") Hne), Hg, Ht.
  cbn [NodeType_eqb negb].
  set (e1 := {| view := view e; read_text := read_text e;
                meta_locked := meta_locked e;
                meta_autosave := meta_autosave e;
                meta_last_saved := JStr now |}).
  exists (_collect_content_from_ui e1).
  cbn [view with_view db with_nodes nodes set_nodes meta_last_saved].
  split; [apply dict_get_set_eq|].
  split; [intros k Hk; now apply dict_get_set_ne|].
  split; [unfold _collect_content_from_ui; cbn [copy_docs view e1];
          destruct (block_widgets (view e)); discriminate|].
  split; [unfold _collect_content_from_ui; cbn [copy_docs view e1];
          destruct (block_widgets (view e)); [congruence|reflexivity]|].
  split; [apply (collect_meta e1)|]. split; [reflexivity|].
  apply parse_node_to_dict. now apply collect_content_ok.
Qed.

Lemma save_then_reload_restores_witness :
  let e := {| view := {| db := sample_db; file_id := Some "f";
                         lock_var := true; block_widgets := [] |};
              read_text := JObj [("text", JStr "I, the undersigned");
                                 ("tags", JArr [])];
              meta_locked := true; meta_autosave := false;
              meta_last_saved := JNull |} in
  exists c,
    dict_get "f" (nodes (db (view (_save e "2024-05-01T10:00:00"))))
    = Some (set_content (file_node "f" "Affidavit") c)
    /\ copy_docs c = [blank_rich_doc]
    /\ load_meta c = (true, false, JStr "2024-05-01T10:00:00").
Proof.
  intros e.
  destruct (save_then_reload_restores e "2024-05-01T10:00:00" "f"
              (file_node "f" "Affidavit"))
    as (c & H1 & _ & _ & _ & H5 & _);
    [reflexivity | discriminate | reflexivity | reflexivity |].
  exists c. split; [exact H1|]. split; [|exact H5].
  cbv in H1. injection H1 as <-. reflexivity.
Defined.

End FileViewFacts.

(** ** Removing a favourite by its shortcut *)

Lemma remove_shortcut_get v key x :
  dict_get x (nodes (ui_explorer.db (ui_explorer._remove_shortcut v key)))
  = if String.eqb key x then None
    else match dict_get x (nodes (ui_explorer.db v)) with
         | Some n =>
             if String.eqb (favorites_root_id (ui_explorer.db v)) x
                && NodeType_eqb (type n) folder
             then Some (set_children n
                          (filter (fun c => negb (String.eqb c key))
                                  (children n)))
             else Some n
         | None => None
         end.
Proof.
  unfold ui_explorer._remove_shortcut. cbn [ui_explorer.db ui_explorer.with_nodes
                                            nodes set_nodes].
  set (ns := nodes (ui_explorer.db v)).
  set (fk := favorites_root_id (ui_explorer.db v)).
  rewrite dict_get_pop. destruct (String.eqb key x); auto.
  destruct (dict_get fk ns) as [fav|] eqn:F.
  - destruct (NodeType_eqb (type fav) folder) eqn:Tf.
    + rewrite dict_get_set. destruct (String.eqb fk x) eqn:E.
      * apply String.eqb_eq in E. subst x. now rewrite F, Tf.
      * now destruct (dict_get x ns).
    + destruct (dict_get x ns) as [n|] eqn:X; auto.
      destruct (String.eqb fk x) eqn:E; auto.
      apply String.eqb_eq in E. subst x.
      assert (n = fav) by congruence. subst n. now rewrite Tf.
  - destruct (dict_get x ns) as [n|] eqn:X; auto.
    destruct (String.eqb fk x) eqn:E; auto.
    apply String.eqb_eq in E. subst x. congruence.
Qed.

(** X23. Toggling the favourite with a shortcut selected removes that
    shortcut: it is gone from the store, the Favorites folder lists it no
    more (every occurrence is dropped) and keeps its other children in
    order, no other node changes and no identifier is drawn.  When it was
    the only shortcut to its target among the Favorites children, the
    target is no longer favourited. *)
Theorem toggle_on_shortcut_removes_it (v : ui_explorer.ExplorerView)
    (rid lid : option string) (key : string) (sc : Node) (g : idgen) :
  let ns := nodes (ui_explorer.db v) in
  let fk := favorites_root_id (ui_explorer.db v) in
  ui_explorer._get_selected_node_anywhere v rid lid = Some (key, sc) ->
  type sc = shortcut -> id sc = key ->
  exists v',
    ui_explorer.toggle_favorite_selected v rid lid g = (v', g)
    /\ dict_get key (nodes (ui_explorer.db v')) = None
    /\ (forall fav, dict_get fk ns = Some fav -> type fav = folder ->
          dict_get fk (nodes (ui_explorer.db v'))
          = Some (set_children fav
                    (filter (fun c => negb (String.eqb c key)) (children fav))))
    /\ (forall x, x <> key -> x <> fk ->
          dict_get x (nodes (ui_explorer.db v')) = dict_get x ns)
    /\ (forall f, target_id sc = Some f ->
          shortcut_count (ui_explorer.db v) f <= 1 ->
          (exists fav, dict_get fk ns = Some fav /\ In key (children fav)) ->
          favorited (ui_explorer.db v') f = false).
Proof.
  intros ns fk Hsel Hty Hid.
  pose proof (selected_get _ _ _ _ _ Hsel) as Hget. fold ns in Hget.
  unfold ui_explorer.toggle_favorite_selected. rewrite Hsel, Hty, Hid.
  eexists. split; [reflexivity|].
  assert (Kf : key <> fk \/ forall fav, dict_get fk ns = Some fav ->
                                        type fav <> folder).
  { destruct (string_dec key fk) as [->|N]; [right|now left].
    intros fav Hf. assert (fav = sc) by congruence. subst fav. congruence. }
  split; [rewrite remove_shortcut_get; now rewrite String.eqb_refl|].
  split.
  { intros fav Hf Tf. rewrite remove_shortcut_get. fold ns fk.
    destruct Kf as [N|N]; [|now apply N in Hf].
    rewrite (proj2 (String.eqb_neq key fk) N), Hf, String.eqb_refl, Tf.
    reflexivity. }
  split.
  { intros x Hx Hfk. rewrite remove_shortcut_get. fold ns fk.
    rewrite (proj2 (String.eqb_neq key x)) by congruence.
    rewrite (proj2 (String.eqb_neq fk x)) by congruence.
    now destruct (dict_get x ns). }
  intros f Htg Hone (fav & Hf & Hin).
  unfold favorited, shortcut_count in *.
  cbn [favorites_root_id]. 
  assert (Rf : favorites_root_id (ui_explorer.db (ui_explorer._remove_shortcut v key)) = fk)
    by reflexivity.
  rewrite Rf. fold ns fk in Hone. rewrite Hf in Hone.
  rewrite remove_shortcut_get. fold ns fk.
  destruct Kf as [N|N].
  2:{ destruct (String.eqb key fk); [reflexivity|].
      rewrite Hf, String.eqb_refl.
      destruct (NodeType_eqb (type fav) folder) eqn:Tf; cbn [andb].
      - apply NodeType_eqb_eq in Tf. now apply N in Hf.
      - now rewrite Tf. }
  rewrite (proj2 (String.eqb_neq key fk) N), Hf, String.eqb_refl.
  destruct (NodeType_eqb (type fav) folder) eqn:Tf; cbn [andb];
    [|now rewrite Tf].
  cbn [type set_children children]. rewrite Tf. cbn [negb].
  destruct (existsb _ _) eqn:E; [|reflexivity].
  apply existsb_exists in E. destruct E as (c & Hc & Sc).
  apply filter_In in Hc. destruct Hc as [Hc Hne].
  apply negb_true_iff, String.eqb_neq in Hne.
  assert (Sk : shortcut_to ns f key = true).
  { unfold shortcut_to. rewrite Hget, Hty, Htg. simpl. apply String.eqb_refl. }
  assert (Sc0 : shortcut_to ns f c = true).
  { unfold shortcut_to in *. rewrite remove_shortcut_get in Sc. fold ns fk in Sc.
    rewrite (proj2 (String.eqb_neq key c)) in Sc by congruence.
    destruct (dict_get c ns) as [n|]; [|discriminate].
    destruct (_ && _); exact Sc. }
  exfalso. apply Hne. exact (filter_le1 _ _ _ _ Hone Hc Sc0 Hin Sk).
Qed.

Lemma toggle_on_shortcut_removes_it_witness :
  exists v',
    ui_explorer.toggle_favorite_selected sample_view (Some "s") None uuids
    = (v', uuids)
    /\ dict_get "s" (nodes (ui_explorer.db v')) = None
    /\ dict_get "fav" (nodes (ui_explorer.db v'))
       = Some (folder_node "fav" "Favorites" [])
    /\ favorited (ui_explorer.db v') "f" = false.
Proof.
  destruct (toggle_on_shortcut_removes_it sample_view (Some "s") None "s"
              (shortcut_node "s" "Affidavit" "f") uuids eq_refl eq_refl eq_refl)
    as (v' & E & G & F & _ & U).
  exists v'. split; [exact E|]. split; [exact G|]. split.
  - exact (F (folder_node "fav" "Favorites" ["s"]) eq_refl eq_refl).
  - apply U; [reflexivity | vm_compute; lia |].
    exists (folder_node "fav" "Favorites" ["s"]). split; [reflexivity|now left].
Defined.

(** ** The entries of an imported bundle *)

Lemma remap_all_injective g0 :
  (forall i j, used g0 <= i -> used g0 <= j -> draw g0 i = draw g0 j -> i = j) ->
  forall keys m g,
    draw g = draw g0 -> used g0 <= used g ->
    (forall o x, dict_get o m = Some x ->
       exists i, used g0 <= i < used g /\ x = draw g0 i) ->
    injective m ->
    injective (fst (bundle_io.remap_all keys m g)).
Proof.
  intros Hinj keys.
  induction keys as [|k r IH]; intros m g Hd Hu Hm Him; simpl; [exact Him|].
  unfold gbind, new_id. cbn [fst snd]. apply IH; cbn [draw used]; auto.
  - intros o x. rewrite dict_get_set. destruct (String.eqb k o).
    + intros [= <-]. exists (used g). rewrite Hd. split; [lia|reflexivity].
    + intros H. destruct (Hm _ _ H) as (i & Hi & ->). exists i.
      split; [lia|reflexivity].
  - intros o1 o2 y. rewrite !dict_get_set.
    destruct (String.eqb k o1) eqn:E1, (String.eqb k o2) eqn:E2.
    + apply String.eqb_eq in E1, E2. congruence.
    + intros [= <-] H2. destruct (Hm _ _ H2) as (i & Hi & E).
      rewrite Hd in E. apply Hinj in E; lia.
    + intros H1 [= <-]. destruct (Hm _ _ H1) as (i & Hi & E).
      rewrite Hd in E. apply Hinj in E; lia.
    + apply Him.
Qed.

Lemma import_nodes_spec id_map : forall items ns ns',
  injective id_map -> NoDup (dict_keys items) ->
  bundle_io.import_nodes id_map items ns = (Ok tt, ns') ->
  (forall old d, In (old, d) items ->
     exists n, bundle_io.import_node id_map old d = Ok n
               /\ dict_get old id_map = Some (id n)
               /\ dict_get (id n) ns' = Some n)
  /\ (forall k, (forall old, In old (dict_keys items) ->
                             dict_get old id_map <> Some k) ->
                dict_get k ns' = dict_get k ns).
Proof.
  induction items as [|[o d] r IH]; intros ns ns' Hinj Hnd; simpl.
  - intros [= <-]. split; [intros ? ? []|reflexivity].
  - inversion Hnd as [|? ? Hk Hr]; subst.
    destruct (bundle_io.import_node id_map o d) as [n| |] eqn:N;
      try discriminate.
    intros H. destruct (IH _ _ Hinj Hr H) as [A B].
    assert (Ko : dict_get o id_map = Some (id n)).
    { pose proof (import_node_id _ _ _ _ N) as I.
      unfold ui_explorer.subscript in I.
      destruct (dict_get o id_map); [now injection I as ->|discriminate]. }
    split.
    + intros old d' [[= <- <-]|Hin].
      * exists n. split; [exact N|]. split; [exact Ko|].
        rewrite B; [apply dict_get_set_eq|].
        intros old Hold Hg. apply Hk. now rewrite (Hinj _ _ _ Ko Hg).
      * now apply A.
    + intros k Hnot. rewrite B.
      * apply dict_get_set_ne. intros E. apply (Hnot o); [now left|].
        now rewrite <- E.
      * intros old Hin. apply Hnot. now right.
Qed.

(** X25. When [import_bundle_into_folder] answers (True, message) for a
    bundle whose node ids are distinct, every entry of the bundle is in
    the store as the loop built it, under the identifier drawn for its
    id: a folder or a shortcut with the entry's name, without content or
    target, a folder with its children translated through the id table
    (those the table does not know left out), a shortcut with none.
    (uuid4 returns identifiers new to the store.) *)
Theorem import_files_every_entry (db db' : Database) (bundle : dict json)
    (target msg : string) (g g' : idgen) (items : dict json) :
  fresh_for g (nodes db) ->
  get_default "nodes" (JObj []) bundle = JObj items ->
  NoDup (dict_keys items) ->
  bundle_io.import_bundle_into_folder db bundle target g
  = (Ok (true, msg), db', g') ->
  let id_map := fst (bundle_io.remap_all (dict_keys items) [] g) in
  forall old d, In (old, d) items ->
    exists n o,
      d = JObj o
      /\ bundle_io.import_node id_map old d = Ok n
      /\ dict_get old id_map = Some (id n)
      /\ dict_get (id n) (nodes db) = None
      /\ dict_get (id n) (nodes db') = Some n
      /\ type n <> file /\ content n = None /\ target_id n = None
      /\ get_default "name" (JStr "Imported") o = JStr (name n)
      /\ match type n with
         | folder => bundle_io.import_children id_map o = Ok (children n)
         | _ => children n = []
         end.
Proof.
  intros Hfr Hitems Hnd. unfold bundle_io.import_bundle_into_folder.
  destruct (dict_get target (nodes db)) as [t|] eqn:T; [|discriminate].
  destruct (NodeType_eqb (type t) folder); [|discriminate]. cbn [negb].
  destruct (negb (truthy _) || negb (truthy _)); [discriminate|].
  rewrite Hitems.
  destruct (get "bundle_root_id" bundle) as [| | |root| |];
    try discriminate.
  destruct (negb (dict_mem root items)); [discriminate|].
  unfold gbind.
  pose proof (remap_all_spec (dict_keys items) [] g) as (D & U & I & O).
  assert (Hinj : injective (fst (bundle_io.remap_all (dict_keys items) [] g))).
  { apply (remap_all_injective g); auto.
    - exact (proj2 Hfr).
    - intros o x. discriminate.
    - intros o1 o2 x. discriminate. }
  destruct (bundle_io.remap_all (dict_keys items) [] g) as [m g1].
  cbn [fst snd] in *.
  assert (Hnew : forall old new, dict_get old m = Some new ->
                                 dict_get new (nodes db) = None).
  { intros old new Hg.
    destruct (in_dec string_dec old (dict_keys items)) as [Hin|Hn].
    - destruct (I old Hin) as (i & Hi & Gi).
      assert (new = draw g i) by congruence. subst new.
      now apply fresh_not_key.
    - rewrite (O old Hn) in Hg. discriminate. }
  destruct (bundle_io.import_nodes m items (nodes db)) as [[[]| |] ns] eqn:N;
    try discriminate.
  destruct (import_nodes_spec _ _ _ _ Hinj Hnd N) as [A _].
  unfold ui_explorer.subscript.
  destruct (dict_get root m) as [new_root|]; [|discriminate].
  destruct (dict_get target ns) as [t'|]; [|discriminate].
  intros [= _ <- _] old d Hin.
  destruct (A old d Hin) as (n & Hn & Ko & Gn).
  assert (Nn : dict_get (id n) (nodes db) = None) by eauto.
  destruct d as [| | | | |o]; try discriminate.
  exists n, o. split; [reflexivity|]. split; [exact Hn|].
  split; [exact Ko|]. split; [exact Nn|].
  split.
  { cbn [nodes set_nodes]. rewrite dict_get_set_ne; [exact Gn|].
    intros E. rewrite <- E in Nn. congruence. }
  revert Hn. unfold bundle_io.import_node, ui_explorer.subscript.
  rewrite Ko. cbn [rbind].
  destruct (bundle_io.import_children m o) as [cs| |] eqn:C; cbn [rbind];
    try discriminate.
  destruct (get_default "name" (JStr "Imported") o) as [| | |nm| |];
    cbn [rbind]; try discriminate.
  destruct (if str_is _ "folder" then _ else _) as [[| |]| |];
    cbn [rbind]; try discriminate; intros [= <-];
    cbn [id type name children content target_id];
    repeat split; try discriminate; auto.
Qed.

Lemma import_files_every_entry_witness :
  exists db' g' n,
    bundle_io.import_bundle_into_folder sample_db folder_bundle "qc" uuids
    = (Ok (true, "Imported."), db', g')
    /\ dict_get "#" (nodes db') = Some n
    /\ type n = folder /\ name n = "Deeds" /\ children n = ["#|"].
Proof.
  destruct (bundle_io.import_bundle_into_folder sample_db folder_bundle "qc" uuids)
    as [[r db'] g'] eqn:E.
  assert (R : r = Ok (true, "Imported.")) by (vm_compute in E; congruence).
  subst r.
  destruct (import_files_every_entry sample_db db' folder_bundle "qc" "Imported." uuids g'
              [ raw_node "d" "folder" "Deeds" ["e"] [];
                raw_node "e" "folder" "Old" [] [] ]
              (uuids_fresh (nodes sample_db) 0 eq_refl) eq_refl)
    with (old := "d") (d := snd (raw_node "d" "folder" "Deeds" ["e"] []))
    as (n & o & Ho & Hn & Ko & _ & Gn & _ & _ & _ & Nm & Ch).
  - simpl. repeat constructor; simpl; intuition discriminate.
  - exact E.
  - now left.
  - exists db', g', n. split; [reflexivity|].
    vm_compute in Hn. injection Hn as <-.
    split; [exact Gn|]. repeat split.
Defined.

(** ** Adding and removing a copy section *)

Section BlockFacts.
Import ui_file_view.

Lemma list_pop_last {A} (l : list A) x : list_pop (length l) (l ++ [x]) = l.
Proof.
  unfold list_pop. rewrite firstn_app, Nat.sub_diag, firstn_all.
  cbn [firstn]. rewrite skipn_all2 by (rewrite length_app; simpl; lia).
  now rewrite !app_nil_r.
Qed.

(** X24. Adding a copy section appends one blank section and changes
    nothing else; removing the last section right after it gives the view
    back, provided the view had a section to begin with.  A locked view
    takes neither. *)
Theorem add_then_remove_last (fv : FileView) :
  (lock_var fv = true ->
   _add_block fv = fv /\ forall idx, _remove_block fv idx = (fv, false))
  /\ (lock_var fv = false ->
      _add_block fv = with_blocks fv (block_widgets fv ++ [blank_rich_doc])
      /\ (block_widgets fv <> [] ->
          _remove_block (_add_block fv)
                        (Z.of_nat (length (block_widgets fv)))
          = (fv, false))).
Proof.
  unfold _add_block, _remove_block. split; intros L; rewrite L.
  - split; [reflexivity|]. intros idx. now rewrite ?L.
  - split; [reflexivity|]. intros Hne.
    cbn [lock_var with_blocks block_widgets]. rewrite ?L.
    rewrite length_app. cbn [length].
    assert (Hl : 1 <= length (block_widgets fv))
      by (destruct (block_widgets fv); [congruence|simpl; lia]).
    rewrite (proj2 (Nat.leb_gt _ _)) by lia.
    rewrite (proj2 (Z.ltb_ge _ _)) by lia.
    rewrite (proj2 (Z.leb_gt _ _)) by lia.
    cbn [orb]. rewrite Nat2Z.id.
    change (JObj [("text", JStr ""); ("tags", JArr [])]) with blank_rich_doc.
    rewrite list_pop_last.
    destruct fv as [d f l bw]. reflexivity.
Qed.

Lemma add_then_remove_last_witness :
  let fv := {| db := sample_db; file_id := Some "f"; lock_var := false;
               block_widgets := [JStr "a"] |} in
  _remove_block (_add_block fv) 1 = (fv, false).
Proof.
  intros fv. apply (proj2 (proj2 (add_then_remove_last fv) eq_refl)).
  discriminate.
Defined.

End BlockFacts.
